(** * odc-stac: the STAC item to ODC dataset transformation

    A shallow embedding of [libs/index/odc/index/stac.py] and the
    properties of its canonicalisation pipeline:
    [_stac_product_lookup], [_get_stac_bands], [_geographic_to_projected]
    and [stac_transform].

    Python values are modelled by the type [value] (the JSON fragment of
    Python: [None], booleans, integers, floats, strings, lists and
    dictionaries).  Dictionaries are association lists in insertion order,
    as Python iterates them; a Python dictionary has no two entries with
    the same key, and the dictionaries the code builds keep it so.
    Integers are unbounded, floats are binary64 numbers ([spec_float]).
    Strings are byte strings: the case mapping is the ASCII one and paths
    are POSIX paths.  A function that may raise returns in [exc], whose
    [Raise] carries the exception. *)

From Stdlib Require Import List String Ascii ZArith Lia Bool.
From Stdlib Require Import DecimalString SpecFloat.
Import ListNotations.

Local Open Scope string_scope.
Local Open Scope Z_scope.

(** ** Python values *)

#[local] Set Warnings "-register-all".

Inductive value : Type :=
| VNone
| VBool (b : bool)
| VInt (z : Z)
| VFloat (f : spec_float)
| VStr (s : string)
| VList (l : list value)
| VDict (d : list (string * value)).

(** A dictionary with string keys, in insertion order. *)
Definition dict : Type := list (string * value).

(** ** Exceptions *)

Inductive exn : Type :=
| KeyError (key : value)
| TypeError
| AttributeError
| IndexError
| ValueError
| OverflowError
| LibraryError (origin : string).

(** The name of the exception class, as [type(e).__name__] gives it. *)
Definition exn_name (e : exn) : string :=
  match e with
  | KeyError _ => "KeyError"
  | TypeError => "TypeError"
  | AttributeError => "AttributeError"
  | IndexError => "IndexError"
  | ValueError => "ValueError"
  | OverflowError => "OverflowError"
  | LibraryError o => o
  end.

Inductive exc (A : Type) : Type :=
| Ok (a : A)
| Raise (e : exn).

Arguments Ok {A} a.
Arguments Raise {A} e.

Definition bind {A B : Type} (m : exc A) (k : A -> exc B) : exc B :=
  match m with
  | Ok a => k a
  | Raise e => Raise e
  end.

Notation "x <- m ;; k" := (bind m (fun x => k))
  (at level 61, m at next level, right associativity).
Notation "' pat <- m ;; k" := (bind m (fun x => match x with pat => k end))
  (at level 61, pat pattern, m at next level, right associativity).

(** The computation raises an exception. *)
Definition fails {A : Type} (m : exc A) : Prop := exists e, m = Raise e.

(** ** Dictionaries *)

Module Dict.

Definition keys (d : dict) : list string := map fst d.

(** [d.get(k)]: the value stored under [k], if any. *)
Fixpoint get (k : string) (d : dict) : option value :=
  match d with
  | [] => None
  | (k', v) :: d' => if String.eqb k k' then Some v else get k d'
  end.

(** [k in d]. *)
Definition mem (k : string) (d : dict) : bool :=
  match get k d with Some _ => true | None => false end.

(** [d[k] = v]: an existing key keeps its place, a new one goes last. *)
Fixpoint set (k : string) (v : value) (d : dict) : dict :=
  match d with
  | [] => [(k, v)]
  | (k', v') :: d' =>
      if String.eqb k k' then (k', v) :: d' else (k', v') :: set k v d'
  end.

(** [del d[k]] for a key that is present. *)
Fixpoint del (k : string) (d : dict) : dict :=
  match d with
  | [] => []
  | (k', v') :: d' => if String.eqb k k' then d' else (k', v') :: del k d'
  end.

(** Number of entries stored under [k]. *)
Definition count (k : string) (d : dict) : nat :=
  List.length (filter (String.eqb k) (keys d)).

End Dict.

(** ** Subscription, [x[k]] *)

Fixpoint string_nth (n : nat) (s : string) : option ascii :=
  match s, n with
  | EmptyString, _ => None
  | String c _, O => Some c
  | String _ s', S n' => string_nth n' s'
  end.

(** [x['k']] with a string key. *)
Definition getitem (x : value) (k : string) : exc value :=
  match x with
  | VDict d =>
      match Dict.get k d with
      | Some v => Ok v
      | None => Raise (KeyError (VStr k))
      end
  | _ => Raise TypeError
  end.

(** Python's index normalisation: a negative index counts from the end. *)
Definition norm_index (i : Z) (len : nat) : option nat :=
  let j := if i <? 0 then i + Z.of_nat len else i in
  if (0 <=? j) && (j <? Z.of_nat len) then Some (Z.to_nat j) else None.

(** [x[i]] with an integer index. *)
Definition getindex (x : value) (i : Z) : exc value :=
  match x with
  | VList l =>
      match norm_index i (List.length l) with
      | Some n =>
          match nth_error l n with
          | Some v => Ok v
          | None => Raise IndexError
          end
      | None => Raise IndexError
      end
  | VStr s =>
      match norm_index i (String.length s) with
      | Some n =>
          match string_nth n s with
          | Some c => Ok (VStr (String c EmptyString))
          | None => Raise IndexError
          end
      | None => Raise IndexError
      end
  | VDict _ => Raise (KeyError (VInt i))
  | _ => Raise TypeError
  end.

(** Truth value of an object, as [if x:] tests it. *)
Definition truthy (x : value) : bool :=
  match x with
  | VNone => false
  | VBool b => b
  | VInt z => negb (z =? 0)
  | VFloat (S754_zero _) => false
  | VFloat _ => true
  | VStr s => negb (String.eqb s "")
  | VList l => match l with [] => false | _ => true end
  | VDict d => match d with [] => false | _ => true end
  end.

(** ** Strings *)

Module Str.

(** A string is held as the bytes of its UTF-8 encoding; it is ASCII text
    when every byte is below 128, and then bytes and characters agree. *)
Definition is_ascii (s : string) : bool :=
  forallb (fun c => Nat.ltb (nat_of_ascii c) 128) (list_ascii_of_string s).

(** [s.lower()] for ASCII text [s]: the letters A to Z become a to z and
    every other character is kept.  For other text, see [lower] below. *)
Definition lower_letter (c : ascii) : ascii :=
  let n := nat_of_ascii c in
  if (Nat.leb 65 n && Nat.leb n 90)%bool then ascii_of_nat (n + 32) else c.

Fixpoint ascii_lower (s : string) : string :=
  match s with
  | EmptyString => EmptyString
  | String c s' => String (lower_letter c) (ascii_lower s')
  end.

(** [s[-n:]]: the last [n] characters, the whole string when shorter. *)
Definition last_n (n : nat) (s : string) : string :=
  substring (String.length s - n) n s.

(** [s.replace(old, new)] for a non-empty [old]: the occurrences of
    [old] are found from the left and do not overlap.  [skip] counts the
    characters of a match that remain to be dropped. *)
Fixpoint replace_from (old new : string) (skip : nat) (s : string) : string :=
  match s with
  | EmptyString => EmptyString
  | String c s' =>
      match skip with
      | S k => replace_from old new k s'
      | O =>
          if prefix old s
          then new ++ replace_from old new (String.length old - 1) s'
          else String c (replace_from old new 0 s')
      end
  end.

Definition replace (old new s : string) : string := replace_from old new 0 s.

(** [s.find(old)]: the offset of the leftmost occurrence of [old]. *)
Fixpoint find (old s : string) : option nat :=
  match s with
  | EmptyString => if prefix old EmptyString then Some O else None
  | String _ s' => if prefix old s then Some O else option_map S (find old s')
  end.

(** [s.endswith(suffix)]. *)
Definition endswith (suffix s : string) : bool :=
  (Nat.leb (String.length suffix) (String.length s)
   && String.eqb (last_n (String.length suffix) s) suffix)%bool.

(** [s.split(sep)] for a one-character separator. *)
Fixpoint split (sep : ascii) (s : string) : list string :=
  match s with
  | EmptyString => [EmptyString]
  | String c s' =>
      if Ascii.eqb c sep then EmptyString :: split sep s'
      else match split sep s' with
           | [] => [String c EmptyString]
           | w :: ws => String c w :: ws
           end
  end.

(** Drop the trailing occurrences of [c]. *)
Fixpoint rstrip (c : ascii) (s : string) : string :=
  match s with
  | EmptyString => EmptyString
  | String a s' =>
      match rstrip c s' with
      | EmptyString => if Ascii.eqb a c then EmptyString else String a EmptyString
      | r => String a r
      end
  end.

Fixpoint repeat (c : ascii) (n : nat) : string :=
  match n with
  | O => EmptyString
  | S n' => String c (repeat c n')
  end.

(** [str(z)] for an integer. *)
Definition of_Z (z : Z) : string := NilZero.string_of_int (Z.to_int z).

End Str.

(** [pathlib.Path(p).name] on POSIX: the last component of the path that
    is neither empty nor a single dot, the empty string when there is none. *)
Definition path_name (p : string) : string :=
  let parts :=
    filter (fun c => negb (String.eqb c "" || String.eqb c "."))
           (Str.split "/"%char p) in
  last parts "".

(** ** Numbers *)

(** [float(z)]: the nearest binary64 number, ties to even; an integer
    beyond the range of binary64 raises [OverflowError]. *)
Definition float_of_int (z : Z) : exc spec_float :=
  match binary_normalize 53 1024 z 0 false with
  | S754_infinity _ => Raise OverflowError
  | f => Ok f
  end.

Module Fmt.

(** Number of decimal digits of a positive integer. *)
Definition ndigits (n : Z) : Z := Z.of_nat (String.length (Str.of_Z n)).

(** The least [k >= k0] with [den <= num * 10^(k - k0 + 1)], by search. *)
Fixpoint shift_up (fuel : nat) (num den k0 : Z) : Z :=
  match fuel with
  | O => k0
  | S fuel' =>
      if den <=? num * 10 then k0 else shift_up fuel' (num * 10) den (k0 + 1)
  end.

(** The decimal exponent [x] of the positive rational [num/den]:
    [10^x <= num/den < 10^(x+1)]. *)
Definition dec_exponent (num den : Z) : Z :=
  if den <=? num then ndigits (num / den) - 1
  else - shift_up (S (Z.to_nat (Z.log2 den))) num den 1.

(** [num/den] rounded to the nearest integer, ties to even. *)
Definition round_half_even (num den : Z) : Z :=
  let q := num / den in
  let r := num mod den in
  match 2 * r ?= den with
  | Lt => q
  | Gt => q + 1
  | Eq => if Z.even q then q else q + 1
  end.

(** The [p] significant digits of [num/den] and its decimal exponent
    after rounding. *)
Definition sig_digits (p : Z) (num den : Z) : Z * Z :=
  let x := dec_exponent num den in
  let s := x - (p - 1) in
  let q := if 0 <=? s then round_half_even num (den * 10 ^ s)
           else round_half_even (num * 10 ^ (- s)) den in
  if q =? 10 ^ p then (10 ^ (p - 1), x + 1) else (q, x).

Definition with_point (int frac : string) : string :=
  match frac with
  | EmptyString => int
  | _ => int ++ "." ++ frac
  end.

(** The exponent of the scientific notation: a sign and at least two
    digits. *)
Definition exponent (x : Z) : string :=
  let a := Str.of_Z (Z.abs x) in
  (if x <? 0 then "-" else "+") ++
  (if Nat.ltb (String.length a) 2 then "0" ++ a else a).

(** The general format ['g'] with [p] significant digits of the positive
    number [m * 2^e]: fixed notation when the decimal exponent [x] has
    [-4 <= x < p], scientific notation otherwise, trailing zeros and a
    trailing point removed. *)
Definition general (p : Z) (m : positive) (e : Z) : string :=
  let num := if 0 <=? e then Z.pos m * 2 ^ e else Z.pos m in
  let den := if 0 <=? e then 1 else 2 ^ (- e) in
  let '(q, x) := sig_digits p num den in
  let ds := Str.of_Z q in
  if (-4 <=? x) && (x <? p) then
    if 0 <=? x then
      with_point (substring 0 (Z.to_nat (x + 1)) ds)
                 (Str.rstrip "0" (substring (Z.to_nat (x + 1))
                                            (Z.to_nat (p - 1 - x)) ds))
    else
      "0." ++ Str.repeat "0" (Z.to_nat (- x - 1)) ++ Str.rstrip "0" ds
  else
    with_point (substring 0 1 ds)
               (Str.rstrip "0" (substring 1 (Z.to_nat (p - 1)) ds))
    ++ "e" ++ exponent x.

(** [format(f, 'g')] for a float: six significant digits. *)
Definition float_g (f : spec_float) : string :=
  match f with
  | S754_zero s => if s then "-0" else "0"
  | S754_infinity s => if s then "-inf" else "inf"
  | S754_nan => "nan"
  | S754_finite s m e => (if s then "-" else "") ++ general 6 m e
  end.

End Fmt.

(** [format(x, 'g')], the conversion of [f'{x:g}']: integers and booleans
    are formatted as floats, strings refuse the format code with
    [ValueError], other objects do not support format strings. *)
Definition format_g (x : value) : exc string :=
  match x with
  | VFloat f => Ok (Fmt.float_g f)
  | VInt z => f <- float_of_int z ;; Ok (Fmt.float_g f)
  | VBool b => Ok (if b then "1" else "0")
  | VStr _ => Raise ValueError
  | VNone | VList _ | VDict _ => Raise TypeError
  end.

(** ** External collaborators

    [stac.py] imports [odc_uuid] from [odc.index] and [Geometry] from
    [datacube.utils.geometry]; neither is part of the file.  They are the
    fields of [Env], and so is the rendering of floats and containers by
    the built-in [str]. *)

Record Env : Type := {
  (** [str(odc_uuid(algorithm, version, sources))]. *)
  odc_uuid : string -> string -> list value -> string;
  (** The geometry objects of [datacube.utils.geometry]. *)
  Geom : Type;
  (** [Geometry(geojson, crs)]. *)
  Geometry : value -> string -> exc Geom;
  (** [geom.to_crs(crs, resolution=r)]. *)
  to_crs : Geom -> string -> spec_float -> exc Geom;
  (** [geom.is_valid]. *)
  is_valid : Geom -> bool;
  (** [geom.json], the GeoJSON mapping: its ['type'] and its
      ['coordinates']. *)
  geom_type : Geom -> string;
  coordinates : Geom -> value;
  (** [str(x)] for a float, a list or a dictionary. *)
  repr_other : value -> string;
  (** [s.lower()] for a string [s] that is not ASCII text: the case
      mapping of the Unicode tables of the interpreter. *)
  unicode_lower : string -> string
}.

(** [math.inf]. *)
Definition math_inf : spec_float := S754_infinity false.

(** [str(x)], which is also [format(x, '')] and the conversion of an
    empty replacement field. *)
Definition py_str (E : Env) (x : value) : string :=
  match x with
  | VStr s => s
  | VInt z => Str.of_Z z
  | VBool b => if b then "True" else "False"
  | VNone => "None"
  | _ => repr_other E x
  end.

(** [s.lower()] for a string: on ASCII text the letters A to Z become a
    to z; on any other text the result is the one of the Unicode case
    mapping, [unicode_lower]. *)
Definition lower (E : Env) (s : string) : string :=
  if Str.is_ascii s then Str.ascii_lower s else unicode_lower E s.

(** [x.lower()]: only strings have the method. *)
Definition str_lower (E : Env) (x : value) : exc value :=
  match x with
  | VStr s => Ok (VStr (lower E s))
  | _ => Raise AttributeError
  end.

(** [x.replace(old, new)]: only strings have the method. *)
Definition str_replace (x : value) (old new : string) : exc value :=
  match x with
  | VStr s => Ok (VStr (Str.replace old new s))
  | _ => Raise AttributeError
  end.

(** [x in l] for a list [l] of strings. *)
Definition value_in (x : value) (l : list string) : bool :=
  match x with
  | VStr s => existsb (String.eqb s) l
  | _ => false
  end.

(** [x == s] for a string [s]. *)
Definition value_eq_str (x : value) (s : string) : bool :=
  match x with
  | VStr s' => String.eqb s' s
  | _ => false
  end.

(** [x.items()]: only dictionaries have the method. *)
Definition dict_items (x : value) : exc dict :=
  match x with
  | VDict d => Ok d
  | _ => Raise AttributeError
  end.

(** [pathlib.Path(x).name]. *)
Definition path_name_of (x : value) : exc value :=
  match x with
  | VStr p => Ok (VStr (path_name p))
  | _ => Raise TypeError
  end.

(** ** The module [odc.index.stac] *)

Definition KNOWN_CONSTELLATIONS : list string := ["sentinel-2"].

Definition COG_TYPES : list string :=
  ["image/tiff; application=geotiff; profile=cloud-optimized"].

Definition _stac_product_lookup (E : Env) (item : value)
  : exc (value * value * value) :=
  properties <- getitem item "properties" ;;
  product_label <- getitem item "id" ;;
  product_name <- getitem properties "platform" ;;
  let region_code := VNone in
  constellation <- getitem properties "constellation" ;;
  if value_in constellation KNOWN_CONSTELLATIONS then
    if value_eq_str constellation "sentinel-2" then
      product_label <- getitem properties "sentinel:product_id" ;;
      let product_name := VStr "s2_l2a" in
      epsg <- getitem properties "proj:epsg" ;;
      band <- getitem properties "sentinel:latitude_band" ;;
      square <- getitem properties "sentinel:grid_square" ;;
      let region_code :=
        VStr (Str.last_n 2 (py_str E epsg) ++ py_str E band ++ py_str E square) in
      Ok (product_label, product_name, region_code)
    else Ok (product_label, product_name, region_code)
  else Ok (product_label, product_name, region_code).

(** The grid key of an asset, [f'g{transform[0]:g}m']. *)
Definition grid_key (asset : value) : exc string :=
  transform <- getitem asset "proj:transform" ;;
  t0 <- getindex transform 0 ;;
  s <- format_g t0 ;;
  Ok ("g" ++ s ++ "m").

(** One iteration of the loop of [_get_stac_bands] over [assets.items()],
    on the dictionaries [bands] and [grids] built so far. *)
Definition bands_step (default_grid : string) (relative : bool)
  (st : dict * dict) (entry : string * value) : exc (dict * dict) :=
  let '(bands, grids) := st in
  let '(asset_name, asset) := entry in
  ty <- getitem asset "type" ;;
  if negb (value_in ty COG_TYPES) then Ok (bands, grids)
  else
    grid <- grid_key asset ;;
    grids <- (if negb (Dict.mem grid grids) then
                shape <- getitem asset "proj:shape" ;;
                transform <- getitem asset "proj:transform" ;;
                Ok (Dict.set grid
                      (VDict [("shape", shape); ("transform", transform)])
                      grids)
              else Ok grids) ;;
    path <- getitem asset "href" ;;
    path <- (if relative then path_name_of path else Ok path) ;;
    let band_info := [("path", path)] in
    let band_info :=
      if negb (String.eqb grid default_grid)
      then Dict.set "grid" (VStr grid) band_info
      else band_info in
    Ok (Dict.set asset_name (VDict band_info) bands, grids).

Fixpoint bands_loop (default_grid : string) (relative : bool)
  (st : dict * dict) (entries : dict) : exc (dict * dict) :=
  match entries with
  | [] => Ok st
  | entry :: rest =>
      st' <- bands_step default_grid relative st entry ;;
      bands_loop default_grid relative st' rest
  end.

Definition _get_stac_bands (item : value) (default_grid : string)
  (relative : bool) : exc (dict * dict) :=
  assets <- getitem item "assets" ;;
  entries <- dict_items assets ;;
  '(bands, grids) <- bands_loop default_grid relative ([], []) entries ;;
  g <- getitem (VDict grids) default_grid ;;
  let grids := Dict.set "default" g grids in
  let grids := Dict.del default_grid grids in
  Ok (bands, grids).

(** [geom.json]. *)
Definition geom_json (E : Env) (g : Geom E) : value :=
  VDict [("type", VStr (geom_type E g)); ("coordinates", coordinates E g)].

Definition _geographic_to_projected (E : Env) (geometry : value) (crs : string)
  : exc value :=
  geom <- Geometry E geometry "EPSG:4326" ;;
  geom <- to_crs E geom crs math_inf ;;
  if is_valid E geom then Ok (geom_json E geom) else Ok VNone.

(** [d[k1][k2] = v] on a dictionary [d] whose entry [k1] is a dictionary. *)
Definition set_nested (k1 k2 : string) (v : value) (d : dict) : dict :=
  match Dict.get k1 d with
  | Some (VDict inner) => Dict.set k1 (VDict (Dict.set k2 v inner)) d
  | _ => d
  end.

Definition stac_transform (E : Env) (input_stac : value) (relative : bool)
  : exc value :=
  '(product_label, product_name, region_code) <-
     _stac_product_lookup E input_stac ;;
  let deterministic_uuid :=
    odc_uuid E "sentinel-2_stac_process" "1.0.0" [product_label] in
  '(bands, grids) <- _get_stac_bands input_stac "g10m" relative ;;
  properties <- getitem input_stac "properties" ;;
  epsg <- getitem properties "proj:epsg" ;;
  let native_crs := "epsg:" ++ py_str E epsg in
  footprint <- getitem input_stac "geometry" ;;
  geometry <- _geographic_to_projected E footprint native_crs ;;
  name <- str_lower E product_name ;;
  dt <- getitem properties "datetime" ;;
  datetime <- str_replace dt "000+00:00" "Z" ;;
  dt' <- getitem properties "datetime" ;;
  processing_datetime <- str_replace dt' "000+00:00" "Z" ;;
  cloud_cover <- getitem properties "eo:cloud_cover" ;;
  gsd <- getitem properties "gsd" ;;
  instruments <- getitem properties "instruments" ;;
  instrument <- getindex instruments 0 ;;
  platform <- getitem properties "platform" ;;
  let stac_odc :=
    [("$schema", VStr "https://schemas.opendatacube.org/dataset");
     ("id", VStr deterministic_uuid);
     ("crs", VStr native_crs);
     ("grids", VDict grids);
     ("product", VDict [("name", name)]);
     ("label", product_label);
     ("properties",
      VDict [("datetime", datetime);
             ("odc:processing_datetime", processing_datetime);
             ("eo:cloud_cover", cloud_cover);
             ("eo:gsd", gsd);
             ("eo:instrument", instrument);
             ("eo:platform", platform);
             ("odc:file_format", VStr "GeoTIFF")]);
     ("measurements", VDict bands);
     ("lineage", VDict [])] in
  let stac_odc :=
    if truthy region_code
    then set_nested "properties" "odc:region_code" region_code stac_odc
    else stac_odc in
  let stac_odc :=
    if truthy geometry then Dict.set "geometry" geometry stac_odc
    else stac_odc in
  Ok (VDict stac_odc).

Definition stac_transform_absolute (E : Env) (input_stac : value) : exc value :=
  stac_transform E input_stac false.

(** ** A sample environment and sample items

    [sample_env] is a small instance of the collaborators on which the
    pipeline can be run: the identifier is the namespace, the version and
    the label joined by slashes; a geometry is the list of positions of
    the outer ring of a polygon, reprojection leaves it as it is, and a
    ring is valid when it has at least four positions and encloses an
    area, which a ring that crosses itself into two equal halves does
    not; the case mapping is the one of the letters of Latin-1. *)

(** The coordinates of a position with integer coordinates. *)
Definition position (p : value) : Z * Z :=
  match p with
  | VList [VInt x; VInt y] => (x, y)
  | _ => (0, 0)%Z
  end.

(** Twice the signed area a ring encloses. *)
Fixpoint shoelace (ring : list value) : Z :=
  match ring with
  | p :: rest =>
      match rest with
      | q :: _ =>
          let '(x, y) := position p in
          let '(x', y') := position q in
          (x * y' - x' * y + shoelace rest)%Z
      | [] => 0%Z
      end
  | [] => 0%Z
  end.

(** The small letters of the capital letters of Latin-1, on the bytes of
    UTF-8: a capital letter from U+00C0 to U+00DE, the sign U+00D7
    apart, is the byte 195 followed by a byte from 128 to 158, and its
    small letter has 32 more in the second byte. *)
Fixpoint latin1_lower (s : string) : string :=
  match s with
  | EmptyString => EmptyString
  | String c rest =>
      match rest with
      | String c' s' =>
          let n := nat_of_ascii c' in
          if (Nat.eqb (nat_of_ascii c) 195 && Nat.leb 128 n && Nat.leb n 158
              && negb (Nat.eqb n 151))%bool
          then String c (String (ascii_of_nat (n + 32)) (latin1_lower s'))
          else String (Str.lower_letter c) (latin1_lower rest)
      | EmptyString => String (Str.lower_letter c) EmptyString
      end
  end.

Definition sample_env : Env := {|
  odc_uuid := fun algorithm version sources =>
    algorithm ++ "/" ++ version ++ "/" ++
    match sources with
    | [VStr s] => s
    | _ => ""
    end;
  Geom := list value;
  Geometry := fun geojson _ =>
    match getitem geojson "coordinates" with
    | Ok (VList [VList ring]) => Ok ring
    | _ => Raise (LibraryError "ValueError")
    end;
  to_crs := fun g _ _ => Ok g;
  is_valid := fun g =>
    (Nat.leb 4 (List.length g) && negb (Z.eqb (shoelace g) 0))%bool;
  geom_type := fun _ => "Polygon";
  coordinates := fun g => VList [VList g];
  repr_other := fun _ => "?";
  unicode_lower := latin1_lower
|}.

Module Sample.

Definition COG : string :=
  "image/tiff; application=geotiff; profile=cloud-optimized".

Definition asset (type href : string) (transform : list value) : value :=
  VDict [("type", VStr type);
         ("href", VStr href);
         ("proj:shape", VList [VInt 10980; VInt 10980]);
         ("proj:transform", VList transform)].

Definition transform (spacing : value) (x0 y0 : Z) : list value :=
  [spacing; VInt 0; VInt x0; VInt 0; VInt (-10); VInt y0].

Definition point (x y : Z) : value := VList [VInt x; VInt y].

(** A polygon of one ring, as GeoJSON has it. *)
Definition polygon (ring : list value) : value :=
  VDict [("type", VStr "Polygon"); ("coordinates", VList [VList ring])].

Definition square : value :=
  polygon [point 14 50; point 15 50; point 15 51; point 14 51; point 14 50].

(** A footprint whose ring crosses itself. *)
Definition bow_tie : value :=
  polygon [point 14 50; point 15 51; point 15 50; point 14 51; point 14 50].

Definition properties (constellation datetime : string) : dict :=
  [("platform", VStr "Sentinel-2A");
   ("constellation", VStr constellation);
   ("datetime", VStr datetime);
   ("eo:cloud_cover", VInt 12);
   ("gsd", VInt 10);
   ("instruments", VList [VStr "msi"]);
   ("proj:epsg", VInt 32633);
   ("sentinel:product_id", VStr "S2A_MSIL2A_20200101T100000");
   ("sentinel:latitude_band", VStr "U");
   ("sentinel:grid_square", VStr "XV")].

Definition item (id : string) (props : dict) (assets : dict)
  (geometry : value) : value :=
  VDict [("id", VStr id);
         ("properties", VDict props);
         ("assets", VDict assets);
         ("geometry", geometry)].

(** The example scenario: two assets of pixel spacing 10. *)
Definition s2_assets : dict :=
  [("B02", asset COG "https://data.example/S2A/B02.tif"
             (transform (VInt 10) 600000 5700000));
   ("B03", asset COG "https://data.example/S2A/B03.tif"
             (transform (VFloat (binary_normalize 53 1024 10 0 false))
                        600000 5700000))].

Definition s2_item : value :=
  item "S2A_item_1"
       (properties "sentinel-2" "2020-01-01T10:00:00.000000+00:00")
       s2_assets square.

(** Assets of three resolutions and a thumbnail. *)
Definition mixed_assets : dict :=
  [("thumbnail", asset "image/png" "https://data.example/L8/thumb.png" []);
   ("B8A", asset COG "https://data.example/L8/B8A.tif"
             (transform (VInt 20) 600000 5700000));
   ("B02", asset COG "https://data.example/L8/B02.tif"
             (transform (VInt 10) 600000 5700000));
   ("B01", asset COG "https://data.example/L8/B01.tif"
             (transform (VInt 60) 600000 5700000));
   ("B05", asset COG "https://data.example/L8/B05.tif"
             (transform (VInt 20) 600000 5700000))].

Definition other_item : value :=
  item "LC08_item_7"
       (properties "landsat-8" "2020-01-01T10:00:00Z")
       mixed_assets square.

(** Two assets of pixel spacing 10 on different origins. *)
Definition shifted_assets : dict :=
[("B02", asset COG "https://data.example/S2A/B02.tif"
           (transform (VInt 10) 600000 5700000));
 ("B03", asset COG "https://data.example/S2A/B03.tif"
           (transform (VInt 10) 709800 5700000))].

Definition shifted_item : value :=
item "S2A_item_3"
     (properties "sentinel-2" "2020-01-01T10:00:00.000000+00:00")
     shifted_assets square.

(** Another acquisition filed under the product identifier of [s2_item]:
    other assets, another timestamp, a footprint that crosses itself. *)
Definition s2_variant : value :=
VDict [("id", VStr "S2A_item_2");
       ("properties",
        VDict (Dict.set "eo:cloud_cover" (VInt 87)
                 (properties "sentinel-2" "2021-06-30T09:15:00Z")));
       ("assets", VDict mixed_assets);
       ("geometry", bow_tie)].

(** What [_get_stac_bands] returns for [mixed_assets]. *)
Definition mixed_bands : dict * dict :=
([("B8A", VDict [("path", VStr "https://data.example/L8/B8A.tif");
                 ("grid", VStr "g20m")]);
  ("B02", VDict [("path", VStr "https://data.example/L8/B02.tif")]);
  ("B01", VDict [("path", VStr "https://data.example/L8/B01.tif");
                 ("grid", VStr "g60m")]);
  ("B05", VDict [("path", VStr "https://data.example/L8/B05.tif");
                 ("grid", VStr "g20m")])],
 [("g20m", VDict [("shape", VList [VInt 10980; VInt 10980]);
                  ("transform", VList (transform (VInt 20) 600000 5700000))]);
  ("g60m", VDict [("shape", VList [VInt 10980; VInt 10980]);
                  ("transform", VList (transform (VInt 60) 600000 5700000))]);
  ("default", VDict [("shape", VList [VInt 10980; VInt 10980]);
                     ("transform", VList (transform (VInt 10) 600000 5700000))])]).

(** [s2_item] with a footprint that crosses itself. *)
Definition crossed_item : value :=
item "S2A_item_4"
     (properties "sentinel-2" "2020-01-01T10:00:00.000000+00:00")
     s2_assets bow_tie.

(** An item whose acquisition time is an interval. *)
Definition interval_item : value :=
item "S2A_item_6"
     (properties "sentinel-2"
        "2020-01-01T10:00:00.000+00:00/2020-01-01T10:10:00.000+00:00")
     s2_assets square.

(** [s2_item] without its acquisition time. *)
Definition timeless_item : value :=
item "S2A_item_7"
     (Dict.del "datetime"
        (properties "sentinel-2" "2020-01-01T10:00:00.000000+00:00"))
     s2_assets square.

(** An item of the constellation [c] whose properties lack [k]. *)
Definition lacking (c k : string) : value :=
item "item_13" (Dict.del k (properties c "2020-01-01T10:00:00Z"))
     s2_assets square.

(** An item whose only raster has a pixel spacing of 20. *)
Definition coarse_item : value :=
item "S2A_item_8"
     (properties "sentinel-2" "2020-01-01T10:00:00.000000+00:00")
     [("thumbnail", asset "image/png" "https://data.example/S2A/thumb.png" []);
      ("B8A", asset COG "https://data.example/S2A/B8A.tif"
                (transform (VInt 20) 600000 5700000))]
     square.

(** An item of another mission, whose platform has an accented capital
    letter: the bytes 195 and 137 are the letter U+00C9. *)
Definition eole_item : value :=
item "EOLE_item_10"
     (Dict.set "platform"
        (VStr (String (ascii_of_nat 195) (String (ascii_of_nat 137) "OLE-1")))
        (properties "eole" "2020-01-01T10:00:00Z"))
     mixed_assets square.

(** An item without a constellation. *)
Definition anonymous_item : value :=
item "item_9"
     (Dict.del "constellation" (properties "" "2020-01-01T10:00:00Z"))
     s2_assets square.

End Sample.

(** ** Notions used in the statements *)

(** The asset is a cloud-optimised GeoTIFF: the loop does not skip it. *)
Definition is_cog (asset : value) : Prop :=
  exists ty, getitem asset "type" = Ok ty /\ value_in ty COG_TYPES = true.

(** The entry the loop records for a band of grid [grid]. *)
Definition band_info (default_grid grid : string) (path : value) : dict :=
  if negb (String.eqb grid default_grid)
  then [("path", path); ("grid", VStr grid)]
  else [("path", path)].

(** The grid a band entry refers to: its ['grid'] field, the default grid
    without one. *)
Definition band_grid (band : value) : exc value :=
  match band with
  | VDict info =>
      match Dict.get "grid" info with
      | Some g => Ok g
      | None => Ok (VStr "default")
      end
  | _ => Raise TypeError
  end.

(** [k in d]. *)
Definition has_key (d : value) (k : string) : bool :=
  match d with
  | VDict entries => Dict.mem k entries
  | _ => false
  end.

(** The normalisation of the specification: a string that ends with
    [old] has this suffix rewritten to [new], any other string is
    unchanged. *)
Definition rewrite_suffix (old new s : string) : string :=
  if Str.endswith old s
  then substring 0 (String.length s - String.length old) s ++ new
  else s.

(** The properties [stac_transform] reads for every item. *)
Definition required_properties : list string :=
  ["datetime"; "eo:cloud_cover"; "gsd"; "instruments"; "platform";
   "proj:epsg"].

(** The run of [stac_transform] reaches the dictionary of properties: the
    product lookup, the consolidation of the assets, the reprojection of
    the footprint and the lower-casing of the product name succeed. *)
Definition reaches_properties (E : Env) (input_stac : value) (relative : bool)
  (props : value) : Prop :=
  exists label pname region bands grids epsg footprint geometry name,
    _stac_product_lookup E input_stac = Ok (label, pname, region) /\
    _get_stac_bands input_stac "g10m" relative = Ok (bands, grids) /\
    getitem input_stac "properties" = Ok props /\
    getitem props "proj:epsg" = Ok epsg /\
    getitem input_stac "geometry" = Ok footprint /\
    _geographic_to_projected E footprint ("epsg:" ++ py_str E epsg)
    = Ok geometry /\
    str_lower E pname = Ok name.

(** The run of [stac_transform] on an item of properties [props] gets as
    far as the first subscription of the properties with [k], one of the
    [required_properties] that [props] lacks:
    - ['platform'] is read by [_stac_product_lookup], after the ['id'] of
      the item;
    - ['proj:epsg'] is read by [_stac_product_lookup] for an item of a
      known constellation, after ['id'], ['platform'], ['constellation']
      and ['sentinel:product_id']; for another item it is read by
      [stac_transform], after the lookup and the consolidation of the
      assets;
    - ['datetime'], ['eo:cloud_cover'], ['gsd'] and ['instruments'] are
      read in this order for the dictionary of properties, and the
      acquisition time has to be a string for the run to go on. *)
Inductive reaches_read (E : Env) (input_stac : value) (relative : bool)
  (props : dict) : string -> Prop :=
  | reach_platform :
      has_key input_stac "id" = true ->
      reaches_read E input_stac relative props "platform"
  | reach_epsg_profile c :
      has_key input_stac "id" = true ->
      Dict.mem "platform" props = true ->
      Dict.get "constellation" props = Some c ->
      value_in c KNOWN_CONSTELLATIONS = true ->
      Dict.mem "sentinel:product_id" props = true ->
      reaches_read E input_stac relative props "proj:epsg"
  | reach_epsg label pname region bands grids :
      _stac_product_lookup E input_stac = Ok (label, pname, region) ->
      _get_stac_bands input_stac "g10m" relative = Ok (bands, grids) ->
      reaches_read E input_stac relative props "proj:epsg"
  | reach_datetime :
      reaches_properties E input_stac relative (VDict props) ->
      reaches_read E input_stac relative props "datetime"
  | reach_cloud_cover dt :
      reaches_properties E input_stac relative (VDict props) ->
      Dict.get "datetime" props = Some (VStr dt) ->
      reaches_read E input_stac relative props "eo:cloud_cover"
  | reach_gsd dt :
      reaches_properties E input_stac relative (VDict props) ->
      Dict.get "datetime" props = Some (VStr dt) ->
      Dict.mem "eo:cloud_cover" props = true ->
      reaches_read E input_stac relative props "gsd"
  | reach_instruments dt :
      reaches_properties E input_stac relative (VDict props) ->
      Dict.get "datetime" props = Some (VStr dt) ->
      Dict.mem "eo:cloud_cover" props = true ->
      Dict.mem "gsd" props = true ->
      reaches_read E input_stac relative props "instruments".

(** No cloud-optimised asset of the item has the grid key [default_grid]. *)
Definition no_asset_on_grid (item : value) (default_grid : string) : Prop :=
  forall assets name asset,
    getitem item "assets" = Ok (VDict assets) ->
    In (name, asset) assets -> is_cog asset ->
    grid_key asset <> Ok default_grid.

(** The key under which [_get_stac_bands] returns the grid recorded under
    [k]: the grid of the configured key is renamed. *)
Definition final_key (default_grid k : string) : string :=
  if String.eqb k default_grid then "default" else k.

(** The grouping of the specification: the bands of two cloud-optimised
    assets refer to the same grid exactly when the assets have the same
    ['proj:transform']. *)
Definition grouped_by_transform (item : value) (default_grid : string)
  (relative : bool) : Prop :=
  forall bands grids assets n1 a1 n2 a2 b1 b2,
    _get_stac_bands item default_grid relative = Ok (bands, grids) ->
    getitem item "assets" = Ok (VDict assets) ->
    In (n1, a1) assets -> In (n2, a2) assets ->
    is_cog a1 -> is_cog a2 ->
    Dict.get n1 bands = Some b1 -> Dict.get n2 bands = Some b2 ->
    (band_grid b1 = band_grid b2 <->
     getitem a1 "proj:transform" = getitem a2 "proj:transform").

(** A cloud-optimised asset of pixel spacing 10 that the loop of
    [_get_stac_bands] can process: it has a shape and a location, a string
    when only the file name is kept. *)
Definition spacing10_asset (relative : bool) (asset : value) : Prop :=
  is_cog asset /\
  grid_key asset = Ok "g10m" /\
  (exists shape, getitem asset "proj:shape" = Ok shape) /\
  (exists href path,
     getitem asset "href" = Ok href /\
     (if relative then path_name_of href else Ok href) = Ok path).

(** The example scenario of the specification: a Sentinel-2 item of
    platform Sentinel-2A in EPSG 32633, latitude band U and grid square
    XV, with two cloud-optimised assets of pixel spacing 10.  The fields
    the scenario leaves open are present: an identifier and a product
    identifier, a string acquisition time, a cloud cover, a sample
    distance, a first instrument, and a footprint that the geometry
    library reprojects. *)
Record example_scenario (E : Env) (relative : bool) (item : value) : Prop := {
  ex_id : exists id, getitem item "id" = Ok id;
  ex_properties : exists props,
    getitem item "properties" = Ok props /\
    getitem props "constellation" = Ok (VStr "sentinel-2") /\
    getitem props "platform" = Ok (VStr "Sentinel-2A") /\
    getitem props "proj:epsg" = Ok (VInt 32633) /\
    getitem props "sentinel:latitude_band" = Ok (VStr "U") /\
    getitem props "sentinel:grid_square" = Ok (VStr "XV") /\
    (exists pid, getitem props "sentinel:product_id" = Ok pid) /\
    (exists dt, getitem props "datetime" = Ok (VStr dt)) /\
    (exists cc, getitem props "eo:cloud_cover" = Ok cc) /\
    (exists gsd, getitem props "gsd" = Ok gsd) /\
    (exists ins i0,
       getitem props "instruments" = Ok ins /\ getindex ins 0 = Ok i0);
  ex_assets : exists n1 a1 n2 a2,
    getitem item "assets" = Ok (VDict [(n1, a1); (n2, a2)]) /\
    spacing10_asset relative a1 /\ spacing10_asset relative a2;
  ex_geometry : exists footprint geometry,
    getitem item "geometry" = Ok footprint /\
    _geographic_to_projected E footprint "epsg:32633" = Ok geometry
}.

(** The state of the loop of [_get_stac_bands]: the grid keys are distinct
    and none of them is ['default']; every ['grid'] field of a band names a
    recorded grid other than the default one. *)
Definition loop_inv (default_grid : string) (st : dict * dict) : Prop :=
  let '(bands, grids) := st in
  NoDup (Dict.keys grids) /\
  ~ In "default" (Dict.keys grids) /\
  forall name info g,
    In (name, VDict info) bands -> Dict.get "grid" info = Some g ->
    exists s, g = VStr s /\ In s (Dict.keys grids) /\ s <> default_grid.

Definition bands_are_dicts (bands : dict) : Prop :=
  forall name band, In (name, band) bands -> exists info, band = VDict info.

(** The properties of the output document, before the region code is
    added. *)
Definition document_properties
  (datetime processing_datetime cloud_cover gsd instrument platform : value)
  : dict :=
  [("datetime", datetime);
   ("odc:processing_datetime", processing_datetime);
   ("eo:cloud_cover", cloud_cover);
   ("eo:gsd", gsd);
   ("eo:instrument", instrument);
   ("eo:platform", platform);
   ("odc:file_format", VStr "GeoTIFF")].

(** The document [stac_transform] returns, from the parts it computes. *)
Definition document (uuid crs : string) (grids : dict) (name label : value)
  (props : dict) (bands : dict) (region_code geometry : value) : dict :=
  ([("$schema", VStr "https://schemas.opendatacube.org/dataset");
    ("id", VStr uuid);
    ("crs", VStr crs);
    ("grids", VDict grids);
    ("product", VDict [("name", name)]);
    ("label", label);
    ("properties",
     VDict (if truthy region_code
            then Dict.set "odc:region_code" region_code props
            else props));
    ("measurements", VDict bands);
    ("lineage", VDict [])]
   ++ (if truthy geometry then [("geometry", geometry)] else []))%list.

(** The steps of a run of [stac_transform], in the order of the code. *)
Record run (E : Env) (input_stac : value) (relative : bool) : Type := {
  product_label : value;
  product_name : value;
  region_code : value;
  bands : dict;
  grids : dict;
  properties : value;
  epsg : value;
  footprint : value;
  geometry : value;
  name : value;
  datetime_in : value;
  datetime : value;
  cloud_cover : value;
  gsd : value;
  instruments : value;
  instrument : value;
  platform : value;
  run_lookup :
    _stac_product_lookup E input_stac
      = Ok (product_label, product_name, region_code);
  run_bands : _get_stac_bands input_stac "g10m" relative = Ok (bands, grids);
  run_properties : getitem input_stac "properties" = Ok properties;
  run_epsg : getitem properties "proj:epsg" = Ok epsg;
  run_footprint : getitem input_stac "geometry" = Ok footprint;
  run_geometry :
    _geographic_to_projected E footprint ("epsg:" ++ py_str E epsg)
      = Ok geometry;
  run_name : str_lower E product_name = Ok name;
  run_datetime_in : getitem properties "datetime" = Ok datetime_in;
  run_datetime : str_replace datetime_in "000+00:00" "Z" = Ok datetime;
  run_cloud_cover : getitem properties "eo:cloud_cover" = Ok cloud_cover;
  run_gsd : getitem properties "gsd" = Ok gsd;
  run_instruments : getitem properties "instruments" = Ok instruments;
  run_instrument : getindex instruments 0 = Ok instrument;
  run_platform : getitem properties "platform" = Ok platform
}.

Arguments product_label {E input_stac relative} r.
Arguments product_name {E input_stac relative} r.
Arguments region_code {E input_stac relative} r.
Arguments bands {E input_stac relative} r.
Arguments grids {E input_stac relative} r.
Arguments properties {E input_stac relative} r.
Arguments epsg {E input_stac relative} r.
Arguments footprint {E input_stac relative} r.
Arguments geometry {E input_stac relative} r.
Arguments name {E input_stac relative} r.
Arguments datetime_in {E input_stac relative} r.
Arguments datetime {E input_stac relative} r.
Arguments cloud_cover {E input_stac relative} r.
Arguments gsd {E input_stac relative} r.
Arguments instruments {E input_stac relative} r.
Arguments instrument {E input_stac relative} r.
Arguments platform {E input_stac relative} r.

(** The document of a run. *)
Definition run_document {E input_stac relative}
  (r : run E input_stac relative) : value :=
  VDict (document
           (odc_uuid E "sentinel-2_stac_process" "1.0.0" [product_label r])
           ("epsg:" ++ py_str E (epsg r)) (grids r) (name r) (product_label r)
           (document_properties (datetime r) (datetime r) (cloud_cover r)
              (gsd r) (instrument r) (platform r))
           (bands r) (region_code r) (geometry r)).

(** ** Proof steps *)

(** Split a successful sequence [H : (x <- m ;; k) = Ok b] into the
    success of [m] and of the rest. *)
Ltac bind_inv H :=
  match type of H with
  | bind ?m ?k = Ok ?b =>
      let a := fresh "a" in
      let Hm := fresh "Hm" in
      let H' := fresh "H" in
      assert (exists a, m = Ok a /\ k a = Ok b) as (a & Hm & H')
        by (destruct m;
            [eexists; split; [reflexivity | exact H] | discriminate H]);
      clear H; rename H' into H; cbv beta in H
  end.

Ltac bind_inv_all H :=
  repeat first
    [ bind_inv H
    | match type of H with
      | (match ?p with pair _ _ => _ end) = Ok _ => destruct p
      | (let (_, _) := ?p in _) = Ok _ => destruct p
      end ].

(** Rewrite the first iteration of the loop in the goal with its result
    [H]. *)
Ltac rewrite_step H :=
  match goal with
  | |- context [bind (bands_step ?dg ?rel ?st ?entry) _] =>
      rewrite (H : bands_step dg rel st entry = _); cbn [bind]
  end.

(** ** Further notions used in the statements *)

(** The test of the loop of [_get_stac_bands], as a boolean: the asset has
    a ['type'] and it is the cloud-optimised one. *)
Definition is_cogb (asset : value) : bool :=
  match getitem asset "type" with
  | Ok ty => value_in ty COG_TYPES
  | Raise _ => false
  end.

(** The assets the loop of [_get_stac_bands] does not skip. *)
Definition cog_assets (assets : dict) : dict :=
  filter (fun entry => is_cogb (snd entry)) assets.

(** The path the loop records for a location [href]. *)
Definition band_path (relative : bool) (href : value) : exc value :=
  if relative then path_name_of href else Ok href.

(** [s[n:]]: the string without its first [n] characters. *)
Fixpoint string_drop (n : nat) (s : string) : string :=
  match n, s with
  | O, _ => s
  | S n', EmptyString => EmptyString
  | S n', String _ s' => string_drop n' s'
  end.

(** The character [c] does not occur in [s]. *)
Definition free_of (c : ascii) (s : string) : Prop :=
  ~ In c (list_ascii_of_string s).

(** Two dictionaries of bands have the same names in the same order, and
    bands of the same name refer to the same grid. *)
Definition same_band_grids (bands bands' : dict) : Prop :=
  Forall2 (fun entry entry' =>
             fst entry = fst entry' /\
             band_grid (snd entry) = band_grid (snd entry'))
          bands bands'.

(** The fields of the Sentinel-2 profile, in the order
    [_stac_product_lookup] reads them. *)
Definition SENTINEL2_FIELDS : list string :=
  ["sentinel:product_id"; "proj:epsg"; "sentinel:latitude_band";
   "sentinel:grid_square"].

(** The first of [keys] that [d] does not have. *)
Definition first_missing (keys : list string) (d : dict) : option string :=
  find (fun k => negb (Dict.mem k d)) keys.

(** The keys of the document [stac_transform] returns, before
    ['geometry']. *)
Definition DOCUMENT_KEYS : list string :=
  ["$schema"; "id"; "crs"; "grids"; "product"; "label"; "properties";
   "measurements"; "lineage"].

(** The keys of the properties of the document, before
    ['odc:region_code']. *)
Definition PROPERTY_KEYS : list string :=
  ["datetime"; "odc:processing_datetime"; "eo:cloud_cover"; "eo:gsd";
   "eo:instrument"; "eo:platform"; "odc:file_format"].

(** An item with a null acquisition time, as STAC allows for an item that
    covers an interval. *)
Definition null_datetime_item : value :=
  Sample.item "S2A_item_11"
    (Dict.set "datetime" VNone
       (Sample.properties "sentinel-2" "2020-01-01T10:00:00Z"))
    Sample.s2_assets Sample.square.

(** An item without instrument. *)
Definition no_instrument_item : value :=
  Sample.item "S2A_item_12"
    (Dict.set "instruments" (VList [])
       (Sample.properties "sentinel-2" "2020-01-01T10:00:00Z"))
    Sample.s2_assets Sample.square.

(** * The benchmark command line, [odc/stac/bench/_cli.py]

    The commands are modelled on the arguments [click] has parsed.  What a
    command does to the outside is the list of its [event]s, in order;
    what it reads from the outside and the functions it imports are the
    fields of [Bench]. *)

Module Cli.

(** [s.rpartition(sep)] for a one-character separator that occurs in [s]:
    the text before the last separator and the text after it. *)
Fixpoint rpartition (sep : ascii) (s : string) : option (string * string) :=
  match s with
  | EmptyString => None
  | String c s' =>
      match rpartition sep s' with
      | Some (before, after) => Some (String c before, after)
      | None => if Ascii.eqb c sep then Some (EmptyString, s') else None
      end
  end.

(** [s.rsplit(sep, 1)]. *)
Definition rsplit1 (sep : ascii) (s : string) : list string :=
  match rpartition sep s with
  | Some (before, after) => [before; after]
  | None => [s]
  end.

(** [sep.join(words)]. *)
Fixpoint join (sep : string) (words : list string) : string :=
  match words with
  | [] => EmptyString
  | [w] => w
  | w :: ws => w ++ sep ++ join sep ws
  end.

(** [len(x)]. *)
Definition py_len (x : value) : exc Z :=
  match x with
  | VStr s => Ok (Z.of_nat (String.length s))
  | VList l => Ok (Z.of_nat (List.length l))
  | VDict d => Ok (Z.of_nat (List.length d))
  | _ => Raise TypeError
  end.

(** Modelled from the spec: the load configuration [BenchLoadParams] of
    [odc.stac.bench] (method, chunk size, target resolution and CRS,
    resampling strategy, band subset), with the two other attributes
    [_cli.py] uses, [scenario] and [extra]. *)
Record BenchLoadParams : Type := {
  scenario : string;
  method : string;
  chunks : Z * Z;
  bands : option (list string);
  resolution : option spec_float;
  crs : option string;
  resampling : option string;
  extra : value
}.

Definition set_scenario (v : string) (c : BenchLoadParams) : BenchLoadParams :=
  {| scenario := v; method := method c; chunks := chunks c; bands := bands c;
     resolution := resolution c; crs := crs c; resampling := resampling c;
     extra := extra c |}.

Definition set_method (v : string) (c : BenchLoadParams) : BenchLoadParams :=
  {| scenario := scenario c; method := v; chunks := chunks c; bands := bands c;
     resolution := resolution c; crs := crs c; resampling := resampling c;
     extra := extra c |}.

Definition set_chunks (v : Z * Z) (c : BenchLoadParams) : BenchLoadParams :=
  {| scenario := scenario c; method := method c; chunks := v; bands := bands c;
     resolution := resolution c; crs := crs c; resampling := resampling c;
     extra := extra c |}.

Definition set_bands (v : option (list string)) (c : BenchLoadParams)
  : BenchLoadParams :=
  {| scenario := scenario c; method := method c; chunks := chunks c; bands := v;
     resolution := resolution c; crs := crs c; resampling := resampling c;
     extra := extra c |}.

Definition set_resolution (v : option spec_float) (c : BenchLoadParams)
  : BenchLoadParams :=
  {| scenario := scenario c; method := method c; chunks := chunks c;
     bands := bands c; resolution := v; crs := crs c;
     resampling := resampling c; extra := extra c |}.

Definition set_crs (v : option string) (c : BenchLoadParams) : BenchLoadParams :=
  {| scenario := scenario c; method := method c; chunks := chunks c;
     bands := bands c; resolution := resolution c; crs := v;
     resampling := resampling c; extra := extra c |}.

Definition set_resampling (v : option string) (c : BenchLoadParams)
  : BenchLoadParams :=
  {| scenario := scenario c; method := method c; chunks := chunks c;
     bands := bands c; resolution := resolution c; crs := crs c;
     resampling := v; extra := extra c |}.

Definition set_extra (v : value) (c : BenchLoadParams) : BenchLoadParams :=
  {| scenario := scenario c; method := method c; chunks := chunks c;
     bands := bands c; resolution := resolution c; crs := crs c;
     resampling := resampling c; extra := v |}.

(** What a command does to the outside. *)
Inductive event : Type :=
| Echo (line : string)
| Print (line : string)
| Open (file mode : string)
| DumpSite (site : value) (overwrite : bool)
| Connect (scheduler : string)
| PickleDump (file : string).

(** The exceptions of a command: those [_cli.py] raises itself, and those
    of the calls it makes. *)
Inductive cli_exn : Type :=
| ClickException (message : string)
| Raised (e : exn).

(** A command: the events it has produced, and its result or the
    exception that stopped it. *)
Definition cli (A : Type) : Type := list event * (A + cli_exn).

Definition ret {A : Type} (a : A) : cli A := ([], inl a).

Definition raise {A : Type} (e : cli_exn) : cli A := ([], inr e).

Definition emit (e : event) : cli unit := ([e], inl tt).

Definition lift {A : Type} (m : exc A) : cli A :=
  match m with
  | Ok a => ret a
  | Raise e => raise (Raised e)
  end.

Definition bind {A B : Type} (m : cli A) (k : A -> cli B) : cli B :=
  match m with
  | (t, inl a) => let '(t', r) := k a in ((t ++ t')%list, r)
  | (t, inr e) => (t, inr e)
  end.

Notation "x <-- m ;;; k" := (bind m (fun x => k))
  (at level 61, m at next level, right associativity).
Notation "m ;;; k" := (bind m (fun _ => k))
  (at level 61, right associativity).

(** The events of a command and the way it ends. *)
Definition trace {A : Type} (m : cli A) : list event := fst m.
Definition outcome {A : Type} (m : cli A) : A + cli_exn := snd m.

(** What [_cli.py] imports and what it reads from the outside. *)
Record Bench : Type := {
  (** The table [SAMPLE_SITES] of [odc.stac.bench]. *)
  SAMPLE_SITES : dict;
  (** [json.dumps(x, indent=n)]. *)
  json_dumps : value -> Z -> string;
  (** [open(file, "rt", encoding="utf8")] and [src.read()]. *)
  read_text : string -> exc string;
  (** [json.loads], which [json.load] applies to the text of the file. *)
  json_loads : string -> exc value;
  (** [dump_site(site, overwrite=...)], beyond the event. *)
  dump_site : value -> bool -> exc unit;
  (** [BenchLoadParams()], the configuration of the default attributes. *)
  default_params : BenchLoadParams;
  (** [BenchLoadParams.from_json] and [cfg.to_json(indent=n)]. *)
  from_json : string -> exc BenchLoadParams;
  to_json : BenchLoadParams -> Z -> string;
  (** [distributed.Client(scheduler)], [load_from_json] and [run_bench]. *)
  Client : Type;
  Lazy : Type;
  Results : Type;
  connect : string -> exc Client;
  load_from_json : value -> BenchLoadParams -> exc Lazy;
  run_bench : Lazy -> Client -> Z -> exc Results;
  (** [open(file, "wb")] and [pickle.dump] of the results, beyond the
      events. *)
  write_pickle : string -> Results -> exc unit;
  (** [datetime.now().strftime("%Y%m%dT%H%M%S.%f")]. *)
  now : string
}.

(** [with open(file, "rt", encoding="utf8") as src: json.load(src)]. *)
Definition load_json (B : Bench) (file : string) : cli value :=
  emit (Open file "rt") ;;;
  text <-- lift (read_text B file) ;;;
  lift (json_loads B text).

(** [for x in xs: body(x)]. *)
Fixpoint for_each {A : Type} (xs : list A) (body : A -> cli unit) : cli unit :=
  match xs with
  | [] => ret tt
  | x :: xs' => body x ;;; for_each xs' body
  end.

Definition prepare (B : Bench) (sample_site : option string)
  (list_sample_sites : bool) (from_file : option string) (overwrite : bool)
  : cli unit :=
  if list_sample_sites then
    emit (Echo "Sample sites:") ;;;
    for_each (Dict.keys (SAMPLE_SITES B))
             (fun site_name => emit (Echo ("   " ++ site_name)))
  else
    site <-- match sample_site with
             | Some sample_site =>
                 let site :=
                   match Dict.get sample_site (SAMPLE_SITES B) with
                   | Some site => site
                   | None => VNone
                   end in
                 match site with
                 | VNone =>
                     raise (ClickException ("No such site: " ++ sample_site))
                 | _ =>
                     emit (Print "Site config:") ;;;
                     emit (Print "------------------------------------------") ;;;
                     emit (Print (json_dumps B site 2)) ;;;
                     emit (Print "------------------------------------------") ;;;
                     ret site
                 end
             | None =>
                 match from_file with
                 | Some from_file => load_json B from_file
                 | None => ret VNone
                 end
             end ;;;
    match site with
    | VNone =>
        raise (ClickException
                 "Have to supply one of --sample-site or --from-file")
    | _ =>
        emit (DumpSite site overwrite) ;;;
        lift (dump_site B site overwrite)
    end.

Definition _dask : cli unit := emit (Print "TODO").

Definition report : cli unit := emit (Print "TODO").

(** The configuration [run] starts from without [--config]. *)
Definition initial_params (B : Bench) : BenchLoadParams :=
  set_extra
    (VDict [("stackstac",
             VDict [("dtype", VStr "uint16"); ("fill_value", VInt 0)]);
            ("odc-stac",
             VDict [("groupby", VStr "solar_day");
                    ("stac_cfg",
                     VDict [("*", VDict [("warnings", VStr "ignore")])])])])
    (set_chunks (2048, 2048) (set_method "odc-stac" (default_params B))).

(** The assignments of [run] to the configuration, from the options of
    the command line. *)
Definition apply_options (cfg : BenchLoadParams) (site : string)
  (method bands : option string) (chunks : option (Z * Z))
  (resolution : option spec_float) (crs resampling : option string)
  : BenchLoadParams :=
  let cfg := match chunks with Some c => set_chunks c cfg | None => cfg end in
  let cfg := match method with Some m => set_method m cfg | None => cfg end in
  let cfg := match bands with
             | Some b => set_bands (Some (Str.split "," b)) cfg
             | None => cfg
             end in
  let cfg := match resolution with
             | Some r => set_resolution (Some r) cfg
             | None => cfg
             end in
  let cfg := match crs with Some c => set_crs (Some c) cfg | None => cfg end in
  let cfg := match resampling with
             | Some r => set_resampling (Some r) cfg
             | None => cfg
             end in
  if String.eqb (scenario cfg) ""
  then set_scenario (hd "" (rsplit1 "." site)) cfg
  else cfg.

Definition run (B : Bench) (site : string) (config method : option string)
  (ntimes : Z) (bands : option string) (chunks : option (Z * Z))
  (resolution : option spec_float) (crs resampling : option string)
  (show_config : bool) (scheduler : string) : cli unit :=
  cfg <-- match config with
          | Some config =>
              emit (Open config "rt") ;;;
              text <-- lift (read_text B config) ;;;
              lift (from_json B text)
          | None => ret (initial_params B)
          end ;;;
  let cfg := apply_options cfg site method bands chunks resolution crs
               resampling in
  site_geojson <-- load_json B site ;;;
  features <-- lift (getitem site_geojson "features") ;;;
  n <-- lift (py_len features) ;;;
  emit (Print ("Loaded: " ++ Str.of_Z n ++ " STAC items from '" ++ site ++ "'")) ;;;
  emit (Print "Will use following load configuration") ;;;
  emit (Print (Str.repeat "-" 60)) ;;;
  emit (Print (to_json B cfg 2)) ;;;
  emit (Print (Str.repeat "-" 60)) ;;;
  if show_config then ret tt
  else
    emit (Print ("Connecting to Dask Scheduler: " ++ scheduler)) ;;;
    emit (Connect scheduler) ;;;
    client <-- lift (connect B scheduler) ;;;
    emit (Print "Constructing Dask graph") ;;;
    xx <-- lift (load_from_json B site_geojson cfg) ;;;
    emit (Print ("Starting benchmark run (" ++ Str.of_Z ntimes ++ " runs)")) ;;;
    emit (Print (Str.repeat "=" 60)) ;;;
    results <-- lift (run_bench B xx client ntimes) ;;;
    emit (Print (Str.repeat "=" 60)) ;;;
    emit (Print "Finsihed") ;;;
    let ts := now B in
    let results_file := (scenario cfg ++ "_" ++ ts ++ ".pkl")%string in
    emit (Print ("Saving results to: " ++ results_file)) ;;;
    emit (Open results_file "wb") ;;;
    emit (PickleDump results_file) ;;;
    lift (write_pickle B results_file results).

(** The event reads a file or prints: it changes nothing outside. *)
Definition harmless (e : event) : bool :=
  match e with
  | Echo _ | Print _ => true
  | Open _ mode => String.eqb mode "rt"
  | DumpSite _ _ | Connect _ | PickleDump _ => false
  end.

(** Number of occurrences of [c] in [s]. *)
Fixpoint occurrences (c : ascii) (s : string) : nat :=
  match s with
  | EmptyString => O
  | String a s' => (if Ascii.eqb a c then 1 else 0) + occurrences c s'
  end.

(** A small instance of the outside, to run the commands on examples:
    one sample site, files that hold their own name as a JSON string
    except [site.geojson], which holds a collection of two features. *)
Definition sample_bench : Bench := {|
  SAMPLE_SITES := [("s2-ms-mosaic", VDict [("file_id", VStr "s2-ms-mosaic")])];
  json_dumps := fun _ _ => "{...}";
  read_text := fun file => Ok file;
  json_loads := fun text =>
    if String.eqb text "site.geojson"
    then Ok (VDict [("features", VList [VNone; VNone])])
    else if String.eqb text "null.json" then Ok VNone
    else Ok (VStr text);
  dump_site := fun _ _ => Ok tt;
  default_params :=
    {| scenario := ""; method := "odc-stac"; chunks := (2048, 2048);
       bands := None; resolution := None; crs := None; resampling := None;
       extra := VDict [] |};
  from_json := fun _ => Raise ValueError;
  to_json := fun _ _ => "{...}";
  Client := unit;
  Lazy := unit;
  Results := unit;
  connect := fun _ => Ok tt;
  load_from_json := fun _ _ => Ok tt;
  run_bench := fun _ _ _ => Ok tt;
  write_pickle := fun _ _ => Ok tt;
  now := "20200101T100000.000000"
|}.

End Cli.

(** ** Proof steps for commands *)

(** Split a command that ends well, [H : Cli.outcome m = inl _], into its
    steps: a call gives its result, an event gives nothing. *)
Ltac cli_inv H :=
  match type of H with
  | Cli.outcome (Cli.bind ?m ?k) = inl ?b =>
      let a := fresh "a" in
      let Hm := fresh "Hm" in
      let H' := fresh "H" in
      assert (exists a, Cli.outcome m = inl a /\ Cli.outcome (k a) = inl b)
        as (a & Hm & H')
        by (revert H; generalize m; intros [? [? | ?]] H;
            [eexists; split;
             [reflexivity
             | revert H; unfold Cli.outcome, Cli.bind;
               match goal with
               | |- context [let '(_, _) := ?x in _] => destruct x
               end; exact (fun h => h)]
            | discriminate H]);
      clear H; rename H' into H; lazy beta in H; cli_inv Hm; cli_inv H
  | Cli.outcome (Cli.lift ?m) = inl ?a =>
      let H' := fresh "H" in
      assert (m = Ok a) as H'
        by (revert H; generalize m; intros [? | ?] H;
            [injection H as H; congruence | discriminate H]);
      clear H; rename H' into H
  | Cli.outcome (Cli.emit _) = inl _ => clear H
  | Cli.outcome (Cli.ret _) = inl _ =>
      cbn [Cli.outcome Cli.ret snd] in H; injection H as H; subst
  | Cli.outcome (if false then _ else _) = inl _ => lazy iota in H; cli_inv H
  | _ => idtac
  end.

(** * Properties *)

(** ** The exception monad *)

Lemma bind_Ok {A B : Type} (m : exc A) (k : A -> exc B) (b : B) :
  bind m k = Ok b -> exists a, m = Ok a /\ k a = Ok b.
Proof.
  destruct m as [a | e]; simpl; intros H.
  - exists a. split; [reflexivity | exact H].
  - discriminate H.
Qed.

Lemma bind_Raise_l {A B : Type} (m : exc A) (k : A -> exc B) (e : exn) :
  m = Raise e -> bind m k = Raise e.
Proof. intros ->. reflexivity. Qed.

Lemma fails_bind_l {A B : Type} (m : exc A) (k : A -> exc B) :
  fails m -> fails (bind m k).
Proof. intros [e He]. exists e. now apply bind_Raise_l. Qed.

Lemma fails_bind_r {A B : Type} (m : exc A) (k : A -> exc B) :
  (forall a, m = Ok a -> fails (k a)) -> fails (bind m k).
Proof.
  intros H. destruct m as [a | e] eqn:Hm; simpl.
  - now apply H.
  - now exists e.
Qed.

(** ** Dictionaries *)

Module DictFacts.
Import Dict.

Lemma get_In_keys k d v : get k d = Some v -> In k (keys d).
Proof.
  induction d as [| [k' v'] d IH]; simpl; [discriminate |].
  destruct (String.eqb_spec k k') as [-> | Hne]; intros H.
  - now left.
  - right. now apply IH.
Qed.

Lemma get_None_keys k d : get k d = None <-> ~ In k (keys d).
Proof.
  induction d as [| [k' v'] d IH]; simpl.
  - tauto.
  - destruct (String.eqb_spec k k') as [-> | Hne].
    + split; [discriminate | intros H; exfalso; apply H; now left].
    + rewrite IH. split; intros H; [intros [E | I] | ]; auto; congruence.
Qed.

Lemma mem_keys k d : mem k d = true <-> In k (keys d).
Proof.
  unfold mem. destruct (get k d) eqn:G.
  - split; [intros _; eapply get_In_keys; eauto | reflexivity].
  - split; [discriminate | intros I; apply get_None_keys in G; tauto].
Qed.

Lemma get_set_same k v d : get k (set k v d) = Some v.
Proof.
  induction d as [| [k' v'] d IH]; simpl.
  - now rewrite String.eqb_refl.
  - destruct (String.eqb_spec k k') as [-> | Hne]; simpl.
    + now rewrite String.eqb_refl.
    + destruct (String.eqb_spec k k'); [contradiction | exact IH].
Qed.

Lemma get_set_other k k' v d : k <> k' -> get k (set k' v d) = get k d.
Proof.
  intros Hne. induction d as [| [k0 v0] d IH]; simpl.
  - destruct (String.eqb_spec k k'); [contradiction | reflexivity].
  - destruct (String.eqb_spec k' k0) as [-> | Hne']; simpl.
    + destruct (String.eqb_spec k k0); [contradiction | reflexivity].
    + destruct (String.eqb_spec k k0); [reflexivity | exact IH].
Qed.

Lemma keys_set k k' v d :
  In k (keys (set k' v d)) <-> k = k' \/ In k (keys d).
Proof.
  induction d as [| [k0 v0] d IH]; simpl.
  - intuition congruence.
  - destruct (String.eqb_spec k' k0) as [-> | Hne]; simpl.
    + intuition congruence.
    + rewrite IH. intuition congruence.
Qed.

Lemma NoDup_set k v d : NoDup (keys d) -> NoDup (keys (set k v d)).
Proof.
  induction d as [| [k0 v0] d IH]; simpl; intros Hnd.
  - constructor; [simpl; tauto | constructor].
  - inversion Hnd as [| ? ? Hni Hnd']; subst.
    destruct (String.eqb_spec k k0) as [-> | Hne]; simpl.
    + now constructor.
    + constructor; [| now apply IH].
      rewrite keys_set. intros [E | I]; [congruence | contradiction].
Qed.

Lemma keys_del k k' d :
  NoDup (keys d) -> In k (keys (del k' d)) <-> k <> k' /\ In k (keys d).
Proof.
  induction d as [| [k0 v0] d IH]; simpl; intros Hnd.
  - tauto.
  - inversion Hnd as [| ? ? Hni Hnd']; subst.
    destruct (String.eqb_spec k' k0) as [-> | Hne]; simpl.
    + split.
      * intros I. split; [| now right]. intros ->. contradiction.
      * intros [Hne [E | I]]; [congruence | exact I].
    + rewrite (IH Hnd'). intuition congruence.
Qed.

Lemma get_del_other k k' d : k <> k' -> get k (del k' d) = get k d.
Proof.
  intros Hne. induction d as [| [k0 v0] d IH]; simpl; [reflexivity |].
  destruct (String.eqb_spec k' k0) as [-> | Hne']; simpl.
  - destruct (String.eqb_spec k k0); [contradiction | reflexivity].
  - destruct (String.eqb_spec k k0); [reflexivity | exact IH].
Qed.

Lemma NoDup_del k d : NoDup (keys d) -> NoDup (keys (del k d)).
Proof.
  induction d as [| [k0 v0] d IH]; simpl; intros Hnd; [constructor |].
  inversion Hnd as [| ? ? Hni Hnd']; subst.
  destruct (String.eqb_spec k k0) as [-> | Hne]; simpl; [exact Hnd' |].
  constructor; [| now apply IH].
  rewrite (keys_del _ _ _ Hnd'). tauto.
Qed.

Lemma occurrences_absent k (ks : list string) :
  ~ In k ks -> List.length (filter (String.eqb k) ks) = 0%nat.
Proof.
  induction ks as [| k0 ks IH]; simpl; [reflexivity |].
  intros H. destruct (String.eqb_spec k k0) as [-> | Hne].
  - exfalso. apply H. now left.
  - apply IH. tauto.
Qed.

Lemma occurrences_NoDup k (ks : list string) :
  NoDup ks -> In k ks -> List.length (filter (String.eqb k) ks) = 1%nat.
Proof.
  induction ks as [| k0 ks IH]; simpl; [tauto |].
  intros Hnd HI. inversion Hnd as [| ? ? Hni Hnd']; subst.
  destruct (String.eqb_spec k k0) as [-> | Hne]; simpl.
  - f_equal. now apply occurrences_absent.
  - apply IH; [exact Hnd' |]. destruct HI; [congruence | assumption].
Qed.

Lemma count_NoDup k d : NoDup (keys d) -> In k (keys d) -> count k d = 1%nat.
Proof. apply occurrences_NoDup. Qed.

End DictFacts.

(** ** The asset loop of [_get_stac_bands] *)

Section Loop.
Import Dict DictFacts.

Variable default_grid : string.
Variable relative : bool.

Lemma grid_key_shape asset k :
  grid_key asset = Ok k -> exists s, k = "g" ++ s ++ "m".
Proof.
  unfold grid_key. intros H. bind_inv_all H.
  injection H as <-. eexists. reflexivity.
Qed.

Lemma grid_key_not_default asset k : grid_key asset = Ok k -> k <> "default".
Proof.
  intros H. apply grid_key_shape in H as [s ->]. discriminate.
Qed.

(** What a successful iteration does. *)
Lemma bands_step_Ok bands grids name asset bands' grids' :
  bands_step default_grid relative (bands, grids) (name, asset)
    = Ok (bands', grids') ->
  (~ is_cog asset /\ bands' = bands /\ grids' = grids) \/
  (is_cog asset /\
   exists k path,
     grid_key asset = Ok k /\
     bands' = set name (VDict (band_info default_grid k path)) bands /\
     ((mem k grids = true /\ grids' = grids) \/
      (mem k grids = false /\
       exists shape transform,
         getitem asset "proj:shape" = Ok shape /\
         getitem asset "proj:transform" = Ok transform /\
         grids' = set k (VDict [("shape", shape); ("transform", transform)])
                      grids))).
Proof.
  unfold bands_step. intros H. bind_inv H. rename a into ty.
  destruct (value_in ty COG_TYPES) eqn:Hty; simpl in H.
  - right. split; [exists ty; auto |].
    bind_inv H. rename a into k. bind_inv H. rename a into g1.
    bind_inv H. bind_inv H. rename a0 into path.
    injection H as <- <-. exists k, path. split; [assumption |].
    split; [unfold band_info; destruct (negb (k =? default_grid)%string);
            reflexivity |].
    destruct (mem k grids) eqn:Hmem; simpl in Hm1.
    + left. split; [reflexivity | congruence].
    + right. split; [reflexivity |]. bind_inv_all Hm1.
      injection Hm1 as <-. eauto.
  - left. injection H as <- <-. split; [| auto].
    intros (ty' & Hty' & Hin). congruence.
Qed.

Lemma In_set k v d k' v' :
  In (k', v') (set k v d) -> (k' = k /\ v' = v) \/ In (k', v') d.
Proof.
  induction d as [| [k0 v0] d IH]; simpl.
  - intros [E | []]. left. split; congruence.
  - destruct (String.eqb_spec k k0) as [-> | Hne]; simpl.
    + intros [E | I]; [left; split; congruence | right; now right].
    + intros [E | I]; [right; now left |].
      destruct (IH I) as [? | ?]; [now left | right; now right].
Qed.

Lemma band_info_grid k path g :
  get "grid" (band_info default_grid k path) = Some g ->
  g = VStr k /\ k <> default_grid.
Proof.
  unfold band_info. destruct (String.eqb_spec k default_grid); simpl.
  - discriminate.
  - intros H. injection H as <-. auto.
Qed.

Lemma bands_step_inv st entry st' :
  bands_step default_grid relative st entry = Ok st' ->
  loop_inv default_grid st -> loop_inv default_grid st'.
Proof.
  destruct st as [bands grids], entry as [name asset], st' as [bands' grids'].
  intros H (Hnd & Hdef & Hb).
  apply bands_step_Ok in H
    as [(_ & -> & ->) | (_ & k & path & Hk & -> & Hg)]; [now repeat split |].
  assert (Hsub : forall s, In s (keys grids) -> In s (keys grids')).
  { destruct Hg as [(_ & ->) | (_ & sh & tr & _ & _ & ->)]; [auto |].
    intros s I. apply keys_set. now right. }
  assert (Hk' : In k (keys grids')).
  { destruct Hg as [(Hmem & ->) | (_ & sh & tr & _ & _ & ->)].
    - now apply mem_keys.
    - apply keys_set. now left. }
  repeat split.
  - destruct Hg as [(_ & ->) | (_ & sh & tr & _ & _ & ->)];
      [assumption | now apply NoDup_set].
  - destruct Hg as [(_ & ->) | (_ & sh & tr & _ & _ & ->)]; [assumption |].
    rewrite keys_set. intros [E | I]; [| contradiction].
    symmetry in E. revert E. eapply grid_key_not_default; eauto.
  - intros n info g HI Hget.
    apply In_set in HI as [(_ & E) | HI].
    + injection E as ->. apply band_info_grid in Hget as (-> & Hne).
      exists k. auto.
    + destruct (Hb n info g HI Hget) as (s & -> & Hs & Hne).
      exists s. auto.
Qed.

Lemma bands_step_dicts st entry st' :
  bands_step default_grid relative st entry = Ok st' ->
  bands_are_dicts (fst st) -> bands_are_dicts (fst st').
Proof.
  destruct st as [bands grids], entry as [name asset], st' as [bands' grids'].
  simpl. intros H Hd.
  apply bands_step_Ok in H
    as [(_ & -> & ->) | (_ & k & path & Hk & -> & Hg)]; [assumption |].
  intros n band HI. apply In_set in HI as [(_ & ->) | HI]; eauto.
Qed.

Lemma bands_loop_inv entries : forall st st',
  bands_loop default_grid relative st entries = Ok st' ->
  loop_inv default_grid st -> loop_inv default_grid st'.
Proof.
  induction entries as [| entry rest IH]; simpl; intros st st' H Hinv.
  - now injection H as <-.
  - bind_inv H. eapply IH; [exact H |]. eapply bands_step_inv; eauto.
Qed.

Lemma bands_loop_dicts entries : forall st st',
  bands_loop default_grid relative st entries = Ok st' ->
  bands_are_dicts (fst st) -> bands_are_dicts (fst st').
Proof.
  induction entries as [| entry rest IH]; simpl; intros st st' H Hd.
  - now injection H as <-.
  - bind_inv H. eapply IH; [exact H |]. eapply bands_step_dicts; eauto.
Qed.

(** An iteration leaves the bands of the other assets alone. *)
Lemma bands_step_get_other st name asset st' n :
  bands_step default_grid relative st (name, asset) = Ok st' ->
  n <> name -> get n (fst st') = get n (fst st).
Proof.
  destruct st as [bands grids], st' as [bands' grids']. simpl. intros H Hne.
  apply bands_step_Ok in H
    as [(_ & -> & ->) | (_ & k & path & Hk & -> & Hg)]; [reflexivity |].
  now apply get_set_other.
Qed.

Lemma bands_loop_get_other entries : forall st st' n,
  bands_loop default_grid relative st entries = Ok st' ->
  ~ In n (keys entries) -> get n (fst st') = get n (fst st).
Proof.
  induction entries as [| [name asset] rest IH]; simpl; intros st st' n H Hn.
  - now injection H as <-.
  - bind_inv H. rewrite (IH _ _ n H) by tauto.
    eapply bands_step_get_other; [eassumption | intros ->; tauto].
Qed.

(** Recorded grids are never replaced. *)
Lemma bands_step_grids_kept st entry st' k v :
  bands_step default_grid relative st entry = Ok st' ->
  get k (snd st) = Some v -> get k (snd st') = Some v.
Proof.
  destruct st as [bands grids], entry as [name asset], st' as [bands' grids'].
  simpl. intros H Hget.
  apply bands_step_Ok in H
    as [(_ & -> & ->) | (_ & k' & path & Hk & -> & Hg)]; [assumption |].
  destruct Hg as [(_ & ->) | (Hmem & sh & tr & _ & _ & ->)]; [assumption |].
  rewrite get_set_other; [assumption |].
  intros ->. unfold mem in Hmem. rewrite Hget in Hmem. discriminate.
Qed.

Lemma bands_loop_grids_kept entries : forall st st' k v,
  bands_loop default_grid relative st entries = Ok st' ->
  get k (snd st) = Some v -> get k (snd st') = Some v.
Proof.
  induction entries as [| entry rest IH]; simpl; intros st st' k v H Hget.
  - now injection H as <-.
  - bind_inv H. eapply IH; [exact H |].
    eapply bands_step_grids_kept; eassumption.
Qed.

(** The grid of an asset after its iteration: the one that was recorded
    under its key, its own when the key is new. *)
Lemma bands_step_grid st name asset st' :
  bands_step default_grid relative st (name, asset) = Ok st' ->
  is_cog asset ->
  exists k path,
    grid_key asset = Ok k /\
    get name (fst st') = Some (VDict (band_info default_grid k path)) /\
    match get k (snd st) with
    | Some v => get k (snd st') = Some v
    | None =>
        exists shape transform,
          getitem asset "proj:shape" = Ok shape /\
          getitem asset "proj:transform" = Ok transform /\
          get k (snd st')
          = Some (VDict [("shape", shape); ("transform", transform)])
    end.
Proof.
  destruct st as [bands grids], st' as [bands' grids']. simpl. intros H Hcog.
  apply bands_step_Ok in H
    as [(Hn & _) | (_ & k & path & Hk & -> & Hg)]; [contradiction |].
  exists k, path. split; [assumption |]. split; [apply get_set_same |].
  unfold mem in Hg.
  destruct Hg as [(Hmem & ->) | (Hmem & sh & tr & Hsh & Htr & ->)];
    destruct (get k grids) eqn:G; try discriminate; [reflexivity |].
  exists sh, tr. rewrite get_set_same. auto.
Qed.

(** Every cloud-optimised asset has a band, and its grid key is recorded. *)
Lemma bands_loop_band entries : forall st st' name asset,
  bands_loop default_grid relative st entries = Ok st' ->
  NoDup (keys entries) -> In (name, asset) entries -> is_cog asset ->
  exists k path,
    grid_key asset = Ok k /\
    get name (fst st') = Some (VDict (band_info default_grid k path)) /\
    In k (keys (snd st')).
Proof.
  induction entries as [| [n a] rest IH]; simpl;
    intros st st' name asset H Hnd HI Hcog; [contradiction |].
  inversion Hnd as [| ? ? Hni Hnd']; subst. bind_inv H. rename a0 into st1.
  destruct HI as [E | HI].
  - injection E as -> ->.
    destruct (bands_step_grid _ _ _ _ Hm Hcog) as (k & path & Hk & Hb & Hg).
    exists k, path. split; [assumption |].
    split; [rewrite (bands_loop_get_other _ _ _ name H Hni); assumption |].
    destruct (get k (snd st)) as [v |].
    + eapply get_In_keys, bands_loop_grids_kept; eassumption.
    + destruct Hg as (sh & tr & _ & _ & Hg).
      eapply get_In_keys, bands_loop_grids_kept; eassumption.
  - eapply IH; eassumption.
Qed.

(** The grids recorded by the loop are the grid keys of cloud-optimised
    assets. *)
Lemma bands_loop_grids_origin entries : forall st st' k,
  bands_loop default_grid relative st entries = Ok st' ->
  In k (keys (snd st')) ->
  In k (keys (snd st)) \/
  exists name asset,
    In (name, asset) entries /\ is_cog asset /\ grid_key asset = Ok k.
Proof.
  induction entries as [| [n a] rest IH]; simpl; intros st st' k H HI.
  - injection H as <-. now left.
  - bind_inv H. rename a0 into st1.
    destruct (IH _ _ k H HI) as [I1 | (name & asset & I & Hc & Hk)].
    + destruct st as [bands grids], st1 as [bands1 grids1]. simpl in *.
      apply bands_step_Ok in Hm
        as [(_ & -> & ->) | (Hcog & k' & path & Hk & -> & Hg)]; [now left |].
      destruct Hg as [(_ & ->) | (_ & sh & tr & _ & _ & ->)]; [now left |].
      apply keys_set in I1 as [-> | I1]; [| now left].
      right. exists n, a. auto.
    + right. exists name, asset. auto.
Qed.


Lemma bands_loop_app pre : forall post st,
  bands_loop default_grid relative st (pre ++ post)%list
  = (st' <- bands_loop default_grid relative st pre ;;
     bands_loop default_grid relative st' post).
Proof.
  induction pre as [| entry pre IH]; simpl; intros post st; [reflexivity |].
  destruct (bands_step default_grid relative st entry); simpl;
    [apply IH | reflexivity].
Qed.

(** The grid recorded under a key is the shape and the transform of the
    first cloud-optimised asset that has this key. *)
Lemma bands_loop_first_descriptor pre name asset post st st' k :
  bands_loop default_grid relative st (pre ++ (name, asset) :: post)%list
  = Ok st' ->
  ~ In k (keys (snd st)) ->
  (forall n a, In (n, a) pre -> is_cog a -> grid_key a <> Ok k) ->
  is_cog asset -> grid_key asset = Ok k ->
  exists shape transform,
    getitem asset "proj:shape" = Ok shape /\
    getitem asset "proj:transform" = Ok transform /\
    get k (snd st') = Some (VDict [("shape", shape); ("transform", transform)]).
Proof.
  rewrite bands_loop_app. intros H Hk Hpre Hcog Hkey.
  bind_inv H. rename a into st1. simpl in H. bind_inv H. rename a into st2.
  assert (Hnone : get k (snd st1) = None).
  { apply get_None_keys. intros HI.
    destruct (bands_loop_grids_origin _ _ _ _ Hm HI)
      as [I | (n & a & I & Hc & Hka)]; [contradiction |].
    exact (Hpre n a I Hc Hka). }
  destruct (bands_step_grid _ _ _ _ Hm0 Hcog) as (k' & path & Hk' & _ & Hg).
  rewrite Hkey in Hk'. injection Hk' as <-. rewrite Hnone in Hg.
  destruct Hg as (shape & transform & Hsh & Htr & Hg).
  exists shape, transform. split; [assumption |]. split; [assumption |].
  eapply bands_loop_grids_kept; eassumption.
Qed.

Lemma loop_inv_init : loop_inv default_grid ([], []).
Proof.
  simpl. repeat split; [constructor | tauto | intros ? ? ? []].
Qed.

End Loop.

(** ** Successful runs *)

Lemma _get_stac_bands_Ok item default_grid relative bands grids :
  _get_stac_bands item default_grid relative = Ok (bands, grids) ->
  exists assets grids0 g,
    getitem item "assets" = Ok (VDict assets) /\
    bands_loop default_grid relative ([], []) assets = Ok (bands, grids0) /\
    Dict.get default_grid grids0 = Some g /\
    grids = Dict.del default_grid (Dict.set "default" g grids0).
Proof.
  unfold _get_stac_bands. intros H. bind_inv H. rename a into assets.
  bind_inv H. rename a into entries. bind_inv H. destruct a as [b g0].
  bind_inv H. injection H as <- <-.
  destruct assets; try discriminate Hm0. injection Hm0 as ->.
  simpl in Hm2. destruct (Dict.get default_grid g0) eqn:G; [| discriminate].
  injection Hm2 as <-. exists entries, g0, v. auto.
Qed.

(** A run gives the result of [stac_transform]. *)
Lemma stac_transform_run E input_stac relative
  (r : run E input_stac relative) :
  stac_transform E input_stac relative = Ok (run_document r).
Proof.
  destruct r; unfold stac_transform, run_document.
  cbn [product_label product_name region_code bands grids properties epsg
       footprint geometry name datetime_in datetime cloud_cover gsd
       instruments instrument platform].
  repeat match goal with
         | H : ?m = Ok _ |- context [bind ?m _] => rewrite H; cbn [bind]
         end.
  unfold document, document_properties, set_nested.
  destruct (truthy region_code0), (truthy geometry0); reflexivity.
Qed.

(** Every successful call of [stac_transform] is a run. *)
Lemma stac_transform_Ok E input_stac relative d :
  stac_transform E input_stac relative = Ok d ->
  exists r : run E input_stac relative, d = run_document r.
Proof.
  unfold stac_transform. intros H.
  bind_inv H. destruct a as [[label pname] region].
  bind_inv H. destruct a as [b g].
  bind_inv H. rename a into props. bind_inv H. rename a into epsg0.
  bind_inv H. rename a into fp. bind_inv H. rename a into geo.
  bind_inv H. rename a into nm. bind_inv H. rename a into dt.
  bind_inv H. rename a into dt1. bind_inv H. rename a into dt'.
  bind_inv H. rename a into dt2. bind_inv H. rename a into cc.
  bind_inv H. rename a into gs. bind_inv H. rename a into ins.
  bind_inv H. rename a into i0. bind_inv H. rename a into pf.
  assert (dt' = dt) by congruence. subst dt'.
  assert (dt2 = dt1) by congruence. subst dt2.
  unshelve eexists.
  { econstructor; eassumption. }
  injection H as <-. unfold run_document, document, document_properties,
    set_nested; simpl.
  destruct (truthy region), (truthy geo); reflexivity.
Qed.

Section Document.

Context {E : Env} {input_stac : value} {relative : bool}.
Variable r : run E input_stac relative.

Lemma run_document_id :
  getitem (run_document r) "id"
  = Ok (VStr (odc_uuid E "sentinel-2_stac_process" "1.0.0"
                [product_label r])).
Proof. reflexivity. Qed.

Lemma run_document_label :
  getitem (run_document r) "label" = Ok (product_label r).
Proof. reflexivity. Qed.

Lemma run_document_grids :
  getitem (run_document r) "grids" = Ok (VDict (grids r)).
Proof. reflexivity. Qed.

Lemma run_document_measurements :
  getitem (run_document r) "measurements" = Ok (VDict (bands r)).
Proof. reflexivity. Qed.

Lemma run_document_product :
  getitem (run_document r) "product" = Ok (VDict [("name", name r)]).
Proof. reflexivity. Qed.

Lemma run_document_properties :
  getitem (run_document r) "properties"
  = Ok (VDict
          (let props :=
             document_properties (datetime r) (datetime r) (cloud_cover r)
               (gsd r) (instrument r) (platform r) in
           if truthy (region_code r)
           then Dict.set "odc:region_code" (region_code r) props
           else props)).
Proof. reflexivity. Qed.


End Document.

(** ** Identity *)

(** The identifier of the document is computed from its label alone. *)
Lemma stac_transform_id E input_stac relative d :
  stac_transform E input_stac relative = Ok d ->
  exists label,
    getitem d "label" = Ok label /\
    getitem d "id"
    = Ok (VStr (odc_uuid E "sentinel-2_stac_process" "1.0.0" [label])).
Proof.
  intros H. apply stac_transform_Ok in H as [r ->].
  exists (product_label r). split; reflexivity.
Qed.

(** C1: whenever [stac_transform] succeeds on two items (in either path
    mode) and the two documents carry the same label, they carry the same
    ['id'], whatever else differs between the items. *)
Theorem id_depends_only_on_label E item1 item2 relative1 relative2 d1 d2 :
  stac_transform E item1 relative1 = Ok d1 ->
  stac_transform E item2 relative2 = Ok d2 ->
  getitem d1 "label" = getitem d2 "label" ->
  getitem d1 "id" = getitem d2 "id".
Proof.
  intros H1 H2 Hl.
  apply stac_transform_id in H1 as (l1 & Hl1 & ->).
  apply stac_transform_id in H2 as (l2 & Hl2 & ->).
  rewrite Hl1, Hl2 in Hl. injection Hl as ->. reflexivity.
Qed.

Lemma id_depends_only_on_label_witness :
  exists d1 d2,
    stac_transform sample_env Sample.s2_item true = Ok d1 /\
    stac_transform sample_env Sample.s2_variant false = Ok d2 /\
    getitem d1 "measurements" <> getitem d2 "measurements" /\
    getitem d1 "id" = getitem d2 "id".
Proof.
  eexists. eexists.
  split; [vm_compute; reflexivity |].
  split; [vm_compute; reflexivity |].
  split; [vm_compute; discriminate |].
  apply (id_depends_only_on_label sample_env Sample.s2_item Sample.s2_variant
           true false); vm_compute; reflexivity.
Defined.

(** ** Grids and measurements *)

Section Consolidation.
Import Dict DictFacts.

Variable default_grid : string.
Variable relative : bool.
Hypothesis default_grid_key : default_grid <> "default".

(** The dictionaries returned by [_get_stac_bands]: the keys of [grids] are
    distinct, ['default'] is one of them and the configured key is not;
    the bands are dictionaries whose ['grid'] field, if any, is a key of
    [grids]. *)
Lemma _get_stac_bands_grids item bands grids :
  _get_stac_bands item default_grid relative = Ok (bands, grids) ->
  NoDup (keys grids) /\
  In "default" (keys grids) /\
  ~ In default_grid (keys grids) /\
  forall name band,
    In (name, band) bands ->
    exists info,
      band = VDict info /\
      forall g, get "grid" info = Some g ->
                exists s, g = VStr s /\ In s (keys grids).
Proof.
  intros H. apply _get_stac_bands_Ok in H as (assets & g0 & g & _ & Hl & Hg & ->).
  pose proof (bands_loop_inv default_grid relative _ _ _ Hl
                (loop_inv_init default_grid)) as (Hnd & Hdef & Hb).
  pose proof (bands_loop_dicts default_grid relative _ _ _ Hl) as Hd.
  assert (Hnd' : NoDup (keys (set "default" g g0))) by now apply NoDup_set.
  repeat split.
  - now apply NoDup_del.
  - apply keys_del; [assumption |]. split; [congruence |].
    apply keys_set. now left.
  - rewrite keys_del by assumption. tauto.
  - intros name band HI.
    destruct (Hd (fun _ _ F => match F with end) name band HI) as [info ->].
    exists info. split; [reflexivity |]. intros gr Hgr.
    destruct (Hb name info gr HI Hgr) as (s & -> & Hs & Hne).
    exists s. split; [reflexivity |].
    apply keys_del; [assumption |]. split; [assumption |].
    apply keys_set. now right.
Qed.

Lemma band_grid_info k path :
  band_grid (VDict (band_info default_grid k path))
  = Ok (VStr (final_key default_grid k)).
Proof.
  unfold band_info, final_key.
  destruct (String.eqb k default_grid); reflexivity.
Qed.

Lemma final_key_inj k1 k2 :
  k1 <> "default" -> k2 <> "default" ->
  final_key default_grid k1 = final_key default_grid k2 <-> k1 = k2.
Proof.
  unfold final_key. intros H1 H2.
  destruct (String.eqb_spec k1 default_grid), (String.eqb_spec k2 default_grid);
    split; congruence.
Qed.

(** The band of a cloud-optimised asset refers to the grid of its key. *)
Lemma asset_band item bands grids assets name asset :
  _get_stac_bands item default_grid relative = Ok (bands, grids) ->
  getitem item "assets" = Ok (VDict assets) ->
  NoDup (keys assets) ->
  In (name, asset) assets -> is_cog asset ->
  exists k b,
    grid_key asset = Ok k /\
    get name bands = Some b /\
    band_grid b = Ok (VStr (final_key default_grid k)) /\
    In (final_key default_grid k) (keys grids).
Proof.
  clear default_grid_key. intros H Ha Hnd HI Hcog.
  apply _get_stac_bands_Ok in H as (assets' & g0 & g & Ha' & Hl & Hg & ->).
  rewrite Ha in Ha'. injection Ha' as <-.
  pose proof (bands_loop_inv default_grid relative _ _ _ Hl
                (loop_inv_init default_grid)) as (Hnd0 & Hdef & _).
  assert (Hdg : default_grid <> "default").
  { intros E. apply Hdef. rewrite <- E. eapply get_In_keys; eassumption. }
  destruct (bands_loop_band default_grid relative _ _ _ _ _ Hl Hnd HI Hcog)
    as (k & path & Hk & Hb & Hin).
  exists k, (VDict (band_info default_grid k path)).
  split; [assumption |]. split; [assumption |].
  split; [apply band_grid_info |].
  apply keys_del; [now apply NoDup_set |]. unfold final_key.
  destruct (String.eqb_spec k default_grid) as [-> | Hne].
  - split; [congruence |]. apply keys_set. now left.
  - split; [assumption |]. apply keys_set. now right.
Qed.

(** The entry of [grids] for a grid key holds the shape and the transform
    of the first cloud-optimised asset of the item with this key. *)
Lemma grid_descriptor_of_first_asset item bands grids pre name asset post k :
  _get_stac_bands item default_grid relative = Ok (bands, grids) ->
  getitem item "assets" = Ok (VDict (pre ++ (name, asset) :: post)%list) ->
  (forall n a, In (n, a) pre -> is_cog a -> grid_key a <> Ok k) ->
  is_cog asset -> grid_key asset = Ok k ->
  exists shape transform,
    getitem asset "proj:shape" = Ok shape /\
    getitem asset "proj:transform" = Ok transform /\
    get (final_key default_grid k) grids
    = Some (VDict [("shape", shape); ("transform", transform)]).
Proof.
  clear default_grid_key. intros H Ha Hpre Hcog Hkey.
  apply _get_stac_bands_Ok in H as (assets' & g0 & g & Ha' & Hl & Hg & ->).
  rewrite Ha in Ha'. injection Ha' as <-.
  pose proof (bands_loop_inv default_grid relative _ _ _ Hl
                (loop_inv_init default_grid)) as (_ & Hdef & _).
  assert (Hdg : default_grid <> "default").
  { intros E. apply Hdef. rewrite <- E. eapply get_In_keys; eassumption. }
  destruct (bands_loop_first_descriptor default_grid relative _ _ _ _ _ _ k
              Hl (fun F => F) Hpre Hcog Hkey)
    as (shape & transform & Hsh & Htr & Hget).
  exists shape, transform. split; [assumption |]. split; [assumption |].
  simpl in Hget. unfold final_key.
  destruct (String.eqb_spec k default_grid) as [-> | Hne].
  - rewrite get_del_other by congruence. rewrite get_set_same. congruence.
  - rewrite get_del_other by assumption.
    rewrite get_set_other; [assumption |].
    eapply grid_key_not_default; eassumption.
Qed.

End Consolidation.

(** C2: in the document of a successful run, ['grids'] has exactly one
    entry keyed ['default'] and none keyed ['g10m'], and every band of
    ['measurements'] that carries a ['grid'] field names a key of
    ['grids']. *)
Theorem grids_default_and_band_references E input_stac relative d :
  stac_transform E input_stac relative = Ok d ->
  exists grids bands,
    getitem d "grids" = Ok (VDict grids) /\
    getitem d "measurements" = Ok (VDict bands) /\
    Dict.count "default" grids = 1%nat /\
    Dict.count "g10m" grids = 0%nat /\
    forall name band,
      In (name, band) bands ->
      exists info,
        band = VDict info /\
        forall g, Dict.get "grid" info = Some g ->
                  exists s, g = VStr s /\ In s (Dict.keys grids).
Proof.
  intros H. apply stac_transform_Ok in H as [r ->].
  exists (grids r), (bands r).
  split; [reflexivity |]. split; [reflexivity |].
  destruct (_get_stac_bands_grids "g10m" relative ltac:(discriminate)
              _ _ _ (run_bands _ _ _ r)) as (Hnd & Hdef & Hno & Hb).
  split; [now apply DictFacts.count_NoDup |].
  split; [now apply DictFacts.occurrences_absent |].
  exact Hb.
Qed.

Lemma grids_default_and_band_references_witness :
  exists d grids bands,
    stac_transform sample_env Sample.other_item false = Ok d /\
    getitem d "grids" = Ok (VDict grids) /\
    getitem d "measurements" = Ok (VDict bands) /\
    Dict.keys grids = ["g20m"; "g60m"; "default"] /\
    Dict.count "default" grids = 1%nat /\
    Dict.count "g10m" grids = 0%nat /\
    forall name band,
      In (name, band) bands ->
      exists info,
        band = VDict info /\
        forall g, Dict.get "grid" info = Some g ->
                  exists s, g = VStr s /\ In s (Dict.keys grids).
Proof.
  destruct (grids_default_and_band_references sample_env Sample.other_item
              false _ eq_refl) as (grids & bands & Hg & Hm & H).
  eexists. exists grids, bands.
  split; [reflexivity |]. split; [exact Hg |]. split; [exact Hm |].
  split; [| exact H].
  vm_compute in Hg. injection Hg as <-. reflexivity.
Defined.

(** C3, amended: the bands of two cloud-optimised assets of an item refer
    to the same entry of [grids] exactly when the assets have the same grid
    key [f'g{transform[0]:g}m']; the rest of the transform plays no part. *)
Theorem assets_grouped_by_grid_key item default_grid relative bands grids
  assets n1 a1 n2 a2 :
  _get_stac_bands item default_grid relative = Ok (bands, grids) ->
  getitem item "assets" = Ok (VDict assets) ->
  NoDup (Dict.keys assets) ->
  In (n1, a1) assets -> In (n2, a2) assets ->
  is_cog a1 -> is_cog a2 ->
  exists k1 k2 b1 b2,
    grid_key a1 = Ok k1 /\ grid_key a2 = Ok k2 /\
    Dict.get n1 bands = Some b1 /\ Dict.get n2 bands = Some b2 /\
    band_grid b1 = Ok (VStr (final_key default_grid k1)) /\
    band_grid b2 = Ok (VStr (final_key default_grid k2)) /\
    In (final_key default_grid k1) (Dict.keys grids) /\
    In (final_key default_grid k2) (Dict.keys grids) /\
    (band_grid b1 = band_grid b2 <-> k1 = k2).
Proof.
  intros H Ha Hnd I1 I2 C1 C2.
  destruct (asset_band default_grid relative item bands grids assets n1 a1
              H Ha Hnd I1 C1)
    as (k1 & b1 & Hk1 & Hb1 & Hg1 & Hin1).
  destruct (asset_band default_grid relative item bands grids assets n2 a2
              H Ha Hnd I2 C2)
    as (k2 & b2 & Hk2 & Hb2 & Hg2 & Hin2).
  exists k1, k2, b1, b2. repeat (split; [assumption |]).
  rewrite Hg1, Hg2.
  rewrite <- (final_key_inj default_grid k1 k2)
    by (eapply grid_key_not_default; eassumption).
  split; congruence.
Qed.

Lemma assets_grouped_by_grid_key_witness :
  exists b1 b2,
    Dict.get "B8A" (fst (Sample.mixed_bands)) = Some b1 /\
    Dict.get "B05" (fst (Sample.mixed_bands)) = Some b2 /\
    band_grid b1 = Ok (VStr "g20m") /\
    band_grid b1 = band_grid b2.
Proof.
  destruct (assets_grouped_by_grid_key Sample.other_item "g10m" false
              (fst Sample.mixed_bands) (snd Sample.mixed_bands)
              Sample.mixed_assets
              "B8A" (Sample.asset Sample.COG "https://data.example/L8/B8A.tif"
                       (Sample.transform (VInt 20) 600000 5700000))
              "B05" (Sample.asset Sample.COG "https://data.example/L8/B05.tif"
                       (Sample.transform (VInt 20) 600000 5700000)))
    as (k1 & k2 & b1 & b2 & Hk1 & Hk2 & Hb1 & Hb2 & Hg1 & Hg2 & _ & _ & Hiff).
  - vm_compute. reflexivity.
  - reflexivity.
  - vm_compute. repeat constructor; simpl; intuition discriminate.
  - simpl. tauto.
  - simpl. tauto.
  - eexists. split; reflexivity.
  - eexists. split; reflexivity.
  - exists b1, b2. split; [assumption |]. split; [assumption |].
    vm_compute in Hk1, Hk2. injection Hk1 as <-. injection Hk2 as <-.
    split; [exact Hg1 |]. now apply Hiff.
Defined.

(** The transforms of the two assets of [Sample.shifted_item] differ, and
    both bands use the one grid of the item, the default one: the grouping
    of the specification does not hold. *)
Lemma not_grouped_by_transform :
  _get_stac_bands Sample.shifted_item "g10m" false
  = Ok ([("B02", VDict [("path", VStr "https://data.example/S2A/B02.tif")]);
         ("B03", VDict [("path", VStr "https://data.example/S2A/B03.tif")])],
        [("default",
          VDict [("shape", VList [VInt 10980; VInt 10980]);
                 ("transform",
                  VList (Sample.transform (VInt 10) 600000 5700000))])]) /\
  ~ grouped_by_transform Sample.shifted_item "g10m" false.
Proof.
  split; [vm_compute; reflexivity |].
  intros H.
  specialize (H _ _ Sample.shifted_assets "B02" _ "B03" _ _ _
                eq_refl eq_refl (or_introl eq_refl)
                (or_intror (or_introl eq_refl))
                (ex_intro _ _ (conj eq_refl eq_refl))
                (ex_intro _ _ (conj eq_refl eq_refl))
                eq_refl eq_refl).
  destruct H as [H _]. specialize (H eq_refl). discriminate H.
Qed.

(** ** Geometry *)





(** ** The example scenario *)

(** An iteration on an asset of the default grid. *)
Lemma bands_step_spacing10 relative bands grids name asset :
  spacing10_asset relative asset ->
  exists path desc,
    bands_step "g10m" relative (bands, grids) (name, asset)
    = Ok (Dict.set name (VDict [("path", path)]) bands,
          if Dict.mem "g10m" grids then grids
          else Dict.set "g10m" desc grids).
Proof.
  intros ((ty & Hty & Hin) & Hk & (shape & Hsh) & (href & path & Hh & Hp)).
  assert (Htr : exists tr, getitem asset "proj:transform" = Ok tr).
  { unfold grid_key in Hk. bind_inv Hk. eauto. }
  destruct Htr as [tr Htr].
  exists path, (VDict [("shape", shape); ("transform", tr)]).
  unfold bands_step. rewrite Hty; cbn [bind]. rewrite Hin; cbn [negb].
  rewrite Hk; cbn [bind].
  destruct (Dict.mem "g10m" grids); cbn [negb bind].
  - rewrite Hh; cbn [bind]. rewrite Hp; cbn [bind]. reflexivity.
  - rewrite Hsh; cbn [bind]. rewrite Htr; cbn [bind].
    rewrite Hh; cbn [bind]. rewrite Hp; cbn [bind]. reflexivity.
Qed.

(** C5: on the example scenario [stac_transform] returns a document whose
    product name is ['s2_l2a'] and whose region code is ['33UXV']; its
    only grid is ['default'] and no band carries a ['grid'] field. *)
Theorem example_scenario_document E relative item :
  example_scenario E relative item ->
  exists d grids bands,
    stac_transform E item relative = Ok d /\
    getitem d "product" = Ok (VDict [("name", VStr "s2_l2a")]) /\
    (exists props,
       getitem d "properties" = Ok props /\
       getitem props "odc:region_code" = Ok (VStr "33UXV")) /\
    getitem d "grids" = Ok (VDict grids) /\
    Dict.keys grids = ["default"] /\
    getitem d "measurements" = Ok (VDict bands) /\
    forall name band,
      In (name, band) bands -> has_key band "grid" = false.
Proof.
  intros [[id Hid]
          (props & Hprops & Hc & Hpf & He & Hlat & Hsq & [pid Hpid] & [dt Hdt]
           & [cc Hcc] & [gsd Hgsd] & (ins & i0 & Hins & Hi0))
          (n1 & a1 & n2 & a2 & Ha & Ha1 & Ha2)
          (fp & geo & Hfp & Hgeo)].
  assert (Hl : _stac_product_lookup E item
               = Ok (pid, VStr "s2_l2a", VStr "33UXV")).
  { unfold _stac_product_lookup.
    rewrite Hprops; cbn [bind]. rewrite Hid; cbn [bind].
    rewrite Hpf; cbn [bind]. rewrite Hc; cbn [bind].
    change (value_in (VStr "sentinel-2") KNOWN_CONSTELLATIONS) with true.
    change (value_eq_str (VStr "sentinel-2") "sentinel-2") with true.
    cbn iota. rewrite Hpid; cbn [bind]. rewrite He; cbn [bind].
    rewrite Hlat; cbn [bind]. rewrite Hsq; cbn [bind]. reflexivity. }
  destruct (bands_step_spacing10 relative [] [] n1 a1 Ha1) as (p1 & desc & H1).
  cbn [Dict.mem Dict.get Dict.set] in H1.
  destruct (bands_step_spacing10 relative [(n1, VDict [("path", p1)])]
              [("g10m", desc)] n2 a2 Ha2) as (p2 & desc2 & H2).
  change (Dict.mem "g10m" [("g10m", desc)]) with true in H2. cbn iota in H2.
  set (bands := Dict.set n2 (VDict [("path", p2)]) [(n1, VDict [("path", p1)])])
    in *.
  assert (Hb : _get_stac_bands item "g10m" relative
               = Ok (bands, [("default", desc)])).
  { unfold _get_stac_bands. rewrite Ha; cbn [bind dict_items bands_loop].
    rewrite_step H1. rewrite_step H2. reflexivity. }
  set (r := Build_run E item relative pid (VStr "s2_l2a") (VStr "33UXV")
              bands [("default", desc)] props (VInt 32633) fp geo
              (VStr "s2_l2a") (VStr dt)
              (VStr (Str.replace "000+00:00" "Z" dt)) cc gsd ins i0
              (VStr "Sentinel-2A")
              Hl Hb Hprops He Hfp Hgeo eq_refl Hdt eq_refl Hcc Hgsd Hins Hi0
              Hpf).
  exists (run_document r), [("default", desc)], bands.
  split; [apply stac_transform_run |].
  split; [reflexivity |].
  split; [eexists; split; [apply run_document_properties | reflexivity] |].
  split; [reflexivity |]. split; [reflexivity |]. split; [reflexivity |].
  intros name band HI. subst bands. simpl in HI.
  destruct (String.eqb n2 n1); simpl in HI;
    repeat destruct HI as [HI | HI]; try contradiction;
    injection HI as _ <-; reflexivity.
Qed.

Lemma example_scenario_document_witness :
  example_scenario sample_env true Sample.s2_item /\
  exists d,
    stac_transform sample_env Sample.s2_item true = Ok d /\
    getitem d "product" = Ok (VDict [("name", VStr "s2_l2a")]) /\
    getitem d "measurements"
    = Ok (VDict [("B02", VDict [("path", VStr "B02.tif")]);
                 ("B03", VDict [("path", VStr "B03.tif")])]).
Proof.
  assert (H : example_scenario sample_env true Sample.s2_item).
  { constructor.
    - eexists; reflexivity.
    - eexists. repeat split; try reflexivity; repeat eexists; reflexivity.
    - do 4 eexists. split; [reflexivity |].
      split; (split; [eexists; split; reflexivity |]);
        (split; [vm_compute; reflexivity |]);
        (split; [eexists; reflexivity |]); do 2 eexists; split; reflexivity.
    - do 2 eexists. split; [reflexivity | vm_compute; reflexivity]. }
  split; [exact H |].
  destruct (example_scenario_document sample_env true Sample.s2_item H)
    as (d & grids & bands & Hd & Hp & _ & _ & _ & Hm & _).
  exists d. split; [exact Hd |]. split; [exact Hp |].
  vm_compute in Hd. injection Hd as <-. reflexivity.
Defined.

(** ** The acquisition time *)

Lemma prefix_refl s : prefix s s = true.
Proof.
  induction s as [| c s IH]; simpl; [reflexivity |].
  destruct (ascii_dec c c); [exact IH | contradiction].
Qed.

Lemma append_empty_r s : (s ++ "")%string = s.
Proof. induction s as [| c s IH]; simpl; [reflexivity | now rewrite IH]. Qed.

Lemma replace_from_skip_all old new s : forall k,
  (String.length s <= k)%nat -> Str.replace_from old new k s = "".
Proof.
  induction s as [| c s IH]; simpl; intros k Hk; [reflexivity |].
  destruct k as [| k]; [lia |]. apply IH. lia.
Qed.

(** A string without occurrence of [old] is unchanged. *)
Lemma replace_absent old new s :
  Str.find old s = None -> Str.replace old new s = s.
Proof.
  unfold Str.replace. induction s as [| c s IH]; [reflexivity |].
  cbn [Str.find Str.replace_from].
  destruct (prefix old (String c s)); [discriminate |].
  destruct (Str.find old s); [discriminate |].
  intros _. now rewrite IH.
Qed.

(** When the only occurrence of [old] is at the end of the string, it is
    rewritten to [new]. *)
Lemma replace_final old new p :
  old <> "" ->
  Str.find old (p ++ old) = Some (String.length p) ->
  Str.replace old new (p ++ old) = (p ++ new)%string.
Proof.
  unfold Str.replace. intros Hold. induction p as [| c p IH].
  - intros _. destruct old as [| c o]; [contradiction |].
    cbn [append Str.replace_from]. rewrite prefix_refl.
    rewrite replace_from_skip_all by (simpl; lia).
    apply append_empty_r.
  - cbn [append Str.find Str.replace_from String.length].
    destruct (prefix old (String c (p ++ old))); [discriminate |].
    destruct (Str.find old (p ++ old)) as [n |]; [| discriminate].
    cbn [option_map]. intros H. injection H as ->. now rewrite IH.
Qed.

(** C6, amended: in the document of a successful run, ['datetime'] and
    ['odc:processing_datetime'] are both the source ['datetime'] string
    with every occurrence of ["000+00:00"] replaced by ["Z"], as
    [str.replace] does from the left.  A source without occurrence is
    unchanged, and a source whose only occurrence is its end has this
    suffix rewritten. *)
Theorem datetime_occurrences_replaced E input_stac relative d :
  stac_transform E input_stac relative = Ok d ->
  exists props s out,
    getitem input_stac "properties" = Ok props /\
    getitem props "datetime" = Ok (VStr s) /\
    getitem d "properties" = Ok out /\
    getitem out "datetime" = Ok (VStr (Str.replace "000+00:00" "Z" s)) /\
    getitem out "odc:processing_datetime"
    = Ok (VStr (Str.replace "000+00:00" "Z" s)) /\
    (Str.find "000+00:00" s = None -> Str.replace "000+00:00" "Z" s = s) /\
    (forall p,
       s = (p ++ "000+00:00")%string ->
       Str.find "000+00:00" s = Some (String.length p) ->
       Str.replace "000+00:00" "Z" s = (p ++ "Z")%string).
Proof.
  intros H. apply stac_transform_Ok in H as [r ->].
  pose proof (run_datetime _ _ _ r) as Hdt.
  pose proof (run_datetime_in _ _ _ r) as Hin.
  destruct (datetime_in r) as [| | | | s | |]; try discriminate Hdt.
  injection Hdt as Hdt.
  exists (properties r), s. eexists.
  split; [apply run_properties |]. split; [exact Hin |].
  split; [apply run_document_properties |].
  rewrite <- Hdt.
  split; [destruct (truthy (region_code r)); reflexivity |].
  split; [destruct (truthy (region_code r)); reflexivity |].
  split; [apply replace_absent |].
  intros p -> Hp. apply replace_final; [discriminate | exact Hp].
Qed.

Lemma datetime_occurrences_replaced_witness :
  exists d out,
    stac_transform sample_env Sample.s2_item true = Ok d /\
    getitem d "properties" = Ok out /\
    getitem out "datetime" = Ok (VStr "2020-01-01T10:00:00.000Z") /\
    getitem out "odc:processing_datetime"
    = Ok (VStr "2020-01-01T10:00:00.000Z").
Proof.
  destruct (datetime_occurrences_replaced sample_env Sample.s2_item true
              _ eq_refl)
    as (props & s & out & Hp & Hs & Ho & Hd & Hpd & _ & _).
  vm_compute in Hp. injection Hp as <-.
  vm_compute in Hs. injection Hs as <-.
  eexists. exists out.
  split; [reflexivity |]. split; [exact Ho |].
  split; [exact Hd | exact Hpd].
Defined.

(** An interval of two times: both occurrences are rewritten, where the
    specification rewrites the suffix alone. *)
Lemma datetime_rewritten_inside :
  exists d out,
    stac_transform sample_env Sample.interval_item true = Ok d /\
    getitem d "properties" = Ok out /\
    getitem out "datetime"
    = Ok (VStr "2020-01-01T10:00:00.Z/2020-01-01T10:10:00.Z") /\
    rewrite_suffix "000+00:00" "Z"
      "2020-01-01T10:00:00.000+00:00/2020-01-01T10:10:00.000+00:00"
    = "2020-01-01T10:00:00.000+00:00/2020-01-01T10:10:00.Z" /\
    getitem out "datetime"
    <> Ok (VStr (rewrite_suffix "000+00:00" "Z"
                   "2020-01-01T10:00:00.000+00:00/2020-01-01T10:10:00.000+00:00")).
Proof.
  do 2 eexists.
  split; [vm_compute; reflexivity |]. split; [vm_compute; reflexivity |].
  split; [vm_compute; reflexivity |]. split; [vm_compute; reflexivity |].
  vm_compute. discriminate.
Qed.

(** ** Product identity *)

(** The lookup for a constellation that is not a known one. *)
Lemma _stac_product_lookup_unknown E item props c label pname region :
  getitem item "properties" = Ok props ->
  getitem props "constellation" = Ok c ->
  value_in c KNOWN_CONSTELLATIONS = false ->
  _stac_product_lookup E item = Ok (label, pname, region) ->
  getitem item "id" = Ok label /\
  getitem props "platform" = Ok pname /\
  region = VNone.
Proof.
  intros Hp Hc Hin. unfold _stac_product_lookup.
  rewrite Hp; cbn [bind]. intros H.
  bind_inv H. rename a into id. bind_inv H. rename a into platform.
  rewrite Hc in H; cbn [bind] in H. rewrite Hin in H.
  injection H as <- <- <-. auto.
Qed.

(** C7: when the constellation of the item is not a known one, the
    document of a successful run is labelled with the ['id'] of the item,
    its product name is the lower-cased ['platform'], and its properties
    have no ['odc:region_code']. *)
Theorem unknown_constellation_fallback E input_stac relative d props c :
  stac_transform E input_stac relative = Ok d ->
  getitem input_stac "properties" = Ok props ->
  getitem props "constellation" = Ok c ->
  value_in c KNOWN_CONSTELLATIONS = false ->
  getitem d "label" = getitem input_stac "id" /\
  (exists platform,
     getitem props "platform" = Ok (VStr platform) /\
     getitem d "product"
     = Ok (VDict [("name", VStr (lower E platform))])) /\
  (exists out,
     getitem d "properties" = Ok out /\
     has_key out "odc:region_code" = false).
Proof.
  intros H Hp Hc Hin. apply stac_transform_Ok in H as [r ->].
  destruct (_stac_product_lookup_unknown _ _ _ _ _ _ _ Hp Hc Hin
              (run_lookup _ _ _ r)) as (Hid & Hpf & Hr).
  split; [now rewrite run_document_label |]. split.
  - pose proof (run_name _ _ _ r) as Hn.
    destruct (product_name r) as [| | | | platform | |]; try discriminate Hn.
    injection Hn as Hn. exists platform. split; [assumption |].
    now rewrite run_document_product, <- Hn.
  - eexists. split; [apply run_document_properties |].
    rewrite Hr. reflexivity.
Qed.

Lemma unknown_constellation_fallback_witness :
  (exists d,
     stac_transform sample_env Sample.other_item false = Ok d /\
     getitem d "label" = Ok (VStr "LC08_item_7") /\
     getitem d "product" = Ok (VDict [("name", VStr "sentinel-2a")])) /\
  (exists d,
     stac_transform sample_env Sample.eole_item false = Ok d /\
     getitem d "label" = Ok (VStr "EOLE_item_10") /\
     getitem d "product"
     = Ok (VDict [("name",
                   VStr (String (ascii_of_nat 195)
                           (String (ascii_of_nat 169) "ole-1")))])).
Proof.
  split.
  - destruct (unknown_constellation_fallback sample_env Sample.other_item false
                _ (VDict (Sample.properties "landsat-8" "2020-01-01T10:00:00Z"))
                (VStr "landsat-8") eq_refl eq_refl eq_refl eq_refl)
      as (Hl & (platform & Hpf & Hn) & _).
    eexists. split; [reflexivity |]. split; [exact Hl |].
    vm_compute in Hpf. injection Hpf as <-. exact Hn.
  - destruct (unknown_constellation_fallback sample_env Sample.eole_item false
                _ (VDict (Dict.set "platform"
                            (VStr (String (ascii_of_nat 195)
                                     (String (ascii_of_nat 137) "OLE-1")))
                            (Sample.properties "eole" "2020-01-01T10:00:00Z")))
                (VStr "eole") eq_refl eq_refl eq_refl eq_refl)
      as (Hl & (platform & Hpf & Hn) & _).
    eexists. split; [reflexivity |]. split; [exact Hl |].
    vm_compute in Hpf. injection Hpf as <-. exact Hn.
Defined.

(** ** Failures *)

Lemma getitem_has_key p k v : getitem (VDict p) k = Ok v -> Dict.mem k p = true.
Proof.
  unfold getitem, Dict.mem. destruct (Dict.get k p); [reflexivity | discriminate].
Qed.

Lemma getitem_missing props k :
  Dict.mem k props = false ->
  getitem (VDict props) k = Raise (KeyError (VStr k)).
Proof.
  unfold getitem, Dict.mem. destruct (Dict.get k props); [discriminate | reflexivity].
Qed.

Lemma getitem_present props k :
  Dict.mem k props = true -> exists v, getitem (VDict props) k = Ok v.
Proof.
  unfold getitem, Dict.mem. destruct (Dict.get k props) as [v |]; [eauto | discriminate].
Qed.

(** C8, amended: when one of the properties read for every item
    (['datetime'], ['eo:cloud_cover'], ['gsd'], ['instruments'],
    ['platform'], ['proj:epsg']) is absent, [stac_transform] raises an
    exception and returns no document; the exception is the [KeyError] of
    the missing key whenever the run gets as far as reading it; a step
    that fails before that raises its own exception. *)
Theorem missing_required_property_fails E input_stac relative props k :
  getitem input_stac "properties" = Ok (VDict props) ->
  In k required_properties ->
  Dict.mem k props = false ->
  fails (stac_transform E input_stac relative) /\
  (reaches_read E input_stac relative props k ->
   stac_transform E input_stac relative = Raise (KeyError (VStr k))).
Proof.
  intros Hp Hk Hmem. split.
  - destruct (stac_transform E input_stac relative) as [d | e] eqn:H;
      [exfalso | now exists e].
    apply stac_transform_Ok in H as [r _].
    pose proof (run_properties _ _ _ r) as Hp'. rewrite Hp in Hp'.
    injection Hp' as Hp'.
    pose proof (run_datetime_in _ _ _ r) as H1.
    pose proof (run_cloud_cover _ _ _ r) as H2.
    pose proof (run_gsd _ _ _ r) as H3.
    pose proof (run_instruments _ _ _ r) as H4.
    pose proof (run_platform _ _ _ r) as H5.
    pose proof (run_epsg _ _ _ r) as H6.
    rewrite <- Hp' in H1, H2, H3, H4, H5, H6.
    apply getitem_has_key in H1, H2, H3, H4, H5, H6.
    simpl in Hk. repeat destruct Hk as [<- | Hk]; congruence || contradiction.
  - pose proof (getitem_missing _ _ Hmem) as Hmiss.
    destruct input_stac as [| | | | | | item]; try discriminate Hp.
    intros Hr. unfold stac_transform.
    destruct Hr as [Hid | c Hid Hpf Hc Hin Hpid | label pname region bands grids Hl Hb
                   | Hr | dt Hr Hdt | dt Hr Hdt Hcc | dt Hr Hdt Hcc Hgsd].
    + unfold _stac_product_lookup. rewrite Hp; cbn [bind].
      destruct (getitem_present _ _ Hid) as [id ->]; cbn [bind].
      now rewrite Hmiss.
    + unfold _stac_product_lookup. rewrite Hp; cbn [bind].
      destruct (getitem_present _ _ Hid) as [id ->]; cbn [bind].
      destruct (getitem_present _ _ Hpf) as [pf ->]; cbn [bind].
      unfold getitem at 1. rewrite Hc; cbn [bind]. rewrite Hin.
      assert (Heq : value_eq_str c "sentinel-2" = true).
      { destruct c; try discriminate Hin. simpl in Hin |- *.
        now rewrite Bool.orb_false_r in Hin. }
      rewrite Heq.
      destruct (getitem_present _ _ Hpid) as [pid ->]; cbn [bind].
      now rewrite Hmiss.
    + rewrite Hl; cbn [bind]. rewrite Hb; cbn [bind].
      rewrite Hp; cbn [bind]. now rewrite Hmiss.
    + destruct Hr as (label & pname & region & bands & grids & epsg & fp & geo
                      & name & Hl & Hb & _ & He & Hf & Hg & Hn).
      rewrite Hl; cbn [bind]. rewrite Hb; cbn [bind]. rewrite Hp; cbn [bind].
      rewrite He; cbn [bind]. rewrite Hf; cbn [bind]. rewrite Hg; cbn [bind].
      rewrite Hn; cbn [bind]. now rewrite Hmiss.
    + destruct Hr as (label & pname & region & bands & grids & epsg & fp & geo
                      & name & Hl & Hb & _ & He & Hf & Hg & Hn).
      assert (Hdt' : getitem (VDict props) "datetime" = Ok (VStr dt))
        by (unfold getitem; now rewrite Hdt).
      rewrite Hl; cbn [bind]. rewrite Hb; cbn [bind]. rewrite Hp; cbn [bind].
      rewrite He; cbn [bind]. rewrite Hf; cbn [bind]. rewrite Hg; cbn [bind].
      rewrite Hn; cbn [bind]. rewrite Hdt'; cbn [bind str_replace].
      now rewrite Hmiss.
    + destruct Hr as (label & pname & region & bands & grids & epsg & fp & geo
                      & name & Hl & Hb & _ & He & Hf & Hg & Hn).
      assert (Hdt' : getitem (VDict props) "datetime" = Ok (VStr dt))
        by (unfold getitem; now rewrite Hdt).
      destruct (getitem_present _ _ Hcc) as [cc Hcc'].
      rewrite Hl; cbn [bind]. rewrite Hb; cbn [bind]. rewrite Hp; cbn [bind].
      rewrite He; cbn [bind]. rewrite Hf; cbn [bind]. rewrite Hg; cbn [bind].
      rewrite Hn; cbn [bind]. rewrite Hdt'; cbn [bind str_replace].
      rewrite Hcc'; cbn [bind]. now rewrite Hmiss.
    + destruct Hr as (label & pname & region & bands & grids & epsg & fp & geo
                      & name & Hl & Hb & _ & He & Hf & Hg & Hn).
      assert (Hdt' : getitem (VDict props) "datetime" = Ok (VStr dt))
        by (unfold getitem; now rewrite Hdt).
      destruct (getitem_present _ _ Hcc) as [cc Hcc'].
      destruct (getitem_present _ _ Hgsd) as [gsd Hgsd'].
      rewrite Hl; cbn [bind]. rewrite Hb; cbn [bind]. rewrite Hp; cbn [bind].
      rewrite He; cbn [bind]. rewrite Hf; cbn [bind]. rewrite Hg; cbn [bind].
      rewrite Hn; cbn [bind]. rewrite Hdt'; cbn [bind str_replace].
      rewrite Hcc'; cbn [bind]. rewrite Hgsd'; cbn [bind]. now rewrite Hmiss.
Qed.

Lemma missing_required_property_fails_witness :
  Forall (fun k =>
            stac_transform sample_env (Sample.lacking "landsat-8" k) true
            = Raise (KeyError (VStr k)))
         required_properties /\
  stac_transform sample_env (Sample.lacking "sentinel-2" "proj:epsg") true
  = Raise (KeyError (VStr "proj:epsg")).
Proof.
  assert (H : forall c k,
            In k required_properties ->
            reaches_read sample_env (Sample.lacking c k) true
              (Dict.del k (Sample.properties c "2020-01-01T10:00:00Z")) k ->
            stac_transform sample_env (Sample.lacking c k) true
            = Raise (KeyError (VStr k))).
  { intros c k Hk.
    apply (missing_required_property_fails sample_env (Sample.lacking c k) true
             (Dict.del k (Sample.properties c "2020-01-01T10:00:00Z")) k
             eq_refl Hk).
    simpl in Hk.
    repeat destruct Hk as [<- | Hk]; reflexivity || contradiction. }
  split.
  - unfold required_properties.
    repeat apply Forall_cons; [| | | | | | apply Forall_nil];
      apply H; try (simpl; tauto).
    + apply reach_datetime.
      do 9 eexists. repeat split; vm_compute; reflexivity.
    + apply (reach_cloud_cover _ _ _ _ "2020-01-01T10:00:00Z");
        [do 9 eexists; repeat split; vm_compute; reflexivity | reflexivity].
    + apply (reach_gsd _ _ _ _ "2020-01-01T10:00:00Z");
        [do 9 eexists; repeat split; vm_compute; reflexivity | reflexivity ..].
    + apply (reach_instruments _ _ _ _ "2020-01-01T10:00:00Z");
        [do 9 eexists; repeat split; vm_compute; reflexivity | reflexivity ..].
    + apply reach_platform. reflexivity.
    + eapply reach_epsg; vm_compute; reflexivity.
  - apply H; [simpl; tauto |].
    apply (reach_epsg_profile _ _ _ _ (VStr "sentinel-2")); reflexivity.
Defined.

(** The exception for a missing acquisition time is the [KeyError] of the
    subscription. *)
Lemma missing_datetime_raises_KeyError :
  stac_transform sample_env Sample.timeless_item true
  = Raise (KeyError (VStr "datetime")) /\
  exn_name (KeyError (VStr "datetime")) <> "MissingFieldError".
Proof. split; [vm_compute; reflexivity | discriminate]. Qed.

(** C9, amended: when no cloud-optimised asset of the item has the
    configured grid key, [_get_stac_bands] raises an exception, and so
    does [stac_transform] for its key ['g10m']; the exception is the
    [KeyError] of the grid key whenever the loop over the assets
    completes. *)
Theorem missing_default_grid_fails item default_grid relative :
  no_asset_on_grid item default_grid ->
  fails (_get_stac_bands item default_grid relative) /\
  (forall E, default_grid = "g10m" -> fails (stac_transform E item relative)) /\
  (forall assets st,
     getitem item "assets" = Ok (VDict assets) ->
     bands_loop default_grid relative ([], []) assets = Ok st ->
     _get_stac_bands item default_grid relative
     = Raise (KeyError (VStr default_grid))).
Proof.
  intros Hno.
  assert (Hnone : forall assets bands grids,
             getitem item "assets" = Ok (VDict assets) ->
             bands_loop default_grid relative ([], []) assets
             = Ok (bands, grids) ->
             Dict.get default_grid grids = None).
  { intros assets bands grids Ha Hl. apply DictFacts.get_None_keys. intros HI.
    destruct (bands_loop_grids_origin default_grid relative _ _ _ _ Hl HI)
      as [[] | (name & asset & I & Hc & Hk)].
    exact (Hno assets name asset Ha I Hc Hk). }
  assert (Hfails : fails (_get_stac_bands item default_grid relative)).
  { destruct (_get_stac_bands item default_grid relative) as [[b g] | e] eqn:H;
      [exfalso | now exists e].
    apply _get_stac_bands_Ok in H as (assets & g0 & v & Ha & Hl & Hg & _).
    rewrite (Hnone _ _ _ Ha Hl) in Hg. discriminate. }
  split; [exact Hfails |]. split.
  - intros E ->. unfold stac_transform.
    apply fails_bind_r. intros [[label pname] region] _.
    now apply fails_bind_l.
  - intros assets [bands grids] Ha Hl. unfold _get_stac_bands.
    rewrite Ha; cbn [bind dict_items]. rewrite Hl; cbn [bind].
    unfold getitem. now rewrite (Hnone _ _ _ Ha Hl).
Qed.

Lemma missing_default_grid_fails_witness :
  no_asset_on_grid Sample.coarse_item "g10m" /\
  fails (_get_stac_bands Sample.coarse_item "g10m" true).
Proof.
  assert (H : no_asset_on_grid Sample.coarse_item "g10m").
  { intros assets name asset Ha HI [ty [Hty Hin]].
    injection Ha as <-.
    destruct HI as [E | [E | []]]; injection E as <- <-.
    - vm_compute in Hty. injection Hty as <-. discriminate Hin.
    - vm_compute. discriminate. }
  split; [exact H |].
  exact (proj1 (missing_default_grid_fails Sample.coarse_item "g10m" true H)).
Defined.

(** The exception for a missing default grid is the [KeyError] of the
    subscription. *)
Lemma missing_default_grid_raises_KeyError :
  _get_stac_bands Sample.coarse_item "g10m" true
  = Raise (KeyError (VStr "g10m")) /\
  exn_name (KeyError (VStr "g10m")) <> "UnknownDefaultGridError".
Proof. split; [vm_compute; reflexivity | discriminate]. Qed.

(** C10: an item whose properties have no ['constellation'] is not
    transformed: [stac_transform] raises the [KeyError] of the first of
    ['id'], ['platform'] and ['constellation'] that is missing. *)
Theorem constellation_is_required E input_stac relative props :
  getitem input_stac "properties" = Ok (VDict props) ->
  Dict.mem "constellation" props = false ->
  exists k,
    In k ["id"; "platform"; "constellation"] /\
    stac_transform E input_stac relative = Raise (KeyError (VStr k)).
Proof.
  intros Hp Hmem. unfold stac_transform, _stac_product_lookup.
  rewrite Hp; cbn [bind].
  destruct input_stac as [| | | | | | item]; try discriminate Hp.
  unfold getitem at 1.
  destruct (Dict.get "id" item) as [id |]; cbn [bind];
    [| exists "id"; simpl; auto].
  unfold getitem at 1.
  destruct (Dict.get "platform" props) as [platform |]; cbn [bind];
    [| exists "platform"; simpl; auto].
  unfold getitem at 1. unfold Dict.mem in Hmem.
  destruct (Dict.get "constellation" props); [discriminate |].
  exists "constellation"; simpl; auto.
Qed.

Lemma constellation_is_required_witness :
  has_key (VDict (Dict.del "constellation"
                    (Sample.properties "" "2020-01-01T10:00:00Z")))
          "constellation" = false /\
  exists k,
    In k ["id"; "platform"; "constellation"] /\
    stac_transform sample_env Sample.anonymous_item true
    = Raise (KeyError (VStr k)).
Proof.
  split; [reflexivity |].
  apply (constellation_is_required sample_env Sample.anonymous_item true
           (Dict.del "constellation"
              (Sample.properties "" "2020-01-01T10:00:00Z")));
    reflexivity.
Defined.

(** * Further properties *)

(** ** Cloud-optimised assets *)

Lemma is_cogb_spec asset : is_cogb asset = true <-> is_cog asset.
Proof.
  unfold is_cogb, is_cog. split.
  - destruct (getitem asset "type") as [ty | e]; [| discriminate].
    intros H. now exists ty.
  - intros (ty & -> & H). exact H.
Qed.

Section Paths.

Variable default_grid : string.
Variable relative : bool.

Lemma band_info_path k path :
  getitem (VDict (band_info default_grid k path)) "path" = Ok path.
Proof.
  unfold band_info. destruct (negb (k =? default_grid)%string); reflexivity.
Qed.

(** What a successful iteration records for the asset. *)
Lemma bands_step_path bands grids name asset bands' grids' :
  bands_step default_grid relative (bands, grids) (name, asset)
  = Ok (bands', grids') ->
  (is_cogb asset = false /\ bands' = bands /\ grids' = grids) \/
  (is_cogb asset = true /\
   exists k href path,
     grid_key asset = Ok k /\
     getitem asset "href" = Ok href /\
     band_path relative href = Ok path /\
     bands' = Dict.set name (VDict (band_info default_grid k path)) bands).
Proof.
  unfold bands_step, is_cogb. intros H. bind_inv H. rename a into ty.
  rewrite Hm.
  destruct (value_in ty COG_TYPES) eqn:Hty; cbn [negb] in H.
  - right. split; [reflexivity |].
    bind_inv H. rename a into k. bind_inv H. rename a into g1.
    bind_inv H. rename a into href. bind_inv H. rename a into path.
    injection H as <- <-. exists k, href, path.
    repeat (split; [assumption |]).
    unfold band_info. destruct (negb (k =? default_grid)%string); reflexivity.
  - left. now injection H as <- <-.
Qed.

(** An asset that is not cloud-optimised is skipped. *)
Lemma bands_step_skip st name asset ty :
  getitem asset "type" = Ok ty -> is_cogb asset = false ->
  bands_step default_grid relative st (name, asset) = Ok st.
Proof.
  unfold bands_step, is_cogb. destruct st as [bands grids].
  intros -> Hc. cbn [bind]. now rewrite Hc.
Qed.

Lemma bands_loop_skip entries : forall st,
  (forall name asset, In (name, asset) entries ->
                      exists ty, getitem asset "type" = Ok ty) ->
  bands_loop default_grid relative st entries
  = bands_loop default_grid relative st (cog_assets entries).
Proof.
  induction entries as [| [name asset] rest IH]; intros st Hty; [reflexivity |].
  unfold cog_assets in *. cbn [filter snd bands_loop].
  destruct (is_cogb asset) eqn:Hc.
  - cbn [bands_loop].
    destruct (bands_step default_grid relative st (name, asset)); cbn [bind];
      [| reflexivity].
    apply IH. intros n' a' HI. apply (Hty n' a'). now right.
  - destruct (Hty name asset (or_introl eq_refl)) as [ty Hg].
    rewrite (bands_step_skip st name asset ty Hg Hc). cbn [bind].
    apply IH. intros n' a' HI. apply (Hty n' a'). now right.
Qed.

(** The band of a cloud-optimised asset holds the path of its location. *)
Lemma bands_loop_path entries : forall st st' name asset,
  bands_loop default_grid relative st entries = Ok st' ->
  NoDup (Dict.keys entries) -> In (name, asset) entries -> is_cog asset ->
  exists k href path,
    grid_key asset = Ok k /\
    getitem asset "href" = Ok href /\
    band_path relative href = Ok path /\
    Dict.get name (fst st')
    = Some (VDict (band_info default_grid k path)).
Proof.
  induction entries as [| [n a] rest IH]; simpl;
    intros st st' name asset H Hnd HI Hcog; [contradiction |].
  inversion Hnd as [| ? ? Hni Hnd']; subst. bind_inv H.
  destruct a0 as [b1 g1]. destruct st as [b g].
  destruct HI as [E | HI]; [| eapply IH; eassumption].
  injection E as -> ->.
  apply bands_step_path in Hm
    as [(Hc & _) | (_ & k & href & path & Hk & Hh & Hp & ->)].
  - apply is_cogb_spec in Hcog. congruence.
  - exists k, href, path. repeat (split; [assumption |]).
    rewrite (bands_loop_get_other default_grid relative _ _ _ name H Hni).
    apply DictFacts.get_set_same.
Qed.

Lemma keys_set_new k v d :
  ~ In k (Dict.keys d) -> Dict.keys (Dict.set k v d) = (Dict.keys d ++ [k])%list.
Proof.
  induction d as [| [k0 v0] d IH]; simpl; intros H; [reflexivity |].
  destruct (String.eqb_spec k k0) as [-> | Hne]; [tauto |].
  simpl. f_equal. apply IH. tauto.
Qed.

(** The bands are recorded in the order of the cloud-optimised assets. *)
Lemma bands_loop_keys entries : forall st st',
  bands_loop default_grid relative st entries = Ok st' ->
  NoDup (Dict.keys entries) ->
  (forall n, In n (Dict.keys entries) -> ~ In n (Dict.keys (fst st))) ->
  Dict.keys (fst st')
  = (Dict.keys (fst st) ++ Dict.keys (cog_assets entries))%list.
Proof.
  induction entries as [| [n a] rest IH]; intros st st' H Hnd Hfresh.
  - injection H as <-. simpl. now rewrite app_nil_r.
  - inversion Hnd as [| ? ? Hni Hnd']; subst. simpl in H. bind_inv H.
    destruct a0 as [b1 g1]. destruct st as [b g]. simpl in Hfresh.
    unfold cog_assets. cbn [filter snd].
    apply bands_step_path in Hm
      as [(Hc & -> & ->) | (Hc & k & href & path & _ & _ & _ & ->)];
      rewrite Hc.
    + apply (IH _ _ H Hnd'). intros n' Hn'. apply Hfresh. now right.
    + rewrite (IH _ _ H Hnd').
      * simpl. rewrite keys_set_new by (apply Hfresh; now left).
        now rewrite <- app_assoc.
      * intros n' Hn'. simpl. rewrite DictFacts.keys_set.
        intros [-> | I]; [contradiction |].
        apply (Hfresh n'); [now right | assumption].
Qed.

End Paths.

(** ** File names *)

Lemma split_free sep s w : In w (Str.split sep s) -> free_of sep w.
Proof.
  unfold free_of. revert w. induction s as [| c s IH]; simpl; intros w.
  - intros [<- | []]. simpl. tauto.
  - destruct (Ascii.eqb_spec c sep) as [-> | Hne].
    + intros [<- | HI]; [simpl; tauto | now apply IH].
    + destruct (Str.split sep s) as [| w0 ws].
      * intros [<- | []]. simpl. intros [E | []]. congruence.
      * intros [<- | HI].
        -- simpl. intros [E | I]; [congruence |].
           revert I. apply IH. now left.
        -- apply IH. now right.
Qed.

Lemma last_In {A : Type} (l : list A) (d : A) : last l d = d \/ In (last l d) l.
Proof.
  induction l as [| x l IH]; [now left |].
  destruct l as [| y l]; [right; now left |].
  destruct IH as [E | I].
  - left. exact E.
  - right. right. exact I.
Qed.

(** A file name has no directory separator. *)
Lemma path_name_free p : free_of "/" (path_name p).
Proof.
  unfold path_name.
  match goal with |- free_of _ (last ?l _) => destruct (last_In l "") as [E | I] end.
  - rewrite E. unfold free_of. simpl. tauto.
  - apply filter_In in I as [I _]. eapply split_free; eassumption.
Qed.

Lemma split_nonempty sep s : Str.split sep s <> [].
Proof.
  destruct s as [| c s]; simpl; [discriminate |].
  destruct (Ascii.eqb c sep); [discriminate |].
  destruct (Str.split sep s); discriminate.
Qed.

Lemma split_app sep a b :
  Str.split sep (a ++ String sep b)
  = (Str.split sep a ++ Str.split sep b)%list.
Proof.
  induction a as [| c a IH]; simpl.
  - now rewrite Ascii.eqb_refl.
  - destruct (Ascii.eqb c sep); [now rewrite IH |].
    rewrite IH. pose proof (split_nonempty sep a) as Hne.
    destruct (Str.split sep a) as [| w ws]; [contradiction | reflexivity].
Qed.

Lemma split_free_word sep w : free_of sep w -> Str.split sep w = [w].
Proof.
  unfold free_of. induction w as [| c w IH]; simpl; intros H; [reflexivity |].
  destruct (Ascii.eqb_spec c sep) as [-> | Hne]; [tauto |].
  rewrite IH by tauto. reflexivity.
Qed.

(** The name of [dir/file] is [file]. *)
Lemma path_name_file dir file :
  free_of "/" file -> file <> "" -> file <> "." ->
  path_name (dir ++ "/" ++ file) = file.
Proof.
  intros Hfree He Hd. unfold path_name.
  change (dir ++ "/" ++ file)%string with (dir ++ String "/" file)%string.
  rewrite split_app, (split_free_word _ _ Hfree), filter_app. simpl.
  destruct (String.eqb_spec file "") as [-> | _]; [contradiction |].
  destruct (String.eqb_spec file ".") as [-> | _]; [contradiction |].
  simpl. apply last_last.
Qed.

(** ** Paths of the measurements *)

(** The band of a cloud-optimised asset in the document. *)
Lemma measurement_path E input_stac relative d assets name asset :
  stac_transform E input_stac relative = Ok d ->
  getitem input_stac "assets" = Ok (VDict assets) ->
  NoDup (Dict.keys assets) ->
  In (name, asset) assets -> is_cog asset ->
  exists bands band href path,
    getitem d "measurements" = Ok (VDict bands) /\
    Dict.get name bands = Some band /\
    getitem asset "href" = Ok href /\
    band_path relative href = Ok path /\
    getitem band "path" = Ok path.
Proof.
  intros H Ha Hnd HI Hcog. apply stac_transform_Ok in H as [r ->].
  destruct (_get_stac_bands_Ok _ _ _ _ _ (run_bands _ _ _ r))
    as (assets' & g0 & g & Ha' & Hl & _ & _).
  rewrite Ha in Ha'. injection Ha' as <-.
  destruct (bands_loop_path "g10m" relative _ _ _ _ _ Hl Hnd HI Hcog)
    as (k & href & path & _ & Hh & Hp & Hb).
  exists (bands r), (VDict (band_info "g10m" k path)), href, path.
  split; [reflexivity |]. split; [exact Hb |]. split; [exact Hh |].
  split; [exact Hp | apply band_info_path].
Qed.

(** X1: in the document of [stac_transform_absolute], the path of the band
    of a cloud-optimised asset is the ['href'] of the asset, unchanged. *)
Theorem absolute_paths_are_hrefs E input_stac d assets name asset :
  stac_transform_absolute E input_stac = Ok d ->
  getitem input_stac "assets" = Ok (VDict assets) ->
  NoDup (Dict.keys assets) ->
  In (name, asset) assets -> is_cog asset ->
  exists bands band,
    getitem d "measurements" = Ok (VDict bands) /\
    Dict.get name bands = Some band /\
    getitem band "path" = getitem asset "href".
Proof.
  unfold stac_transform_absolute. intros H Ha Hnd HI Hcog.
  destruct (measurement_path _ _ _ _ _ _ _ H Ha Hnd HI Hcog)
    as (bands & band & href & path & Hm & Hb & Hh & Hp & Hpath).
  exists bands, band. split; [assumption |]. split; [assumption |].
  simpl in Hp. congruence.
Qed.

Lemma absolute_paths_are_hrefs_witness :
  exists d bands band,
    stac_transform_absolute sample_env Sample.other_item = Ok d /\
    getitem d "measurements" = Ok (VDict bands) /\
    Dict.get "B01" bands = Some band /\
    getitem band "path" = Ok (VStr "https://data.example/L8/B01.tif").
Proof.
  destruct (absolute_paths_are_hrefs sample_env Sample.other_item _
              Sample.mixed_assets "B01"
              (Sample.asset Sample.COG "https://data.example/L8/B01.tif"
                 (Sample.transform (VInt 60) 600000 5700000))
              eq_refl eq_refl)
    as (bands & band & Hm & Hb & Hp).
  - vm_compute. repeat constructor; simpl; intuition discriminate.
  - simpl. tauto.
  - eexists. split; reflexivity.
  - eexists. exists bands, band. split; [reflexivity |]. auto.
Defined.

(** X2: in relative mode the ['href'] of a cloud-optimised asset is a
    string and the path of its band is the file name of this location,
    [Path(href).name]; for a location [dir/file] it is [file]. *)
Theorem relative_paths_are_file_names E input_stac d assets name asset :
  stac_transform E input_stac true = Ok d ->
  getitem input_stac "assets" = Ok (VDict assets) ->
  NoDup (Dict.keys assets) ->
  In (name, asset) assets -> is_cog asset ->
  exists bands band href,
    getitem d "measurements" = Ok (VDict bands) /\
    Dict.get name bands = Some band /\
    getitem asset "href" = Ok (VStr href) /\
    getitem band "path" = Ok (VStr (path_name href)) /\
    forall dir file,
      href = (dir ++ "/" ++ file)%string ->
      free_of "/" file -> file <> "" -> file <> "." ->
      getitem band "path" = Ok (VStr file).
Proof.
  intros H Ha Hnd HI Hcog.
  destruct (measurement_path _ _ _ _ _ _ _ H Ha Hnd HI Hcog)
    as (bands & band & href & path & Hm & Hb & Hh & Hp & Hpath).
  simpl in Hp. destruct href as [| | | | p | |]; try discriminate Hp.
  injection Hp as <-. exists bands, band, p.
  repeat (split; [assumption |]).
  intros dir file -> Hf He Hd. now rewrite Hpath, path_name_file.
Qed.

Lemma relative_paths_are_file_names_witness :
  exists d bands band,
    stac_transform sample_env Sample.s2_item true = Ok d /\
    getitem d "measurements" = Ok (VDict bands) /\
    Dict.get "B03" bands = Some band /\
    getitem band "path" = Ok (VStr "B03.tif").
Proof.
  destruct (relative_paths_are_file_names sample_env Sample.s2_item _
              Sample.s2_assets "B03"
              (Sample.asset Sample.COG "https://data.example/S2A/B03.tif"
                 (Sample.transform
                    (VFloat (binary_normalize 53 1024 10 0 false))
                    600000 5700000))
              eq_refl eq_refl)
    as (bands & band & href & Hm & Hb & Hh & Hp & Hfile).
  - vm_compute. repeat constructor; simpl; intuition discriminate.
  - simpl. tauto.
  - eexists. split; reflexivity.
  - eexists. exists bands, band. split; [reflexivity |].
    split; [assumption |]. split; [assumption |].
    vm_compute in Hh. injection Hh as <-.
    apply (Hfile "https://data.example/S2A" "B03.tif");
      [reflexivity | | discriminate | discriminate].
    unfold free_of. simpl. intuition discriminate.
Defined.

(** X3: in relative mode no path of the measurements contains a directory
    separator: every band has a string path without ["/"]. *)
Theorem relative_paths_have_no_separator E input_stac d :
  stac_transform E input_stac true = Ok d ->
  exists bands,
    getitem d "measurements" = Ok (VDict bands) /\
    forall name band,
      In (name, band) bands ->
      exists p, getitem band "path" = Ok (VStr p) /\ free_of "/" p.
Proof.
  intros H. apply stac_transform_Ok in H as [r ->].
  exists (bands r). split; [reflexivity |].
  destruct (_get_stac_bands_Ok _ _ _ _ _ (run_bands _ _ _ r))
    as (assets & g0 & g & _ & Hl & _ & _).
  set (P := fun st : dict * dict =>
              forall name band,
                In (name, band) (fst st) ->
                exists p, getitem band "path" = Ok (VStr p) /\ free_of "/" p).
  assert (Hloop : forall entries st st',
             bands_loop "g10m" true st entries = Ok st' -> P st -> P st').
  { induction entries as [| [n a] rest IH]; simpl; intros st st' Hr HP.
    - now injection Hr as <-.
    - bind_inv Hr. apply (IH _ _ Hr). clear IH Hr.
      destruct st as [b g1], a0 as [b1 g2].
      apply bands_step_path in Hm
        as [(_ & -> & ->) | (_ & k & href & path & _ & _ & Hp & ->)];
        [exact HP |].
      intros name band HI. simpl in HI.
      apply In_set in HI as [(_ & ->) | HI]; [| now apply (HP name band)].
      simpl in Hp. destruct href as [| | | | p | |]; try discriminate Hp.
      injection Hp as <-. exists (path_name p).
      split; [apply band_info_path | apply path_name_free]. }
  apply (Hloop _ _ _ Hl). intros name band [].
Qed.

Lemma relative_paths_have_no_separator_witness :
  exists d bands,
    stac_transform sample_env Sample.other_item true = Ok d /\
    getitem d "measurements" = Ok (VDict bands) /\
    Dict.keys bands = ["B8A"; "B02"; "B01"; "B05"] /\
    forall name band,
      In (name, band) bands ->
      exists p, getitem band "path" = Ok (VStr p) /\ free_of "/" p.
Proof.
  destruct (relative_paths_have_no_separator sample_env Sample.other_item _
              eq_refl) as (bands & Hm & H).
  eexists. exists bands. split; [reflexivity |]. split; [exact Hm |].
  split; [| exact H].
  vm_compute in Hm. injection Hm as <-. reflexivity.
Defined.

(** ** Which assets become measurements *)

(** X4: the measurements of the document are the cloud-optimised assets of
    the item, under their names and in their order; the other assets have
    no band. *)
Theorem measurements_are_cog_assets E input_stac relative d assets :
  stac_transform E input_stac relative = Ok d ->
  getitem input_stac "assets" = Ok (VDict assets) ->
  NoDup (Dict.keys assets) ->
  exists bands,
    getitem d "measurements" = Ok (VDict bands) /\
    Dict.keys bands = Dict.keys (cog_assets assets).
Proof.
  intros H Ha Hnd. apply stac_transform_Ok in H as [r ->].
  exists (bands r). split; [reflexivity |].
  destruct (_get_stac_bands_Ok _ _ _ _ _ (run_bands _ _ _ r))
    as (assets' & g0 & g & Ha' & Hl & _ & _).
  rewrite Ha in Ha'. injection Ha' as <-.
  apply (bands_loop_keys "g10m" relative _ _ _ Hl Hnd).
  intros n _ [].
Qed.

Lemma measurements_are_cog_assets_witness :
  exists d bands,
    stac_transform sample_env Sample.other_item false = Ok d /\
    getitem d "measurements" = Ok (VDict bands) /\
    Dict.keys Sample.mixed_assets = ["thumbnail"; "B8A"; "B02"; "B01"; "B05"] /\
    Dict.keys bands = ["B8A"; "B02"; "B01"; "B05"].
Proof.
  destruct (measurements_are_cog_assets sample_env Sample.other_item false _
              Sample.mixed_assets eq_refl eq_refl)
    as (bands & Hm & Hk).
  - vm_compute. repeat constructor; simpl; intuition discriminate.
  - eexists. exists bands. split; [reflexivity |]. split; [exact Hm |].
    split; [reflexivity | exact Hk].
Defined.

(** X5: the assets that are not cloud-optimised play no part: when every
    asset has a ['type'], [_get_stac_bands] returns for the item what it
    returns for its cloud-optimised assets alone, or raises the same
    exception. *)
Theorem other_assets_are_ignored item item' default_grid relative assets :
  getitem item "assets" = Ok (VDict assets) ->
  getitem item' "assets" = Ok (VDict (cog_assets assets)) ->
  (forall name asset,
     In (name, asset) assets -> exists ty, getitem asset "type" = Ok ty) ->
  _get_stac_bands item default_grid relative
  = _get_stac_bands item' default_grid relative.
Proof.
  intros Ha Ha' Hty. unfold _get_stac_bands.
  rewrite Ha, Ha'. cbn [bind dict_items].
  now rewrite (bands_loop_skip default_grid relative assets ([], []) Hty).
Qed.

Lemma other_assets_are_ignored_witness :
  Dict.keys (cog_assets Sample.mixed_assets) = ["B8A"; "B02"; "B01"; "B05"] /\
  _get_stac_bands Sample.other_item "g10m" true
  = _get_stac_bands
      (VDict [("assets", VDict (cog_assets Sample.mixed_assets))]) "g10m" true.
Proof.
  split; [reflexivity |].
  apply (other_assets_are_ignored Sample.other_item
           (VDict [("assets", VDict (cog_assets Sample.mixed_assets))])
           "g10m" true Sample.mixed_assets eq_refl eq_refl).
  intros name asset HI. simpl in HI.
  repeat destruct HI as [HI | HI]; try contradiction;
    injection HI as _ <-; eexists; reflexivity.
Defined.

(** ** The recorded grids *)

Section Grids.

Variable default_grid : string.
Variable relative : bool.

(** The grid key of every cloud-optimised asset is recorded. *)
Lemma bands_loop_key_recorded entries : forall st st' name asset k,
  bands_loop default_grid relative st entries = Ok st' ->
  In (name, asset) entries -> is_cog asset -> grid_key asset = Ok k ->
  In k (Dict.keys (snd st')).
Proof.
  induction entries as [| [n a] rest IH]; simpl;
    intros st st' name asset k H HI Hcog Hk; [contradiction |].
  bind_inv H. destruct HI as [E | HI]; [| eapply IH; eassumption].
  injection E as -> ->.
  destruct (bands_step_grid default_grid relative _ _ _ _ Hm Hcog)
    as (k' & path & Hk' & _ & Hg).
  rewrite Hk in Hk'. injection Hk' as <-.
  destruct (Dict.get k (snd st)) as [v |].
  - eapply DictFacts.get_In_keys, bands_loop_grids_kept; eassumption.
  - destruct Hg as (sh & tr & _ & _ & Hg).
    eapply DictFacts.get_In_keys, bands_loop_grids_kept; eassumption.
Qed.

End Grids.

(** X6: the keys of the grids [_get_stac_bands] returns are the grid keys
    of the cloud-optimised assets of the item, with the configured default
    key renamed to ['default']: no asset is left without its grid and no
    grid is there without an asset. *)
Theorem grids_are_asset_grids item default_grid relative bands grids assets k :
  _get_stac_bands item default_grid relative = Ok (bands, grids) ->
  getitem item "assets" = Ok (VDict assets) ->
  In k (Dict.keys grids) <->
  exists name asset k0,
    In (name, asset) assets /\ is_cog asset /\
    grid_key asset = Ok k0 /\ k = final_key default_grid k0.
Proof.
  intros H Ha.
  apply _get_stac_bands_Ok in H as (assets' & g0 & g & Ha' & Hl & Hg & ->).
  rewrite Ha in Ha'. injection Ha' as <-.
  pose proof (bands_loop_inv default_grid relative _ _ _ Hl
                (loop_inv_init default_grid)) as (Hnd & Hdef & _).
  assert (Hdg : default_grid <> "default").
  { intros E. apply Hdef. rewrite <- E. eapply DictFacts.get_In_keys; eassumption. }
  assert (Horigin : forall k0, In k0 (Dict.keys g0) ->
            exists name asset,
              In (name, asset) assets /\ is_cog asset /\ grid_key asset = Ok k0).
  { intros k0 HI.
    destruct (bands_loop_grids_origin default_grid relative _ _ _ _ Hl HI)
      as [[] | Hex]. exact Hex. }
  rewrite DictFacts.keys_del by now apply DictFacts.NoDup_set.
  rewrite DictFacts.keys_set. unfold final_key. split.
  - intros (Hne & [-> | HI]).
    + destruct (Horigin default_grid (DictFacts.get_In_keys _ _ _ Hg))
        as (name & asset & I & Hc & Hk).
      exists name, asset, default_grid. now rewrite String.eqb_refl.
    + destruct (Horigin k HI) as (name & asset & I & Hc & Hk).
      exists name, asset, k.
      destruct (String.eqb_spec k default_grid); [contradiction | auto].
  - intros (name & asset & k0 & I & Hc & Hk & ->).
    pose proof (bands_loop_key_recorded default_grid relative _ _ _ _ _ _
                  Hl I Hc Hk) as Hin.
    destruct (String.eqb_spec k0 default_grid) as [-> | Hne].
    + split; [congruence | now left].
    + split; [assumption | now right].
Qed.

Lemma grids_are_asset_grids_witness :
  In "g60m" (Dict.keys (snd Sample.mixed_bands)) <->
  exists name asset k0,
    In (name, asset) Sample.mixed_assets /\ is_cog asset /\
    grid_key asset = Ok k0 /\ "g60m" = final_key "g10m" k0.
Proof.
  apply (grids_are_asset_grids Sample.other_item "g10m" false
           (fst Sample.mixed_bands) (snd Sample.mixed_bands)
           Sample.mixed_assets "g60m");
    [vm_compute; reflexivity | reflexivity].
Defined.

(** X7: the entry of [grids] for a grid key holds the ['proj:shape'] and
    the ['proj:transform'] of the first cloud-optimised asset of the item
    that has this key; the assets that follow share it. *)
Theorem grid_is_first_asset_grid item default_grid relative bands grids
  pre name asset post k :
  _get_stac_bands item default_grid relative = Ok (bands, grids) ->
  getitem item "assets" = Ok (VDict (pre ++ (name, asset) :: post)%list) ->
  (forall n a, In (n, a) pre -> is_cog a -> grid_key a <> Ok k) ->
  is_cog asset -> grid_key asset = Ok k ->
  exists shape transform,
    getitem asset "proj:shape" = Ok shape /\
    getitem asset "proj:transform" = Ok transform /\
    Dict.get (final_key default_grid k) grids
    = Some (VDict [("shape", shape); ("transform", transform)]).
Proof.
  intros H Ha Hpre Hcog Hkey.
  eapply grid_descriptor_of_first_asset; eassumption.
Qed.

Lemma grid_is_first_asset_grid_witness :
  Dict.get "g20m" (snd Sample.mixed_bands)
  = Some (VDict [("shape", VList [VInt 10980; VInt 10980]);
                 ("transform",
                  VList (Sample.transform (VInt 20) 600000 5700000))]).
Proof.
  destruct (grid_is_first_asset_grid Sample.other_item "g10m" false
              (fst Sample.mixed_bands) (snd Sample.mixed_bands)
              [("thumbnail",
                Sample.asset "image/png" "https://data.example/L8/thumb.png" [])]
              "B8A"
              (Sample.asset Sample.COG "https://data.example/L8/B8A.tif"
                 (Sample.transform (VInt 20) 600000 5700000))
              _ "g20m" eq_refl eq_refl)
    as (shape & transform & Hsh & Htr & Hget).
  - intros n a [E | []] [ty [Hty Hin]]. injection E as _ <-.
    vm_compute in Hty. injection Hty as <-. discriminate Hin.
  - eexists. split; reflexivity.
  - vm_compute. reflexivity.
  - vm_compute in Hsh. injection Hsh as <-.
    vm_compute in Htr. injection Htr as <-. exact Hget.
Defined.

(** ** The Sentinel-2 profile *)

(** The lookup for a Sentinel-2 item. *)
Lemma _stac_product_lookup_sentinel2 E item props label pname region :
  getitem item "properties" = Ok props ->
  getitem props "constellation" = Ok (VStr "sentinel-2") ->
  _stac_product_lookup E item = Ok (label, pname, region) ->
  exists epsg band square,
    getitem props "sentinel:product_id" = Ok label /\
    getitem props "proj:epsg" = Ok epsg /\
    getitem props "sentinel:latitude_band" = Ok band /\
    getitem props "sentinel:grid_square" = Ok square /\
    pname = VStr "s2_l2a" /\
    region = VStr (Str.last_n 2 (py_str E epsg) ++ py_str E band
                   ++ py_str E square).
Proof.
  intros Hp Hc. unfold _stac_product_lookup.
  rewrite Hp; cbn [bind]. intros H.
  bind_inv H. bind_inv H. rewrite Hc in H; cbn [bind] in H.
  change (value_in (VStr "sentinel-2") KNOWN_CONSTELLATIONS) with true in H.
  change (value_eq_str (VStr "sentinel-2") "sentinel-2") with true in H.
  cbn iota in H.
  bind_inv H. rename a1 into pid. bind_inv H. rename a1 into epsg.
  bind_inv H. rename a1 into band. bind_inv H. rename a1 into square.
  injection H as <- <- <-. exists epsg, band, square.
  repeat split; assumption.
Qed.

(** X8: for an item of the constellation ['sentinel-2'] the document of a
    successful run is labelled with ['sentinel:product_id'] and its product
    is ['s2_l2a']; its region code is the last two characters of the EPSG
    code followed by the latitude band and the grid square, and it is
    stored under ['odc:region_code'] unless it is empty. *)
Theorem sentinel2_profile E input_stac relative d props :
  stac_transform E input_stac relative = Ok d ->
  getitem input_stac "properties" = Ok props ->
  getitem props "constellation" = Ok (VStr "sentinel-2") ->
  exists epsg band square out,
    getitem props "proj:epsg" = Ok epsg /\
    getitem props "sentinel:latitude_band" = Ok band /\
    getitem props "sentinel:grid_square" = Ok square /\
    getitem d "label" = getitem props "sentinel:product_id" /\
    getitem d "product" = Ok (VDict [("name", VStr "s2_l2a")]) /\
    getitem d "properties" = Ok out /\
    let code := (Str.last_n 2 (py_str E epsg) ++ py_str E band
                 ++ py_str E square)%string in
    (code <> "" -> getitem out "odc:region_code" = Ok (VStr code)) /\
    (code = "" -> has_key out "odc:region_code" = false).
Proof.
  intros H Hp Hc. apply stac_transform_Ok in H as [r ->].
  destruct (_stac_product_lookup_sentinel2 _ _ _ _ _ _ Hp Hc
              (run_lookup _ _ _ r))
    as (epsg & band & square & Hpid & He & Hb & Hs & Hn & Hr).
  exists epsg, band, square. eexists.
  split; [assumption |]. split; [assumption |]. split; [assumption |].
  split; [now rewrite run_document_label |].
  split.
  { rewrite run_document_product. pose proof (run_name _ _ _ r) as Hname.
    rewrite Hn in Hname. simpl in Hname. now injection Hname as <-. }
  split; [apply run_document_properties |].
  rewrite Hr. cbn zeta. cbn [truthy].
  set (code := (Str.last_n 2 (py_str E epsg) ++ py_str E band
                ++ py_str E square)%string).
  destruct (String.eqb_spec code "") as [E0 | Hne]; cbn [negb].
  - split; [contradiction | reflexivity].
  - split; [reflexivity | contradiction].
Qed.

Lemma sentinel2_profile_witness :
  exists d out,
    stac_transform sample_env Sample.s2_item true = Ok d /\
    getitem d "label" = Ok (VStr "S2A_MSIL2A_20200101T100000") /\
    getitem d "properties" = Ok out /\
    getitem out "odc:region_code" = Ok (VStr "33UXV").
Proof.
  destruct (sentinel2_profile sample_env Sample.s2_item true _
              (VDict (Sample.properties "sentinel-2"
                        "2020-01-01T10:00:00.000000+00:00"))
              eq_refl eq_refl eq_refl)
    as (epsg & band & square & out & He & Hb & Hs & Hl & _ & Ho & Hcode & _).
  eexists. exists out. split; [reflexivity |]. split; [exact Hl |].
  split; [exact Ho |].
  vm_compute in He. injection He as <-.
  vm_compute in Hb. injection Hb as <-.
  vm_compute in Hs. injection Hs as <-.
  apply Hcode. discriminate.
Defined.

(** X9: for an item of the constellation ['sentinel-2'] that has an ['id']
    and a ['platform'], the absence of a field of the profile
    (['sentinel:product_id'], ['proj:epsg'], ['sentinel:latitude_band'],
    ['sentinel:grid_square']) makes [_stac_product_lookup], and so
    [stac_transform], raise the [KeyError] of the first field that is
    missing. *)
Theorem sentinel2_missing_field E input_stac relative props id k :
  getitem input_stac "properties" = Ok (VDict props) ->
  getitem input_stac "id" = Ok id ->
  Dict.mem "platform" props = true ->
  getitem (VDict props) "constellation" = Ok (VStr "sentinel-2") ->
  first_missing SENTINEL2_FIELDS props = Some k ->
  _stac_product_lookup E input_stac = Raise (KeyError (VStr k)) /\
  stac_transform E input_stac relative = Raise (KeyError (VStr k)).
Proof.
  intros Hp Hid Hpf Hc Hk.
  assert (Hl : _stac_product_lookup E input_stac = Raise (KeyError (VStr k))).
  { unfold _stac_product_lookup. rewrite Hp; cbn [bind]. rewrite Hid; cbn [bind].
    destruct (getitem_present _ _ Hpf) as [pf ->]; cbn [bind].
    rewrite Hc; cbn [bind].
    change (value_in (VStr "sentinel-2") KNOWN_CONSTELLATIONS) with true.
    change (value_eq_str (VStr "sentinel-2") "sentinel-2") with true.
    cbn iota. unfold first_missing, SENTINEL2_FIELDS in Hk. cbn [find] in Hk.
    repeat match type of Hk with
           | (if negb (Dict.mem ?f props) then _ else _) = _ =>
               let Hf := fresh "Hf" in
               destruct (Dict.mem f props) eqn:Hf; cbn [negb] in Hk;
               [ let v := fresh "v" in
                 let Hv := fresh "Hv" in
                 destruct (getitem_present _ _ Hf) as [v Hv];
                 rewrite Hv; cbn [bind]
               | injection Hk as <-;
                 rewrite (getitem_missing _ _ Hf); reflexivity ]
           end.
    discriminate Hk. }
  split; [exact Hl |]. unfold stac_transform. now rewrite Hl.
Qed.

Lemma sentinel2_missing_field_witness :
  first_missing SENTINEL2_FIELDS
    (Dict.del "sentinel:latitude_band"
       (Sample.properties "sentinel-2" "2020-01-01T10:00:00Z"))
  = Some "sentinel:latitude_band" /\
  stac_transform sample_env
    (Sample.item "S2A_item_10"
       (Dict.del "sentinel:latitude_band"
          (Sample.properties "sentinel-2" "2020-01-01T10:00:00Z"))
       Sample.s2_assets Sample.square) true
  = Raise (KeyError (VStr "sentinel:latitude_band")).
Proof.
  split; [reflexivity |].
  apply (sentinel2_missing_field sample_env _ true
           (Dict.del "sentinel:latitude_band"
              (Sample.properties "sentinel-2" "2020-01-01T10:00:00Z"))
           (VStr "S2A_item_10") "sentinel:latitude_band");
    reflexivity.
Defined.

(** ** The shape of the document *)

(** X10: the document of a successful run has the keys ['$schema'],
    ['id'], ['crs'], ['grids'], ['product'], ['label'], ['properties'],
    ['measurements'] and ['lineage'], in this order, followed by
    ['geometry'] when there is one; the schema is the dataset schema of the
    Open Data Cube, the lineage is empty and the ['crs'] is ["epsg:"]
    followed by the ['proj:epsg'] of the item. *)
Theorem document_keys E input_stac relative d :
  stac_transform E input_stac relative = Ok d ->
  exists doc props epsg,
    d = VDict doc /\
    Dict.keys doc
    = (DOCUMENT_KEYS ++ if has_key d "geometry" then ["geometry"] else [])%list /\
    getitem d "$schema"
    = Ok (VStr "https://schemas.opendatacube.org/dataset") /\
    getitem d "lineage" = Ok (VDict []) /\
    getitem input_stac "properties" = Ok props /\
    getitem props "proj:epsg" = Ok epsg /\
    getitem d "crs" = Ok (VStr ("epsg:" ++ py_str E epsg)).
Proof.
  intros H. apply stac_transform_Ok in H as [r ->].
  eexists. exists (properties r), (epsg r).
  split; [reflexivity |].
  split.
  { unfold run_document, document, has_key, Dict.mem.
    destruct (truthy (geometry r)); reflexivity. }
  split; [reflexivity |]. split; [reflexivity |].
  split; [apply run_properties |]. split; [apply run_epsg | reflexivity].
Qed.

Lemma document_keys_witness :
  exists doc,
    stac_transform sample_env Sample.crossed_item true = Ok (VDict doc) /\
    Dict.keys doc = DOCUMENT_KEYS /\
    getitem (VDict doc) "crs" = Ok (VStr "epsg:32633").
Proof.
  destruct (document_keys sample_env Sample.crossed_item true _ eq_refl)
    as (doc & props & epsg & Hd & Hk & _ & _ & Hp & He & Hcrs).
  exists doc. split; [rewrite <- Hd; reflexivity |].
  rewrite <- Hd. split; [| vm_compute; reflexivity].
  rewrite Hk. replace (has_key _ "geometry") with false; [reflexivity |].
  vm_compute. reflexivity.
Defined.

(** X11: the properties of the document are ['datetime'],
    ['odc:processing_datetime'], ['eo:cloud_cover'], ['eo:gsd'],
    ['eo:instrument'], ['eo:platform'] and ['odc:file_format'], followed by
    ['odc:region_code'] when there is one.  The cloud cover, the sample
    distance (['gsd']) and the platform are those of the item, the
    instrument is the first of its ['instruments'] and the file format is
    ['GeoTIFF']. *)
Theorem document_properties_copied E input_stac relative d props :
  stac_transform E input_stac relative = Ok d ->
  getitem input_stac "properties" = Ok props ->
  exists out instruments,
    getitem d "properties" = Ok (VDict out) /\
    Dict.keys out
    = (PROPERTY_KEYS
       ++ if Dict.mem "odc:region_code" out then ["odc:region_code"] else [])%list /\
    getitem (VDict out) "eo:cloud_cover" = getitem props "eo:cloud_cover" /\
    getitem (VDict out) "eo:gsd" = getitem props "gsd" /\
    getitem (VDict out) "eo:platform" = getitem props "platform" /\
    getitem props "instruments" = Ok instruments /\
    getitem (VDict out) "eo:instrument" = getindex instruments 0 /\
    getitem (VDict out) "odc:file_format" = Ok (VStr "GeoTIFF").
Proof.
  intros H Hp. apply stac_transform_Ok in H as [r ->].
  pose proof (run_properties _ _ _ r) as Hp'. rewrite Hp in Hp'.
  injection Hp' as ->.
  eexists. exists (instruments r).
  split; [apply run_document_properties |].
  rewrite (run_cloud_cover _ _ _ r), (run_gsd _ _ _ r), (run_platform _ _ _ r),
    (run_instrument _ _ _ r).
  cbn zeta. destruct (truthy (region_code r)).
  - repeat split; try reflexivity. apply run_instruments.
  - repeat split; try reflexivity. apply run_instruments.
Qed.

Lemma document_properties_copied_witness :
  exists d out,
    stac_transform sample_env Sample.other_item false = Ok d /\
    getitem d "properties" = Ok (VDict out) /\
    Dict.keys out = PROPERTY_KEYS /\
    getitem (VDict out) "eo:gsd" = Ok (VInt 10) /\
    getitem (VDict out) "eo:instrument" = Ok (VStr "msi").
Proof.
  destruct (document_properties_copied sample_env Sample.other_item false _
              (VDict (Sample.properties "landsat-8" "2020-01-01T10:00:00Z"))
              eq_refl eq_refl)
    as (out & ins & Ho & Hk & _ & Hgsd & _ & Hins & Hi & _).
  eexists. exists out. split; [reflexivity |]. split; [exact Ho |].
  vm_compute in Hins. injection Hins as <-.
  split; [| split; [exact Hgsd | exact Hi]].
  vm_compute in Ho. injection Ho as <-. exact Hk.
Defined.

(** ** The product name *)

Lemma lower_letter_small c :
  ~ (65 <= nat_of_ascii (Str.lower_letter c) <= 90)%nat.
Proof.
  destruct c as [[] [] [] [] [] [] [] []]; vm_compute; lia.
Qed.

Lemma lower_letter_ascii c :
  Nat.ltb (nat_of_ascii c) 128 = true ->
  Nat.ltb (nat_of_ascii (Str.lower_letter c)) 128 = true.
Proof.
  destruct c as [[] [] [] [] [] [] [] []]; vm_compute; congruence.
Qed.

Lemma lower_letter_idempotent c :
  Str.lower_letter (Str.lower_letter c) = Str.lower_letter c.
Proof.
  destruct c as [[] [] [] [] [] [] [] []]; reflexivity.
Qed.

Lemma ascii_lower_small s c :
  In c (list_ascii_of_string (Str.ascii_lower s)) ->
  ~ (65 <= nat_of_ascii c <= 90)%nat.
Proof.
  induction s as [| a s IH]; simpl; [tauto |].
  intros [<- | I]; [apply lower_letter_small | exact (IH I)].
Qed.

Lemma ascii_lower_ascii s :
  Str.is_ascii s = true -> Str.is_ascii (Str.ascii_lower s) = true.
Proof.
  unfold Str.is_ascii. induction s as [| a s IH]; simpl; [reflexivity |].
  intros H. apply andb_prop in H as [Ha Hs].
  now rewrite (lower_letter_ascii _ Ha), (IH Hs).
Qed.

Lemma ascii_lower_idempotent s :
  Str.ascii_lower (Str.ascii_lower s) = Str.ascii_lower s.
Proof.
  induction s as [| c s IH]; simpl; [reflexivity |].
  now rewrite lower_letter_idempotent, IH.
Qed.

(** X12: when the product name the lookup gives is ASCII text, as
    ['s2_l2a'] is, the product name of the document is ASCII text without
    a letter from A to Z, and lower-casing it again changes nothing. *)
Theorem product_name_is_lower_case E input_stac relative d label pname region :
  stac_transform E input_stac relative = Ok d ->
  _stac_product_lookup E input_stac = Ok (label, VStr pname, region) ->
  Str.is_ascii pname = true ->
  exists n,
    getitem d "product" = Ok (VDict [("name", VStr n)]) /\
    Str.is_ascii n = true /\
    (forall c, In c (list_ascii_of_string n) ->
               ~ (65 <= nat_of_ascii c <= 90)%nat) /\
    lower E n = n.
Proof.
  intros H Hl Ha. apply stac_transform_Ok in H as [r ->].
  pose proof (run_lookup _ _ _ r) as Hl'. rewrite Hl in Hl'.
  injection Hl' as _ Hpn _.
  pose proof (run_name _ _ _ r) as Hn. rewrite <- Hpn in Hn.
  unfold str_lower, lower in Hn. rewrite Ha in Hn. injection Hn as Hn.
  exists (Str.ascii_lower pname).
  split; [now rewrite run_document_product, <- Hn |].
  split; [now apply ascii_lower_ascii |].
  split; [intros c; apply ascii_lower_small |].
  unfold lower. rewrite (ascii_lower_ascii _ Ha).
  apply ascii_lower_idempotent.
Qed.

Lemma product_name_is_lower_case_witness :
  exists d,
    stac_transform sample_env Sample.other_item false = Ok d /\
    getitem d "product" = Ok (VDict [("name", VStr "sentinel-2a")]).
Proof.
  destruct (product_name_is_lower_case sample_env Sample.other_item false _
              (VStr "LC08_item_7") "Sentinel-2A" VNone eq_refl eq_refl eq_refl)
    as (n & Hp & _).
  eexists. split; [reflexivity |].
  pose proof Hp as Hp'. vm_compute in Hp'. injection Hp' as <-. exact Hp.
Defined.

(** ** The normalised acquisition time *)

(** A prefix without [z] of the result is a prefix of what is left of the
    source. *)
Lemma prefix_replace_from old z s : forall k o,
  free_of z o ->
  prefix o (Str.replace_from old (String z "") k s) = true ->
  prefix o (string_drop k s) = true.
Proof.
  induction s as [| c s IH]; intros k o Ho H.
  - simpl in H. destruct k; exact H.
  - destruct k as [| k]; [| exact (IH k o Ho H)].
    destruct o as [| a o]; [reflexivity |].
    cbn [Str.replace_from] in H. cbn [string_drop].
    destruct (prefix old (String c s)).
    + exfalso. cbn [append prefix] in H.
      destruct (ascii_dec a z) as [-> | Hne]; [| discriminate].
      apply Ho. simpl. now left.
    + cbn [prefix] in H |- *. destruct (ascii_dec a c); [| discriminate].
      apply (IH 0%nat o); [| exact H].
      intros I. apply Ho. simpl. now right.
Qed.

(** When [z] does not occur in [old], replacing [old] by [z] leaves no
    occurrence of [old]. *)
Lemma find_replace_from old z s : forall k,
  free_of z old -> old <> "" ->
  Str.find old (Str.replace_from old (String z "") k s) = None.
Proof.
  intros k Hz Hne. destruct old as [| a o]; [contradiction |]. clear Hne.
  assert (Haz : a <> z).
  { intros ->. apply Hz. simpl. now left. }
  assert (Ho : free_of z o).
  { intros I. apply Hz. simpl. now right. }
  revert k. induction s as [| c s IH]; intros k.
  - destruct k; reflexivity.
  - destruct k as [| k]; [| exact (IH k)].
    cbn [Str.replace_from].
    destruct (prefix (String a o) (String c s)) eqn:Hp.
    + cbn [append Str.find prefix].
      destruct (ascii_dec a z); [contradiction |]. now rewrite IH.
    + cbn [Str.find].
      destruct (prefix (String a o)
                  (String c (Str.replace_from (String a o) (String z "") 0 s)))
        eqn:Hq; [exfalso | now rewrite IH].
      cbn [prefix] in Hp, Hq. destruct (ascii_dec a c); [| discriminate].
      apply (prefix_replace_from _ _ s 0%nat o Ho) in Hq.
      simpl in Hq. congruence.
Qed.

(** X13: the ['datetime'] and the ['odc:processing_datetime'] of the
    document contain no occurrence of ["000+00:00"]. *)
Theorem datetime_has_no_malformed_offset E input_stac relative d :
  stac_transform E input_stac relative = Ok d ->
  exists out s,
    getitem d "properties" = Ok out /\
    getitem out "datetime" = Ok (VStr s) /\
    getitem out "odc:processing_datetime" = Ok (VStr s) /\
    Str.find "000+00:00" s = None.
Proof.
  intros H. apply stac_transform_Ok in H as [r ->].
  pose proof (run_datetime _ _ _ r) as Hdt.
  destruct (datetime_in r) as [| | | | s | |]; try discriminate Hdt.
  injection Hdt as Hdt.
  eexists. exists (Str.replace "000+00:00" "Z" s).
  split; [apply run_document_properties |]. rewrite <- Hdt.
  split; [destruct (truthy (region_code r)); reflexivity |].
  split; [destruct (truthy (region_code r)); reflexivity |].
  apply (find_replace_from "000+00:00" "Z"); [| discriminate].
  unfold free_of. simpl. intuition discriminate.
Qed.

Lemma datetime_has_no_malformed_offset_witness :
  exists d out,
    stac_transform sample_env Sample.interval_item true = Ok d /\
    getitem d "properties" = Ok out /\
    getitem out "datetime"
    = Ok (VStr "2020-01-01T10:00:00.Z/2020-01-01T10:10:00.Z").
Proof.
  destruct (datetime_has_no_malformed_offset sample_env Sample.interval_item
              true _ eq_refl) as (out & s & Ho & Hd & _ & _).
  eexists. exists out. split; [reflexivity |]. split; [exact Ho |].
  rewrite Hd. vm_compute in Ho. injection Ho as <-.
  vm_compute in Hd. now injection Hd as <-.
Defined.

(** ** Properties of the wrong type *)

(** X14: an item whose ['datetime'] is there but is not a string (a null
    acquisition time, for one) is not transformed; the exception is the
    [AttributeError] of the call of [replace] when the run reaches the
    properties. *)
Theorem non_string_datetime_fails E input_stac relative props v :
  getitem input_stac "properties" = Ok props ->
  getitem props "datetime" = Ok v ->
  (forall s, v <> VStr s) ->
  fails (stac_transform E input_stac relative) /\
  (reaches_properties E input_stac relative props ->
   stac_transform E input_stac relative = Raise AttributeError).
Proof.
  intros Hp Hdt Hv.
  assert (Hrep : str_replace v "000+00:00" "Z" = Raise AttributeError).
  { destruct v; try reflexivity. now destruct (Hv s). }
  split.
  - destruct (stac_transform E input_stac relative) as [d | e] eqn:H;
      [exfalso | now exists e].
    apply stac_transform_Ok in H as [r _].
    pose proof (run_properties _ _ _ r) as Hp'. rewrite Hp in Hp'.
    injection Hp' as Hp'.
    pose proof (run_datetime_in _ _ _ r) as H1.
    pose proof (run_datetime _ _ _ r) as H2.
    rewrite <- Hp', Hdt in H1. injection H1 as H1. rewrite <- H1, Hrep in H2.
    discriminate H2.
  - intros (label & pname & region & bands & grids & epsg & fp & geo & name &
            Hl & Hb & Hp' & He & Hf & Hg & Hn).
    unfold stac_transform. rewrite Hl; cbn [bind]. rewrite Hb; cbn [bind].
    rewrite Hp'; cbn [bind]. rewrite He; cbn [bind]. rewrite Hf; cbn [bind].
    rewrite Hg; cbn [bind]. rewrite Hn; cbn [bind].
    rewrite Hdt; cbn [bind]. now rewrite Hrep.
Qed.

Lemma non_string_datetime_fails_witness :
  stac_transform sample_env null_datetime_item true = Raise AttributeError.
Proof.
  apply (non_string_datetime_fails sample_env null_datetime_item true
           (VDict (Dict.set "datetime" VNone
                     (Sample.properties "sentinel-2" "2020-01-01T10:00:00Z")))
           VNone eq_refl eq_refl).
  - discriminate.
  - do 9 eexists. repeat split; vm_compute; reflexivity.
Defined.

(** X15: an item whose first instrument cannot be taken (an empty list of
    ['instruments'], for one) is not transformed; for an empty list the
    exception is [IndexError] when the run reaches the properties and the
    properties before the instruments are there, with a string
    ['datetime']. *)
Theorem no_instrument_fails E input_stac relative props instruments :
  getitem input_stac "properties" = Ok props ->
  getitem props "instruments" = Ok instruments ->
  fails (getindex instruments 0) ->
  fails (stac_transform E input_stac relative) /\
  (forall s cloud_cover gsd,
     reaches_properties E input_stac relative props ->
     getitem props "datetime" = Ok (VStr s) ->
     getitem props "eo:cloud_cover" = Ok cloud_cover ->
     getitem props "gsd" = Ok gsd ->
     instruments = VList [] ->
     stac_transform E input_stac relative = Raise IndexError).
Proof.
  intros Hp Hins [e He]. split.
  - destruct (stac_transform E input_stac relative) as [d | e'] eqn:H;
      [exfalso | now exists e'].
    apply stac_transform_Ok in H as [r _].
    pose proof (run_properties _ _ _ r) as Hp'. rewrite Hp in Hp'.
    injection Hp' as Hp'.
    pose proof (run_instruments _ _ _ r) as H1.
    pose proof (run_instrument _ _ _ r) as H2.
    rewrite <- Hp', Hins in H1. injection H1 as H1. rewrite <- H1, He in H2.
    discriminate H2.
  - intros s cc gsd
           (label & pname & region & bands & grids & epsg & fp & geo & name &
            Hl & Hb & Hp' & Hepsg & Hf & Hg & Hn) Hdt Hcc Hgsd ->.
    unfold stac_transform. rewrite Hl; cbn [bind]. rewrite Hb; cbn [bind].
    rewrite Hp'; cbn [bind]. rewrite Hepsg; cbn [bind]. rewrite Hf; cbn [bind].
    rewrite Hg; cbn [bind]. rewrite Hn; cbn [bind].
    rewrite Hdt; cbn [bind str_replace]. rewrite Hcc; cbn [bind].
    rewrite Hgsd; cbn [bind]. rewrite Hins; cbn [bind]. reflexivity.
Qed.

Lemma no_instrument_fails_witness :
  stac_transform sample_env no_instrument_item false = Raise IndexError.
Proof.
  apply (proj2 (no_instrument_fails sample_env no_instrument_item false
                  (VDict (Dict.set "instruments" (VList [])
                            (Sample.properties "sentinel-2"
                               "2020-01-01T10:00:00Z")))
                  (VList []) eq_refl eq_refl
                  (ex_intro _ IndexError eq_refl))
          "2020-01-01T10:00:00Z" (VInt 12) (VInt 10));
    try reflexivity.
  do 9 eexists. repeat split; vm_compute; reflexivity.
Defined.

(** ** The two path modes *)

Lemma same_band_grids_set name v v' bands bands' :
  band_grid v = band_grid v' ->
  same_band_grids bands bands' ->
  same_band_grids (Dict.set name v bands) (Dict.set name v' bands').
Proof.
  intros Hv H. induction H as [| [k b] [k' b'] l l' [Hk Hb] Hl IH]; simpl.
  - constructor; [split; [reflexivity | exact Hv] | constructor].
  - simpl in Hk. subst k'.
    destruct (String.eqb name k); constructor; simpl; auto.
Qed.

(** An iteration that succeeds in relative mode succeeds in absolute mode,
    with the same grids. *)
Lemma bands_step_absolute default_grid bands grids entry bands1 grids1 bands' :
  bands_step default_grid true (bands, grids) entry = Ok (bands1, grids1) ->
  same_band_grids bands bands' ->
  exists bands1',
    bands_step default_grid false (bands', grids) entry = Ok (bands1', grids1) /\
    same_band_grids bands1 bands1'.
Proof.
  destruct entry as [name asset]. unfold bands_step. intros H Hs.
  bind_inv H. rename a into ty. rewrite Hm; cbn [bind].
  destruct (value_in ty COG_TYPES); cbn [negb] in H |- *.
  - bind_inv H. rename a into k. rewrite Hm0; cbn [bind].
    bind_inv H. rename a into g1. rewrite Hm1; cbn [bind].
    bind_inv H. rename a into href. rewrite Hm2; cbn [bind].
    bind_inv H. rename a into path. injection H as <- <-.
    eexists. split; [reflexivity |].
    apply same_band_grids_set; [| exact Hs].
    destruct (negb (k =? default_grid)%string); reflexivity.
  - injection H as <- <-. eauto.
Qed.

Lemma bands_loop_absolute default_grid entries : forall st st' bands',
  bands_loop default_grid true st entries = Ok st' ->
  same_band_grids (fst st) bands' ->
  exists bands1',
    bands_loop default_grid false (bands', snd st) entries
    = Ok (bands1', snd st') /\
    same_band_grids (fst st') bands1'.
Proof.
  induction entries as [| entry rest IH]; simpl; intros st st' bands' H Hs.
  - injection H as <-. eauto.
  - bind_inv H. destruct st as [b g], a as [b1 g1].
    destruct (bands_step_absolute _ _ _ _ _ _ _ Hm Hs) as (b1' & Hstep & Hs1).
    destruct (IH (b1, g1) st' b1' H Hs1) as (bf & Hf & Hsf).
    exists bf. split; [| exact Hsf].
    change (bind (bands_step default_grid false (bands', g) entry)
              (fun s => bands_loop default_grid false s rest)
            = Ok (bf, snd st')).
    rewrite Hstep. exact Hf.
Qed.

Lemma _get_stac_bands_absolute item default_grid bands grids :
  _get_stac_bands item default_grid true = Ok (bands, grids) ->
  exists bands',
    _get_stac_bands item default_grid false = Ok (bands', grids) /\
    same_band_grids bands bands'.
Proof.
  intros H.
  apply _get_stac_bands_Ok in H as (assets & g0 & g & Ha & Hl & Hg & ->).
  destruct (bands_loop_absolute _ _ _ _ [] Hl (Forall2_nil _))
    as (bands' & Hl' & Hs).
  exists bands'. split; [| exact Hs].
  unfold _get_stac_bands. rewrite Ha; cbn [bind dict_items].
  simpl in Hl'.
  match goal with
  | |- context [bind (bands_loop ?dg ?rel ?st ?es) _] =>
      rewrite (Hl' : bands_loop dg rel st es = _); cbn [bind]
  end.
  unfold getitem. rewrite Hg. reflexivity.
Qed.

(** X16: an item that [stac_transform] transforms in relative mode is
    transformed by [stac_transform_absolute] too, and the two documents
    differ in their measurements alone: every other key has the same
    value, and the measurements have the same names, in the same order,
    and refer to the same grids. *)
Theorem absolute_mode_follows_relative E input_stac d :
  stac_transform E input_stac true = Ok d ->
  exists d' bands bands',
    stac_transform_absolute E input_stac = Ok d' /\
    (forall k, k <> "measurements" -> getitem d' k = getitem d k) /\
    getitem d "measurements" = Ok (VDict bands) /\
    getitem d' "measurements" = Ok (VDict bands') /\
    same_band_grids bands bands'.
Proof.
  intros H. apply stac_transform_Ok in H as [r ->].
  destruct (_get_stac_bands_absolute _ _ _ _ (run_bands _ _ _ r))
    as (bands' & Hb & Hs).
  set (r' := Build_run E input_stac false
               (product_label r) (product_name r) (region_code r)
               bands' (grids r) (properties r) (epsg r) (footprint r)
               (geometry r) (name r) (datetime_in r) (datetime r)
               (cloud_cover r) (gsd r) (instruments r) (instrument r)
               (platform r)
               (run_lookup _ _ _ r) Hb (run_properties _ _ _ r)
               (run_epsg _ _ _ r) (run_footprint _ _ _ r)
               (run_geometry _ _ _ r) (run_name _ _ _ r)
               (run_datetime_in _ _ _ r) (run_datetime _ _ _ r)
               (run_cloud_cover _ _ _ r) (run_gsd _ _ _ r)
               (run_instruments _ _ _ r) (run_instrument _ _ _ r)
               (run_platform _ _ _ r)).
  exists (run_document r'), (bands r), bands'.
  split; [apply (stac_transform_run E input_stac false r') |].
  split; [| split; [reflexivity | split; [reflexivity | exact Hs]]].
  intros k Hk. unfold run_document, document, getitem. subst r'.
  cbn [product_label product_name region_code bands grids properties epsg
       footprint geometry name datetime_in datetime cloud_cover gsd
       instruments instrument platform].
  cbn [app Dict.get].
  repeat match goal with
         | |- context [String.eqb k ?s] =>
             destruct (String.eqb_spec k s); [subst k; try reflexivity |]
         end;
    try reflexivity; contradiction.
Qed.

Lemma absolute_mode_follows_relative_witness :
  exists d d',
    stac_transform sample_env Sample.s2_item true = Ok d /\
    stac_transform_absolute sample_env Sample.s2_item = Ok d' /\
    getitem d' "grids" = getitem d "grids" /\
    getitem d' "measurements" <> getitem d "measurements".
Proof.
  destruct (absolute_mode_follows_relative sample_env Sample.s2_item _ eq_refl)
    as (d' & bands & bands' & Hd' & Hsame & _ & _ & _).
  eexists. exists d'. split; [reflexivity |]. split; [exact Hd' |].
  split; [apply Hsame; discriminate |].
  vm_compute in Hd'. injection Hd' as <-. vm_compute. discriminate.
Defined.

(** ** What the consolidation asks of the assets *)

Lemma bands_loop_requirements default_grid relative entries :
  forall st st' name asset,
    bands_loop default_grid relative st entries = Ok st' ->
    In (name, asset) entries ->
    (exists ty, getitem asset "type" = Ok ty) /\
    (is_cog asset ->
     exists k href path,
       grid_key asset = Ok k /\
       getitem asset "href" = Ok href /\
       band_path relative href = Ok path).
Proof.
  induction entries as [| [n a] rest IH]; intros st st' name asset Hl HI;
    [contradiction |].
  simpl in Hl. bind_inv Hl. destruct HI as [E | HI]; [| eapply IH; eassumption].
  injection E as -> ->. destruct st as [b1 g1], a0 as [b2 g2].
  split.
  - unfold bands_step in Hm. bind_inv Hm. eauto.
  - intros Hcog.
    apply bands_step_path in Hm
      as [(Hc & _) | (_ & k & href & path & Hk & Hh & Hp & _)].
    + apply is_cogb_spec in Hcog. congruence.
    + exists k, href, path. auto.
Qed.

(** X17: when [_get_stac_bands] succeeds, every asset of the item has a
    ['type'], cloud-optimised or not, and every cloud-optimised asset has
    a grid key and an ['href'] that gives its path (a string in relative
    mode): an asset without them makes the consolidation fail. *)
Theorem consolidation_requirements item default_grid relative bands grids
  assets name asset :
  _get_stac_bands item default_grid relative = Ok (bands, grids) ->
  getitem item "assets" = Ok (VDict assets) ->
  In (name, asset) assets ->
  (exists ty, getitem asset "type" = Ok ty) /\
  (is_cog asset ->
   exists k href path,
     grid_key asset = Ok k /\
     getitem asset "href" = Ok href /\
     band_path relative href = Ok path).
Proof.
  intros H Ha HI.
  apply _get_stac_bands_Ok in H as (assets' & g0 & g & Ha' & Hl & _ & _).
  rewrite Ha in Ha'. injection Ha' as <-.
  eapply bands_loop_requirements; eassumption.
Qed.

Lemma consolidation_requirements_witness :
  (exists ty,
     getitem (Sample.asset "image/png" "https://data.example/L8/thumb.png" [])
             "type" = Ok ty) /\
  exists bands grids,
    _get_stac_bands Sample.other_item "g10m" true = Ok (bands, grids).
Proof.
  split.
  - apply (consolidation_requirements Sample.other_item "g10m" false
             (fst Sample.mixed_bands) (snd Sample.mixed_bands)
             Sample.mixed_assets "thumbnail");
      [vm_compute; reflexivity | reflexivity | simpl; tauto].
  - do 2 eexists. vm_compute. reflexivity.
Defined.

(** * The benchmark command line *)

Module CliFacts.
Import Cli.

(** ** Commands *)

Lemma trace_bind {A B : Type} (m : cli A) (k : A -> cli B) :
  trace (bind m k)
  = match outcome m with
    | inl a => (trace m ++ trace (k a))%list
    | inr _ => trace m
    end.
Proof.
  destruct m as [t [a | e]]; simpl; [destruct (k a) |]; reflexivity.
Qed.

Lemma outcome_bind {A B : Type} (m : cli A) (k : A -> cli B) :
  outcome (bind m k)
  = match outcome m with
    | inl a => outcome (k a)
    | inr e => inr e
    end.
Proof.
  destruct m as [t [a | e]]; simpl; [destruct (k a) |]; reflexivity.
Qed.

Lemma harmless_bind {A B : Type} (m : cli A) (k : A -> cli B) :
  forallb harmless (trace m) = true ->
  (forall a, forallb harmless (trace (k a)) = true) ->
  forallb harmless (trace (bind m k)) = true.
Proof.
  intros Hm Hk. rewrite trace_bind. destruct (outcome m) as [a | e]; [| exact Hm].
  rewrite forallb_app, Hm. apply Hk.
Qed.

Lemma harmless_lift {A : Type} (m : exc A) :
  forallb harmless (trace (lift m)) = true.
Proof. destruct m; reflexivity. Qed.

Lemma harmless_load_json B file :
  forallb harmless (trace (load_json B file)) = true.
Proof.
  unfold load_json. apply harmless_bind; [reflexivity |]. intros _.
  apply harmless_bind; [apply harmless_lift |]. intros text.
  apply harmless_lift.
Qed.

Lemma for_each_emit {A : Type} (xs : list A) (f : A -> event) :
  for_each xs (fun x => emit (f x)) = (map f xs, inl tt).
Proof.
  induction xs as [| x xs IH]; [reflexivity |].
  simpl. rewrite IH. reflexivity.
Qed.

(** ** [prepare] *)

(** X18: with [--list-sample-sites], [prepare] echoes the heading and the
    names of the sample sites, in the order of the table, and returns:
    whatever the other options are, it reads no file and dumps no site. *)
Theorem prepare_lists_sample_sites B sample_site from_file overwrite :
  prepare B sample_site true from_file overwrite
  = (Echo "Sample sites:"
       :: map (fun site_name => Echo ("   " ++ site_name))
              (Dict.keys (SAMPLE_SITES B)),
     inl tt).
Proof.
  unfold prepare. rewrite for_each_emit. reflexivity.
Qed.

(** X19: [prepare] refuses with a [ClickException], before it prints or
    dumps anything: a sample site that is not in the table (["No such
    site: ..."], even when a file is given too), and the absence of both a
    sample site and a file; a file that holds the JSON value [null] is
    refused like the absence of both, once the file is read. *)
Theorem prepare_refusals B overwrite :
  (forall name from_file,
     Dict.get name (SAMPLE_SITES B) = None ->
     prepare B (Some name) false from_file overwrite
     = ([], inr (ClickException ("No such site: " ++ name)))) /\
  prepare B None false None overwrite
  = ([], inr (ClickException
                "Have to supply one of --sample-site or --from-file")) /\
  (forall file text,
     read_text B file = Ok text -> json_loads B text = Ok VNone ->
     prepare B None false (Some file) overwrite
     = ([Open file "rt"],
        inr (ClickException
               "Have to supply one of --sample-site or --from-file"))).
Proof.
  split; [| split].
  - intros name from_file Hget. unfold prepare. rewrite Hget. reflexivity.
  - reflexivity.
  - intros file text Hr Hj. unfold prepare, load_json.
    rewrite Hr. simpl. rewrite Hj. reflexivity.
Qed.

Lemma prepare_refusals_witness :
  prepare sample_bench (Some "nowhere") false (Some "site.geojson") true
  = ([], inr (ClickException "No such site: nowhere")) /\
  prepare sample_bench None false (Some "null.json") true
  = ([Open "null.json" "rt"],
     inr (ClickException
            "Have to supply one of --sample-site or --from-file")).
Proof.
  split.
  - apply (proj1 (prepare_refusals sample_bench true)). reflexivity.
  - apply (proj2 (proj2 (prepare_refusals sample_bench true)) "null.json"
             "null.json"); reflexivity.
Defined.

(** X20: [prepare] dumps at most one site, as its last event: the site is
    not [None], the flag is the [--overwrite] of the command line, and
    everything before the dump reads or prints. *)
Theorem prepare_dumps_last B sample_site list_sample_sites from_file overwrite
  site flag :
  In (DumpSite site flag)
     (trace (prepare B sample_site list_sample_sites from_file overwrite)) ->
  list_sample_sites = false /\ site <> VNone /\ flag = overwrite /\
  exists before,
    trace (prepare B sample_site list_sample_sites from_file overwrite)
    = (before ++ [DumpSite site flag])%list /\
    forallb harmless before = true.
Proof.
  unfold prepare. destruct list_sample_sites.
  - rewrite for_each_emit. simpl. intros [E | HI]; [discriminate |].
    apply in_map_iff in HI as (n & E & _). discriminate.
  - destruct sample_site as [name |].
    + destruct (Dict.get name (SAMPLE_SITES B)) as [s |]; [| intros []].
      destruct s; simpl;
        try (destruct (dump_site B _ overwrite); simpl;
             intros HI; repeat destruct HI as [HI | HI];
             try discriminate; try contradiction;
             injection HI as <- <-;
             (split; [reflexivity |]); (split; [discriminate |]);
             (split; [reflexivity |]);
             eexists [_; _; _; _]; split; reflexivity).
      intros [].
    + destruct from_file as [file |]; [| intros []].
      unfold load_json. simpl.
      destruct (read_text B file) as [text | e]; simpl;
        [| intros [E | []]; discriminate].
      destruct (json_loads B text) as [s | e]; simpl;
        [| intros [E | []]; discriminate].
      destruct s; simpl;
        try (destruct (dump_site B _ overwrite); simpl;
             intros HI; repeat destruct HI as [HI | HI];
             try discriminate; try contradiction;
             injection HI as <- <-;
             (split; [reflexivity |]); (split; [discriminate |]);
             (split; [reflexivity |]);
             eexists [_]; split; reflexivity).
      intros [E | []]; discriminate.
Qed.

Lemma prepare_dumps_last_witness :
  trace (prepare sample_bench (Some "s2-ms-mosaic") false None true)
  = [Print "Site config:";
     Print "------------------------------------------";
     Print "{...}";
     Print "------------------------------------------";
     DumpSite (VDict [("file_id", VStr "s2-ms-mosaic")]) true].
Proof.
  destruct (prepare_dumps_last sample_bench (Some "s2-ms-mosaic") false None
              true (VDict [("file_id", VStr "s2-ms-mosaic")]) true)
    as (_ & _ & _ & before & Ht & _).
  - simpl. tauto.
  - reflexivity.
Defined.

(** ** [run] *)

(** X21: with [--show-config], [run] reads its files and prints, and does
    nothing else: it does not connect to a scheduler and writes no
    result, whatever the other arguments are. *)
Theorem run_show_config_is_harmless B site config method ntimes bands chunks
  resolution crs resampling scheduler :
  forallb harmless
    (trace (run B site config method ntimes bands chunks resolution crs
              resampling true scheduler)) = true.
Proof.
  unfold run. apply harmless_bind.
  - destruct config as [config |]; [| reflexivity].
    apply harmless_bind; [reflexivity |]. intros _.
    apply harmless_bind; [apply harmless_lift |]. intros text.
    apply harmless_lift.
  - intros cfg. apply harmless_bind; [apply harmless_load_json |].
    intros site_geojson. apply harmless_bind; [apply harmless_lift |].
    intros features. apply harmless_bind; [apply harmless_lift |].
    intros n. reflexivity.
Qed.

Lemma rpartition_free sep s : free_of sep s -> rpartition sep s = None.
Proof.
  unfold free_of. induction s as [| c s IH]; simpl; intros H; [reflexivity |].
  rewrite IH by tauto.
  destruct (Ascii.eqb_spec c sep) as [-> | _]; [tauto | reflexivity].
Qed.

Lemma rpartition_last sep a b :
  free_of sep b -> rpartition sep (a ++ String sep b) = Some (a, b).
Proof.
  intros Hb. induction a as [| c a IH]; simpl.
  - now rewrite (rpartition_free _ _ Hb), Ascii.eqb_refl.
  - now rewrite IH.
Qed.

Lemma scenario_apply_options cfg site method bands chunks resolution crs
  resampling :
  scenario (apply_options cfg site method bands chunks resolution crs
              resampling)
  = if String.eqb (scenario cfg) "" then hd "" (rsplit1 "." site)
    else scenario cfg.
Proof.
  unfold apply_options.
  destruct chunks, method, bands, resolution, crs, resampling; simpl;
    destruct (String.eqb (scenario cfg) ""); reflexivity.
Qed.

(** X22: the options of [run] leave a scenario of the configuration as it
    is; a configuration without scenario gets the path of the site up to
    its last dot: the stem of [stem.ext], the whole path when it has no
    dot. *)
Theorem scenario_from_site cfg site method bands chunks resolution crs
  resampling :
  let cfg' := apply_options cfg site method bands chunks resolution crs
                resampling in
  (scenario cfg <> "" -> scenario cfg' = scenario cfg) /\
  (scenario cfg = "" ->
   (forall stem ext,
      site = (stem ++ "." ++ ext)%string -> free_of "." ext ->
      scenario cfg' = stem) /\
   (free_of "." site -> scenario cfg' = site)).
Proof.
  cbn zeta. rewrite scenario_apply_options. split.
  - intros Hne. destruct (String.eqb_spec (scenario cfg) ""); [contradiction |].
    reflexivity.
  - intros ->. simpl. unfold rsplit1. split.
    + intros stem ext -> Hfree.
      change (stem ++ "." ++ ext)%string with (stem ++ String "." ext)%string.
      now rewrite rpartition_last.
    + intros Hfree. now rewrite rpartition_free.
Qed.

Lemma scenario_from_site_witness :
  scenario (apply_options (initial_params sample_bench) "./data/site.geojson"
              None None None None None None) = "./data/site" /\
  scenario (apply_options (initial_params sample_bench) "./data/site"
              None None None None None None) = "".
Proof.
  split.
  - apply (proj1 (proj2 (scenario_from_site (initial_params sample_bench)
                           "./data/site.geojson" None None None None None None)
                    eq_refl) "./data/site" "geojson");
      [reflexivity | unfold free_of; simpl; intuition discriminate].
  - apply (proj1 (proj2 (scenario_from_site (initial_params sample_bench)
                           "./data/site" None None None None None None)
                    eq_refl) "" "/data/site");
      [reflexivity | unfold free_of; simpl; intuition discriminate].
Defined.

Lemma join_cons_char sep c w ws :
  join sep (String c w :: ws) = String c (join sep (w :: ws)).
Proof. destruct ws; reflexivity. Qed.

Lemma join_split sep s : join (String sep "") (Str.split sep s) = s.
Proof.
  induction s as [| c s IH]; [reflexivity |]. simpl.
  pose proof (split_nonempty sep s) as Hne.
  destruct (Ascii.eqb_spec c sep) as [-> | _].
  - destruct (Str.split sep s) as [| w ws]; [contradiction |].
    change (join (String sep "") ("" :: w :: ws))
      with (String sep (join (String sep "") (w :: ws))).
    now rewrite IH.
  - destruct (Str.split sep s) as [| w ws]; [contradiction |].
    now rewrite join_cons_char, IH.
Qed.

Lemma length_split sep s :
  List.length (Str.split sep s) = S (occurrences sep s).
Proof.
  induction s as [| c s IH]; [reflexivity |]. simpl.
  pose proof (split_nonempty sep s) as Hne.
  destruct (Ascii.eqb c sep); simpl; [now rewrite IH |].
  destruct (Str.split sep s) as [| w ws]; [contradiction |]. exact IH.
Qed.

(** X23: the [--bands] option of [run] is cut at its commas: joining the
    bands of the configuration with commas gives the option back, no band
    holds a comma, and there is one band more than there are commas (so
    an empty option gives one band, the empty one). *)
Theorem bands_option_is_split cfg site method option chunks resolution crs
  resampling :
  exists names,
    bands (apply_options cfg site method (Some option) chunks resolution crs
             resampling) = Some names /\
    join "," names = option /\
    (forall name, In name names -> free_of "," name) /\
    List.length names = S (occurrences "," option).
Proof.
  exists (Str.split "," option). split.
  - unfold apply_options.
    destruct chunks, method, resolution, crs, resampling; simpl;
      match goal with
      | |- context [String.eqb ?s ""] => destruct (String.eqb s "")
      end; reflexivity.
  - split; [apply join_split |].
    split; [intros name; apply split_free | apply length_split].
Qed.

(** X24: when [run] goes to its end, it has connected to the scheduler of
    the command line and its last three events announce, open for writing
    and fill the file of the results, [<scenario>_<time>.pkl], named after
    the scenario of the configuration it has printed. *)
Theorem run_saves_results B site config method ntimes bands chunks resolution
  crs resampling scheduler :
  outcome (run B site config method ntimes bands chunks resolution crs
             resampling false scheduler) = inl tt ->
  exists cfg0 before,
    match config with
    | Some file =>
        exists text, read_text B file = Ok text /\ from_json B text = Ok cfg0
    | None => cfg0 = initial_params B
    end /\
    let cfg := apply_options cfg0 site method bands chunks resolution crs
                 resampling in
    let file := (scenario cfg ++ "_" ++ now B ++ ".pkl")%string in
    trace (run B site config method ntimes bands chunks resolution crs
             resampling false scheduler)
    = (before ++ [Print ("Saving results to: " ++ file); Open file "wb";
                  PickleDump file])%list /\
    In (Connect scheduler) before /\
    In (Print (to_json B cfg 2)) before.
Proof.
  intros H.
  assert (Hsteps :
    exists cfg0 stext geo features n client xx results,
      match config with
      | Some file =>
          exists text,
            read_text B file = Ok text /\ from_json B text = Ok cfg0
      | None => cfg0 = initial_params B
      end /\
      read_text B site = Ok stext /\
      json_loads B stext = Ok geo /\
      getitem geo "features" = Ok features /\
      py_len features = Ok n /\
      connect B scheduler = Ok client /\
      load_from_json B geo
        (apply_options cfg0 site method bands chunks resolution crs resampling)
      = Ok xx /\
      run_bench B xx client ntimes = Ok results /\
      write_pickle B
        (scenario (apply_options cfg0 site method bands chunks resolution crs
                     resampling) ++ "_" ++ now B ++ ".pkl")%string results
      = Ok tt).
  { unfold run, load_json in H.
    destruct config as [file |]; cli_inv H;
      do 8 eexists; repeat split; try eassumption; try reflexivity.
    eexists; split; eassumption. }
  destruct Hsteps as (cfg0 & stext & geo & features & n & client & xx & results
                      & Hc & Hr & Hj & Hf & Hn & Hcon & Hx & Hb & Hw).
  exists cfg0.
  assert (Hcfg : (match config with
                  | Some config =>
                      emit (Open config "rt") ;;;
                      text <-- lift (read_text B config) ;;;
                      lift (from_json B text)
                  | None => ret (initial_params B)
                  end)
                 = (match config with
                    | Some config => [Open config "rt"]
                    | None => []
                    end, inl cfg0)).
  { destruct config as [file |]; [| now subst cfg0].
    destruct Hc as (text & Ht & Hfj). cbn. rewrite Ht. cbn. now rewrite Hfj. }
  unfold run, load_json. rewrite Hcfg.
  cbn [bind lift ret emit raise app]. rewrite Hr.
  cbn [bind lift ret emit raise app]. rewrite Hj.
  cbn [bind lift ret emit raise app]. rewrite Hf.
  cbn [bind lift ret emit raise app]. rewrite Hn.
  cbn [bind lift ret emit raise app]. rewrite Hcon.
  cbn [bind lift ret emit raise app]. rewrite Hx.
  cbn [bind lift ret emit raise app]. rewrite Hb.
  cbn [bind lift ret emit raise app]. rewrite Hw.
  cbn [bind lift ret emit raise app trace fst].
  match goal with
  | |- exists before, _ /\ (?t = _ /\ _) =>
      exists (removelast (removelast (removelast t)))
  end.
  split; [exact Hc |]. destruct config; cbn; repeat split; tauto.
Qed.

Lemma run_saves_results_witness :
  exists before,
    trace (run sample_bench "site.geojson" None None 3 (Some "B02,B03") None
             None None None false "tcp://localhost:8786")
    = (before ++ [Print "Saving results to: site_20200101T100000.000000.pkl";
                  Open "site_20200101T100000.000000.pkl" "wb";
                  PickleDump "site_20200101T100000.000000.pkl"])%list.
Proof.
  destruct (run_saves_results sample_bench "site.geojson" None None 3
              (Some "B02,B03") None None None None "tcp://localhost:8786"
              eq_refl) as (cfg0 & before & Hc & Ht & _).
  exists before. rewrite Hc in Ht. exact Ht.
Defined.

End CliFacts.
